(** * Seshat-Agent: the processing pipeline, embedded and verified

    A shallow embedding of the Python sources
    [orchestrator.py], [input_manager.py], [summarizer_service.py],
    [notion_handler.py] and [transcriber.py].

    Conventions of the embedding.
    - A Python [str] is a [string]; every character stands for one code
      point below 256, and the character classes ([isspace], [lower])
      are those of Python's [str] methods on that range.
    - A call that may raise returns a [Result]; [try]/[except] is a
      [match] on it.
    - The outside world (file system, speech model, language model, remote
      workspace) is a state of an arbitrary type [W] threaded through every
      effectful call; every computation also reports the trace of the
      capability calls it made.
    - A [dict] used as a record with fixed keys is a [Record]; the
      date mapping, a real dictionary, is a [gmap string string]. *)

From Stdlib Require Import Ascii String NArith Arith Lia.
From stdpp Require Import base list strings gmap.

Local Open Scope list_scope.

(* ================================================================= *)
(** ** Python values: exceptions and results *)

Module Py.

(** The exception classes the sources raise or catch by name.
    [OtherException] stands for any other subclass of [Exception]. *)
Inductive ExnClass :=
| FileNotFoundError
| RuntimeError
| ValueError
| AttributeError
| UnboundLocalError
| CalledProcessError
| APIResponseError
| OtherException.

(** An exception object: its class, [str(e)], and for the remote
    client's [APIResponseError] the attributes [e.code] and [e.body]. *)
Record Exn := mkExn {
  exn_class : ExnClass;
  exn_str : string;
  exn_code : string;
  exn_body : string
}.

Definition raise_ (c : ExnClass) (msg : string) : Exn := mkExn c msg "" "".

Definition class_eqb (a b : ExnClass) : bool :=
  match a, b with
  | FileNotFoundError, FileNotFoundError
  | RuntimeError, RuntimeError
  | ValueError, ValueError
  | AttributeError, AttributeError
  | UnboundLocalError, UnboundLocalError
  | CalledProcessError, CalledProcessError
  | APIResponseError, APIResponseError
  | OtherException, OtherException => true
  | _, _ => false
  end.

Inductive Result (A : Type) :=
| Returns (a : A)
| Raises (e : Exn).
Arguments Returns {A} a.
Arguments Raises {A} e.

Definition rbind {A B} (r : Result A) (k : A -> Result B) : Result B :=
  match r with
  | Returns a => k a
  | Raises e => Raises e
  end.

End Py.
Export Py.

Notation "'try!' x <- r ; k" := (rbind r (fun x => k))
  (at level 100, x binder, r at next level, k at level 200, right associativity).

(* ================================================================= *)
(** ** The [str] methods the sources use *)

Module PyStr.

Definition code (c : ascii) : N := N_of_ascii c.

(** [c.isspace()] for a code point below 256. *)
Definition isspace (c : ascii) : bool :=
  let n := code c in
  ((9 <=? n) && (n <=? 13) || (28 <=? n) && (n <=? 32)
   || (n =? 133) || (n =? 160))%N.

(** [c.lower()] for a code point below 256: the ASCII capitals and the
    Latin-1 capitals (all of 192..222 but the multiplication sign). *)
Definition lower_char (c : ascii) : ascii :=
  let n := code c in
  if ((65 <=? n) && (n <=? 90)
      || (192 <=? n) && (n <=? 222) && negb (n =? 215))%N
  then ascii_of_N (n + 32) else c.

Fixpoint lower (s : string) : string :=
  match s with
  | EmptyString => EmptyString
  | String c r => String (lower_char c) (lower r)
  end.

(** Truth value of a string: [not s] is [is_empty s]. *)
Definition is_empty (s : string) : bool :=
  match s with EmptyString => true | String _ _ => false end.

Fixpoint lstrip (s : string) : string :=
  match s with
  | EmptyString => EmptyString
  | String c r => if isspace c then lstrip r else s
  end.

Fixpoint rstrip (s : string) : string :=
  match s with
  | EmptyString => EmptyString
  | String c r =>
      match rstrip r with
      | EmptyString => if isspace c then EmptyString else String c EmptyString
      | r' => String c r'
      end
  end.

(** Every character of [s] satisfies [p]; with [isspace], the string is
    empty or whitespace only. *)
Fixpoint all_chars (p : ascii -> bool) (s : string) : bool :=
  match s with
  | EmptyString => true
  | String c r => p c && all_chars p r
  end.

(** [s.strip()] *)
Definition strip (s : string) : string := rstrip (lstrip s).

Fixpoint mem_char (c : ascii) (chars : string) : bool :=
  match chars with
  | EmptyString => false
  | String d r => Ascii.eqb c d || mem_char c r
  end.

(** [s.lstrip(chars)]: drop the leading characters that occur in [chars]. *)
Fixpoint lstrip_chars (chars s : string) : string :=
  match s with
  | EmptyString => EmptyString
  | String c r => if mem_char c chars then lstrip_chars chars r else s
  end.

(** [s.split(sep)] for a one-character separator: never an empty list. *)
Fixpoint split (sep : ascii) (s : string) : list string :=
  match s with
  | EmptyString => [EmptyString]
  | String c r =>
      if Ascii.eqb c sep then EmptyString :: split sep r
      else match split sep r with
           | h :: t => String c h :: t
           | [] => [String c EmptyString]
           end
  end.

(** [s.startswith(p)] *)
Definition startswith (p s : string) : bool := String.prefix p s.

(** [needle in hay] *)
Fixpoint contains (needle hay : string) : bool :=
  String.prefix needle hay
  || match hay with
     | EmptyString => false
     | String _ r => contains needle r
     end.

(** [s[i:j]] for [0 <= i <= j]: slicing truncates at the end of [s]. *)
Definition slice (s : string) (i j : nat) : string :=
  String.substring i (j - i) s.

(** [s[n:]] *)
Fixpoint slice_from (n : nat) (s : string) : string :=
  match n, s with
  | S k, String _ r => slice_from k r
  | _, _ => s
  end.

(** [range(start, stop, step)] for a positive [step] and
    [start <= stop]: [ceil((stop - start) / step)] values. *)
Fixpoint range_from (start step count : nat) : list nat :=
  match count with
  | O => []
  | S k => start :: range_from (start + step) step k
  end.

Definition range (start stop step : nat) : list nat :=
  range_from start step ((stop - start + (step - 1)) / step).

(** [sep.join(parts)] with the empty separator. *)
Definition join (parts : list string) : string :=
  fold_right String.append EmptyString parts.

Definition nl : ascii := ascii_of_nat 10.
Definition dquote : string := String (ascii_of_nat 34) EmptyString.

End PyStr.

(* ================================================================= *)
(** ** [pathlib.Path] as the sources use it *)

Module PathLib.
Import PyStr.

(** A path [parent / name]; [parent] is the text of the directory. *)
Record Path := mkPath { parent : string; name : string }.

(** [str(p)] *)
Definition path_str (p : Path) : string :=
  if String.eqb (parent p) "." then name p
  else if String.eqb (parent p) "/" then "/" +:+ name p
  else parent p +:+ "/" +:+ name p.

(** [d / n] for a directory given by its text. *)
Definition joinpath (d n : string) : Path := mkPath d n.

(** [s.rfind(c)]: [None] stands for [-1]. *)
Fixpoint rfind (c : ascii) (s : string) : option nat :=
  match s with
  | EmptyString => None
  | String d r =>
      match rfind c r with
      | Some i => Some (S i)
      | None => if Ascii.eqb d c then Some 0 else None
      end
  end.

(** The index at which the suffix of a file name starts, when it has
    one: [i = name.rfind('.')] with [0 < i < len(name) - 1]. *)
Definition suffix_index (n : string) : option nat :=
  match rfind "."%char n with
  | Some i => if (0 <? i) && (i <? String.length n - 1) then Some i else None
  | None => None
  end.

(** [p.suffix] *)
Definition suffix (p : Path) : string :=
  match suffix_index (name p) with
  | Some i => slice (name p) i (String.length (name p))
  | None => EmptyString
  end.

(** [p.stem] *)
Definition stem (p : Path) : string :=
  match suffix_index (name p) with
  | Some i => slice (name p) 0 i
  | None => name p
  end.

End PathLib.
Export PathLib.

(* ================================================================= *)
(** ** The outside world: state, call trace, file system *)

Module World.

(** [datetime] in UTC, as [datetime.fromtimestamp(ts, timezone.utc)]
    yields it. *)
Record datetime := mkDatetime {
  year : N; month : N; day : N;
  hour : N; minute : N; second : N; microsecond : N
}.

(** [os.stat_result], timestamps already converted to UTC datetimes;
    [st_birthtime] is absent on platforms that do not record it. *)
Record stat_result := mkStat {
  st_birthtime : option datetime;
  st_mtime : datetime;
  st_size : N
}.

(** What the file system answers in a world [W]. A path that cannot be
    examined, such as one below a directory that may not be searched, is
    known by its text: [fs_denied] gives the [OSError] that looking at it
    raises. *)
Class FileSystem (W : Type) := {
  fs_is_dir : W -> string -> bool;
  fs_iterdir : W -> string -> Result (list Path);
  fs_is_file : W -> Path -> bool;
  fs_exists : W -> Path -> bool;
  fs_stat : W -> Path -> Result stat_result;
  fs_write_text : Path -> string -> W -> Result unit * W;
  fs_move : Path -> Path -> W -> Result unit * W;
  fs_denied : W -> string -> option Exn
}.

(** [Path.is_dir()], [Path.is_file()] and [Path.exists()]: each answers,
    or raises the error of a path that cannot be examined. *)
Definition examine {W : Type} `{FileSystem W} {A : Type}
    (w : W) (text : string) (answer : A) : Result A :=
  match fs_denied w text with
  | Some e => Raises e
  | None => Returns answer
  end.

Definition is_dir {W : Type} `{FileSystem W} (w : W) (text : string) : Result bool :=
  examine w text (fs_is_dir w text).

Definition is_file {W : Type} `{FileSystem W} (w : W) (p : Path) : Result bool :=
  examine w (path_str p) (fs_is_file w p).

Definition path_exists {W : Type} `{FileSystem W} (w : W) (p : Path) : Result bool :=
  examine w (path_str p) (fs_exists w p).

(** One entry of the trace per call of an external capability. *)
Inductive Call :=
| CallTranscribe (audio_path : Path)
| CallAnalyze (transcript original_filename : string)
| CallPublish (title date_iso summary : string) (action_items : list string)
              (transcript source_filename : string)
| CallModel (prompt : string)
| CallPagesCreate (database_id : string)
| CallFfmpeg (video_path wav_path : Path)
| CallWhisper (wav_path : Path).

(** A computation reads the world, changes it, and reports the calls it
    made, in order: the trace can only grow. *)
Definition M (W A : Type) : Type := W -> A * W * list Call.

Definition ret {W A} (a : A) : M W A := fun w => (a, w, []).

Definition bind {W A B} (m : M W A) (k : A -> M W B) : M W B :=
  fun w =>
    let '(a, w1, t1) := m w in
    let '(b, w2, t2) := k a w1 in
    (b, w2, t1 ++ t2).

(** Read the world without touching it. *)
Definition gets {W A} (f : W -> A) : M W A := fun w => (f w, w, []).

(** A call of an external function, recorded. *)
Definition call {W A} (c : Call) (f : W -> Result A * W) : M W (Result A) :=
  fun w => let '(r, w') := f w in (r, w', [c]).

(** An effect on the file system that is not a capability call. *)
Definition lift {W A} (f : W -> A * W) : M W A :=
  fun w => let '(a, w') := f w in (a, w', []).

(** Entering a capability: the call is recorded, then runs. *)
Definition invoke {W A} (c : Call) (m : M W A) : M W A :=
  fun w => let '(a, w', t) := m w in (a, w', c :: t).

Definition value_of {A W} (r : A * W * list Call) : A := fst (fst r).
Definition world_of {A W} (r : A * W * list Call) : W := snd (fst r).
Definition calls_of {A W} (r : A * W * list Call) : list Call := snd r.

End World.
Export World.

Notation "x <- m ;; k" := (bind m (fun x => k))
  (at level 100, m at next level, k at level 200, right associativity).

(* ================================================================= *)
(** ** [input_manager.py] *)

Module InputManager.
Import PyStr.

Definition supported_formats : list string :=
  [".m4a"; ".wav"; ".mp3"; ".aac"; ".flac"; ".ogg"; ".opus"].

(** [x in formats] for a tuple of strings. *)
Definition in_formats (x : string) (formats : list string) : bool :=
  existsb (String.eqb x) formats.

(** The metadata dictionary of [get_file_metadata]. *)
Record Metadata := mkMetadata {
  filename : string;
  creation_date_iso : string;
  modification_date_iso : string;
  size_bytes : N
}.

Definition digit (n : N) : ascii := ascii_of_N (48 + n mod 10).

Definition pad2 (n : N) : string :=
  String (digit (n / 10)) (String (digit n) EmptyString).

Definition pad4 (n : N) : string :=
  String (digit (n / 1000)) (String (digit (n / 100)) (pad2 n)).

Definition pad6 (n : N) : string :=
  String (digit (n / 100000)) (String (digit (n / 10000)) (pad4 n)).

(** The date of a datetime as [YYYY-MM-DD]. *)
Definition date_part (d : datetime) : string :=
  pad4 (year d) +:+ "-" +:+ pad2 (month d) +:+ "-" +:+ pad2 (day d).

(** The time of a UTC-aware datetime, with its offset. *)
Definition time_part (d : datetime) : string :=
  pad2 (hour d) +:+ ":" +:+ pad2 (minute d) +:+ ":" +:+ pad2 (second d)
  +:+ (if (microsecond d =? 0)%N then "" else "." +:+ pad6 (microsecond d))
  +:+ "+00:00".

(** [d.isoformat()] of a UTC-aware datetime. *)
Definition isoformat (d : datetime) : string :=
  date_part d +:+ "T" +:+ time_part d.

Section WithFS.
Context {W : Type} `{FileSystem W}.

(** The loop over the listing: an entry is kept when it is a regular
    file with a supported suffix; an entry that cannot be examined ends
    the loop with its error. *)
Fixpoint audio_among (w : W) (formats : list string) (items : list Path)
    : Result (list Path) :=
  match items with
  | [] => Returns []
  | item :: rest =>
      try! regular <- is_file w item;
      try! others <- audio_among w formats rest;
      Returns (if regular && in_formats (lower (suffix item)) formats
               then item :: others else others)
  end.

Definition get_audio_files_in (w : W) (folder_path_str : string)
    (formats : list string) : Result (list Path) :=
  try! directory <- is_dir w folder_path_str;
  if negb directory then Returns []
  else
    try! items <- fs_iterdir w folder_path_str;
    audio_among w formats items.

Definition get_audio_files (w : W) (folder_path_str : string) : Result (list Path) :=
  get_audio_files_in w folder_path_str supported_formats.

Definition get_file_metadata (w : W) (file_path : Path) : Result Metadata :=
  try! regular <- is_file w file_path;
  if negb regular then
    Raises (raise_ FileNotFoundError
              ("File not found or is not a regular file: " +:+ path_str file_path))
  else
    try! stat_info <- fs_stat w file_path;
    let creation_timestamp :=
      match st_birthtime stat_info with
      | Some t => t
      | None => st_mtime stat_info
      end in
    Returns {| filename := name file_path;
               creation_date_iso := isoformat creation_timestamp;
               modification_date_iso := isoformat (st_mtime stat_info);
               size_bytes := st_size stat_info |}.
End WithFS.

End InputManager.

(* ================================================================= *)
(** ** [notion_handler.py] *)

Module NotionHandler.
Import PyStr.

(** One rich-text object: its content and, when given, a link. *)
Record RichText := mkRichText { content : string; link_url : option string }.

Local Set Warnings "-register-all".

(** The block dictionaries the handler builds. [color] is [None] where
    the dictionary has no such key. *)
Inductive Block :=
| heading (level : nat) (rich_text : list RichText) (color : string)
| paragraph (rich_text : list RichText) (color : option string)
| to_do (rich_text : list RichText) (checked : bool) (color : string)
| bulleted_list_item (rich_text : list RichText) (color : string)
| toggle (rich_text : list RichText) (color : string) (children : list Block).

Definition _rich_text_object (text_content : string) (link : option string)
    : list RichText :=
  match link with
  | Some u => if is_empty u then [mkRichText text_content None]
              else [mkRichText text_content (Some u)]
  | None => [mkRichText text_content None]
  end.

Definition _heading (level : nat) (text_content : string) : Result Block :=
  if negb (existsb (Nat.eqb level) [1; 2; 3]) then
    Raises (raise_ ValueError "Heading level must be 1, 2, or 3.")
  else Returns (heading level (_rich_text_object text_content None) "default").

Definition _paragraph (text_content : string) (link : option string) : Block :=
  if is_empty text_content then paragraph [mkRichText " " None] None
  else paragraph (_rich_text_object text_content link) (Some "default").

Definition _todo_item (text_content : string) (checked : bool) : Block :=
  to_do (_rich_text_object text_content None) checked "default".

Definition _bulleted_list_item (text_content : string) : Block :=
  bulleted_list_item (_rich_text_object text_content None) "default".

(** The comprehension [[text[i:i + chunk_size] for i in range(0, len(text), chunk_size)]]. *)
Definition chunks_of (text : string) (chunk_size : nat) : list string :=
  map (fun i => slice text i (i + chunk_size))
      (range 0 (String.length text) chunk_size).

(** [range] refuses a zero step. *)
Definition _split_text_into_chunks (text : string) (chunk_size : nat)
    : Result (list string) :=
  if chunk_size =? 0 then
    Raises (raise_ ValueError "range() arg 3 must not be zero")
  else Returns (chunks_of text chunk_size).

Definition default_chunk_size : nat := 2000.

Definition _toggle_block_with_text_content (heading_text content_text : string)
    : Result Block :=
  try! content_chunks <- _split_text_into_chunks content_text default_chunk_size;
  let content_chunks :=
    match content_chunks with [] => [" "] | _ => content_chunks end in
  let children_blocks :=
    map (fun chunk => paragraph (_rich_text_object chunk None) None) content_chunks in
  Returns (toggle (_rich_text_object heading_text None) "default" children_blocks).

(** The page properties: [Name], [Date] and [Source File]. *)
Record PageProperties := mkProps {
  Name_title : string;
  Date_start : string;
  Source_File : string
}.

(** [x if x else d] on strings. *)
Definition or_else (x d : string) : string := if is_empty x then d else x.

(** The content blocks of the page, in the order they are appended. *)
Definition page_content_blocks (summary : string) (action_items : list string)
    (transcript : string) : Result (list Block) :=
  try! h_summary <- _heading 2 "Summary";
  let p_summary := _paragraph (or_else summary "No summary generated.") None in
  try! h_items <- _heading 2 "Action Items";
  let items :=
    match action_items with
    | [] => [_paragraph "No action items identified." None]
    | _ => map (fun item => _todo_item item false) action_items
    end in
  try! h_transcript <- _heading 2 "Transcript";
  try! t_transcript <-
    _toggle_block_with_text_content "Full Transcript"
      (or_else transcript "Transcript not available.");
  Returns ([h_summary; p_summary] ++ [h_items] ++ items
           ++ [h_transcript; t_transcript]).

Section WithClient.
Context {W : Type}.

(** The handler: the target database and the remote client's
    [pages.create], which answers with the page's [url] entry when the
    response has one. *)
Record Handler := mkHandler {
  database_id : string;
  pages_create : string -> PageProperties -> list Block -> W -> Result (option string) * W
}.

Definition create_notion_page (self : Handler)
    (title date_iso summary : string) (action_items : list string)
    (transcript source_filename : string) : M W (Result string) :=
  let page_properties := mkProps title date_iso source_filename in
  match page_content_blocks summary action_items transcript with
  | Raises e => ret (Raises e)
  | Returns blocks =>
      created_page <- call (CallPagesCreate (database_id self))
                        (pages_create self (database_id self) page_properties blocks);;
      match created_page with
      | Returns (Some page_url) => ret (Returns page_url)
      | Returns None => ret (Returns "URL not found in response")
      | Raises e =>
          if class_eqb (exn_class e) APIResponseError then
            ret (Returns ("Notion API Error while creating page: "
                          +:+ exn_code e +:+ " - " +:+ exn_body e))
          else
            ret (Returns ("An unexpected error occurred while creating Notion page: "
                          +:+ exn_str e))
      end
  end.
End WithClient.
Arguments Handler W : clear implicits.

End NotionHandler.

(* ================================================================= *)
(** ** [summarizer_service.py] *)

Module SummarizerService.
Import PyStr.

(** The dictionary [analyze_transcript] returns; the orchestrator's
    placeholder has no [original_filename] entry. *)
Record Analysis := mkAnalysis {
  summary : string;
  action_items : list string;
  original_filename : option string
}.

(** What the code looks at in a model response: [response.text] when
    the attribute is there, and the [text] attributes of the parts of
    the first candidate ([[]] without candidate; [None] for a part
    without [text]). Looking at the candidates may itself raise. *)
Record Response := mkResponse {
  text : option string;
  candidate_parts : Result (list (option string))
}.

(** One line of a triple-quoted prompt: newline, the indentation of the
    source, the text. *)
Definition line (l : string) : string := String nl ("        " +:+ l).

Definition summary_prompt (transcript original_filename : string) : string :=
  line ("Original Filename: " +:+ original_filename)
  +:+ line "Transcript:"
  +:+ line "---"
  +:+ line transcript
  +:+ line "---"
  +:+ line "Based on the transcript above, provide a concise summary of the main topics and discussion points."
  +:+ line ("The summary should be a single, coherent paragraph. Do not include any preamble like "
            +:+ dquote +:+ "Here is the summary:" +:+ dquote +:+ ".")
  +:+ line "Focus on the key information conveyed."
  +:+ line "Summary:"
  +:+ line "".

Definition action_items_prompt (transcript original_filename : string) : string :=
  line ("Original Filename: " +:+ original_filename)
  +:+ line "Transcript:"
  +:+ line "---"
  +:+ line transcript
  +:+ line "---"
  +:+ line "Based on the transcript above, identify any specific action items, tasks, or follow-ups mentioned."
  +:+ line "List them as a bulleted list. Each action item should be a clear, concise statement."
  +:+ line ("If no action items are found, output " +:+ dquote
            +:+ "No action items identified." +:+ dquote)
  +:+ line ("Do not include any preamble like " +:+ dquote
            +:+ "Here are the action items:" +:+ dquote +:+ ".")
  +:+ line "Action Items:"
  +:+ line "-"
  +:+ line "".

Definition no_items_answers : list string :=
  ["no action items identified."; "no action items found."].

(** The post-parser of the action items, applied to the stripped model
    output (the [if]/[elif]/[else] after the model call). *)
Definition parse_action_items (raw_action_items_text : string) : list string :=
  if negb (is_empty raw_action_items_text)
     && negb (existsb (String.eqb (lower raw_action_items_text)) no_items_answers)
  then
    let action_items_list :=
      map strip
          (List.filter (fun item => startswith "-" (strip item))
                  (split nl raw_action_items_text)) in
    map (fun item => strip (lstrip_chars "- " item))
        (List.filter (fun item => negb (is_empty (strip (lstrip_chars "- " item))))
                action_items_list)
  else if contains "no action items identified" (lower raw_action_items_text)
          || contains "no action items found" (lower raw_action_items_text)
  then []
  else [].

(** What one line of the answer contributes, in the words of the
    specification: a line counts when it has a leading bullet marker, its
    prefix is stripped, and a blank entry is dropped. The parser is
    compared with this. *)
Definition bullet_entry (l : string) : option string :=
  if startswith "-" (strip l) then
    let entry := strip (lstrip_chars "- " (strip l)) in
    if is_empty entry then None else Some entry
  else None.

Section WithModel.
Context {W : Type}.

(** The service: the model's [generate_content]. *)
Record Service := mkService {
  model_name : string;
  generate_content : string -> W -> Result Response * W
}.

(** The body of the [try] once [response] is bound. *)
Definition response_text (response : Response) : Result string :=
  let has_text :=
    match text response with
    | Some t => negb (is_empty t)
    | None => false
    end in
  if has_text then Returns (default "" (text response))
  else
    try! parts <- candidate_parts response;
    match parts with
    | [] => Returns ""
    | _ => Returns (join (omap id parts))
    end.

(** The two handlers. The [AttributeError] handler prints [response]:
    when the model call itself raised, that local is unbound and the
    handler raises [UnboundLocalError] instead of returning (its text is
    the one of Python 3.11 and later). *)
Definition _generate_content_with_gemini (self : Service) (prompt : string)
    : M W (Result string) :=
  r <- call (CallModel prompt) (generate_content self prompt);;
  match r with
  | Raises e =>
      if class_eqb (exn_class e) AttributeError then
        ret (Raises (raise_ UnboundLocalError
          "cannot access local variable 'response' where it is not associated with a value"))
      else
        ret (Raises (raise_ RuntimeError ("Gemini API call failed: " +:+ exn_str e)))
  | Returns response =>
      match response_text response with
      | Returns t => ret (Returns t)
      | Raises e =>
          if class_eqb (exn_class e) AttributeError then ret (Returns "")
          else
            ret (Raises (raise_ RuntimeError ("Gemini API call failed: " +:+ exn_str e)))
      end
  end.

(** [except RuntimeError]: keep the value the variable had before the
    [try]; any other exception propagates. *)
Definition except_RuntimeError {A} (r : Result A) (before : A) : Result A :=
  match r with
  | Returns a => Returns a
  | Raises e =>
      if class_eqb (exn_class e) RuntimeError then Returns before else Raises e
  end.

Definition analyze_transcript (self : Service) (transcript original_filename : string)
    : M W (Result Analysis) :=
  if is_empty transcript || is_empty (strip transcript) then
    ret (Returns (mkAnalysis "" [] (Some original_filename)))
  else
    r_summary <- _generate_content_with_gemini self
                   (summary_prompt transcript original_filename);;
    match except_RuntimeError (try! s <- r_summary; Returns (strip s)) "" with
    | Raises e => ret (Raises e)
    | Returns summary_text =>
        r_items <- _generate_content_with_gemini self
                     (action_items_prompt transcript original_filename);;
        match except_RuntimeError
                (try! raw <- r_items; Returns (parse_action_items (strip raw))) [] with
        | Raises e => ret (Raises e)
        | Returns action_items_list =>
            ret (Returns (mkAnalysis summary_text action_items_list
                                     (Some original_filename)))
        end
    end.
End WithModel.
Arguments Service W : clear implicits.

End SummarizerService.

(* ================================================================= *)
(** ** [orchestrator.py] *)

Module Orchestrator.
Import PyStr InputManager.
Export SummarizerService (Analysis, mkAnalysis, summary, action_items, original_filename).

(** The per-file result dictionary. *)
Record Outcome := mkOutcome {
  file : string;
  status : string;
  message : string;
  url : string
}.

Definition set_error (result : Outcome) (msg : string) : Outcome :=
  mkOutcome (file result) "error" msg (url result).

Section WithWorld.
Context {W : Type} `{FileSystem W}.

(** The three capabilities, as the orchestrator calls them. The name of
    the transcription service is only printed, inside the [try] of the
    transcription step. *)
Record TranscriptionService := mkTranscription {
  service_name : string;
  transcribe : Path -> M W (Result string)
}.

Record Summarizer := mkSummarizer {
  analyze_transcript : string -> string -> M W (Result Analysis)
}.

Record Publisher := mkPublisher {
  create_notion_page :
    string -> string -> string -> list string -> string -> string -> M W (Result string)
}.

(** The orchestrator object: each capability is bound or [None]. *)
Record Orchestrator := mkOrchestrator {
  transcription_service : option TranscriptionService;
  summarizer_service : option Summarizer;
  notion_handler : option Publisher
}.

(** Step 2 of [process_single_audio_file]: the analysis, or its
    placeholder. *)
Definition summarize (self : Orchestrator) (transcript_text : string)
    (audio_path : Path) : M W Analysis :=
  let summary_data := mkAnalysis "" [] None in
  match summarizer_service self with
  | None => ret summary_data
  | Some svc =>
      r <- invoke (CallAnalyze transcript_text (name audio_path))
             (analyze_transcript svc transcript_text (name audio_path));;
      match r with
      | Returns d => ret d
      | Raises e =>
          ret (mkAnalysis ("[Analysis failed: " +:+ exn_str e +:+ "]")
                          (action_items summary_data)
                          (original_filename summary_data))
      end
  end.

(** The outcome read off the answer of the publishing call. *)
Definition publish_outcome (result : Outcome) (r : Result string) : Outcome :=
  match r with
  | Returns page_url_or_error =>
      if contains "https://" page_url_or_error then
        mkOutcome (file result) "success"
          ("Successfully processed and uploaded to Notion: " +:+ page_url_or_error)
          page_url_or_error
      else
        set_error result ("Failed to create Notion page: " +:+ page_url_or_error)
  | Raises e =>
      set_error result
        ("Failed to create Notion page due to unexpected error: " +:+ exn_str e)
  end.

(** Step 3 of [process_single_audio_file]: the page. *)
Definition publish (self : Orchestrator) (result : Outcome)
    (audio_path : Path) (notion_date_iso : string)
    (summary_data : Analysis) (transcript_text : string) : M W Outcome :=
  match notion_handler self with
  | None =>
      ret (set_error result
             "NotionHandler not available or failed to initialize. Cannot create page.")
  | Some nh =>
      let page_title := stem audio_path in
      r <- invoke (CallPublish page_title notion_date_iso (summary summary_data)
                     (action_items summary_data) transcript_text (name audio_path))
             (create_notion_page nh page_title notion_date_iso (summary summary_data)
                (action_items summary_data) transcript_text (name audio_path));;
      ret (publish_outcome result r)
  end.

Definition process_single_audio_file (self : Orchestrator)
    (audio_path : Path) (notion_date_iso : string) : M W Outcome :=
  let result := mkOutcome (path_str audio_path) "pending" "" "" in
  match transcription_service self with
  | None =>
      ret (set_error result
             "Transcription service not available or failed to initialize.")
  | Some ts =>
      r <- invoke (CallTranscribe audio_path) (transcribe ts audio_path);;
      match r with
      | Raises e =>
          ret (set_error result ("Transcription failed: " +:+ exn_str e))
      | Returns transcript_text =>
          if is_empty transcript_text || is_empty (strip transcript_text) then
            ret (set_error result "Transcription resulted in empty text.")
          else
            summary_data <- summarize self transcript_text audio_path;;
            publish self result audio_path notion_date_iso summary_data transcript_text
      end
  end.

(** [date_mapping and name in date_mapping], then [date_mapping[name]]. *)
Definition mapped_date (date_mapping : option (gmap string string))
    (n : string) : option string :=
  match date_mapping with
  | Some m => if bool_decide (m = ∅) then None else m !! n
  | None => None
  end.

Definition error_outcome (audio_file_path : Path) (msg : string) : Outcome :=
  mkOutcome (path_str audio_file_path) "error" msg "".

(** The date of one file: [inr] the date, or [inl] the outcome
    recorded before [continue]. *)
Definition resolve_date (date_mapping : option (gmap string string))
    (audio_file_path : Path) (w : W) : Outcome + string :=
  match mapped_date date_mapping (name audio_file_path) with
  | Some d => inr d
  | None =>
      match get_file_metadata w audio_file_path with
      | Returns metadata =>
          inr (hd "" (split "T" (modification_date_iso metadata)))
      | Raises e =>
          if class_eqb (exn_class e) FileNotFoundError then
            inl (error_outcome audio_file_path "File metadata not found.")
          else
            inl (error_outcome audio_file_path
                   ("Error getting metadata date: " +:+ exn_str e))
      end
  end.

(** The body of the loop: the outcome appended for one file. *)
Definition process_item (self : Orchestrator)
    (date_mapping : option (gmap string string))
    (audio_file_path : Path) : M W Outcome :=
  d <- gets (resolve_date date_mapping audio_file_path);;
  match d with
  | inl skipped => ret skipped
  | inr notion_page_date_iso =>
      if is_empty notion_page_date_iso then
        ret (error_outcome audio_file_path
               "Could not determine date for Notion page.")
      else process_single_audio_file self audio_file_path notion_page_date_iso
  end.

(** The [for] loop, appending to [results]. *)
Fixpoint process_files (self : Orchestrator)
    (date_mapping : option (gmap string string))
    (audio_files : list Path) (results : list Outcome) : M W (list Outcome) :=
  match audio_files with
  | [] => ret results
  | audio_file_path :: rest =>
      file_result <- process_item self date_mapping audio_file_path;;
      process_files self date_mapping rest (results ++ [file_result])
  end.

(** One outcome per file, each file handled in the world its
    predecessors left: what the loop is compared with. *)
Fixpoint one_outcome_per_file (self : Orchestrator)
    (date_mapping : option (gmap string string))
    (audio_files : list Path) : M W (list Outcome) :=
  match audio_files with
  | [] => ret []
  | audio_file_path :: rest =>
      file_result <- process_item self date_mapping audio_file_path;;
      others <- one_outcome_per_file self date_mapping rest;;
      ret (file_result :: others)
  end.

Definition no_services (self : Orchestrator) : bool :=
  match transcription_service self, notion_handler self, summarizer_service self with
  | None, None, None => true
  | _, _, _ => false
  end.

(** [process_folder]; the scan is outside every [try], so a raising
    scan ends the run. *)
Definition process_folder (self : Orchestrator) (folder_path_str : string)
    (date_mapping : option (gmap string string)) : M W (Result (list Outcome)) :=
  if no_services self then
    ret (Returns [mkOutcome "" "error" "All services failed to initialize." ""])
  else
    scanned <- gets (fun w => get_audio_files w folder_path_str);;
    match scanned with
    | Raises e => ret (Raises e)
    | Returns [] => ret (Returns [])
    | Returns audio_files =>
        results <- process_files self date_mapping audio_files [];;
        ret (Returns results)
    end.

(** The two concrete services of the repository, as capabilities. *)
Definition summarizer_of (svc : SummarizerService.Service W) : Summarizer :=
  mkSummarizer (SummarizerService.analyze_transcript svc).

Definition publisher_of (h : NotionHandler.Handler W) : Publisher :=
  mkPublisher (NotionHandler.create_notion_page h).

End WithWorld.
Arguments TranscriptionService W : clear implicits.
Arguments Summarizer W : clear implicits.
Arguments Publisher W : clear implicits.
Arguments Orchestrator W : clear implicits.

End Orchestrator.

(* ================================================================= *)
(** ** [transcriber.py]: the recordings pipeline *)

Module Transcriber.
Import PyStr InputManager.

Definition SUPPORTED_VIDEO_FORMATS : list string := [".mp4"; ".mkv"; ".mov"].

Section WithWorld.
Context {W : Type} `{FileSystem W}.

(** [BASE_DIR] is the directory of the module. *)
Variable BASE_DIR : string.

Definition RECORDINGS_DIR : Path := joinpath BASE_DIR "recordings".
Definition PROCESSED_DIR : Path := joinpath BASE_DIR "processed".
Definition TRANSCRIPTS_DIR : Path := joinpath BASE_DIR "transcripts".

(** The transcriber: the [ffmpeg] subprocess and the speech model. *)
Record Transcriber := mkTranscriber {
  ffmpeg : Path -> Path -> W -> Result unit * W;
  model_transcribe : Path -> W -> Result string * W
}.

Definition convert_to_wav (self : Transcriber) (video_path wav_path : Path)
    : M W (Result unit) :=
  call (CallFfmpeg video_path wav_path) (ffmpeg self video_path wav_path).

Definition transcribe_audio (self : Transcriber) (wav_path : Path)
    : M W (Result string) :=
  call (CallWhisper wav_path) (model_transcribe self wav_path).

(** The transcript artifact of a recording. *)
Definition transcript_path_of (video_path : Path) : Path :=
  joinpath (path_str TRANSCRIPTS_DIR) (stem video_path +:+ "_notes.txt").

(** Both handlers of [process_recording] only print, so the [try]
    ends at the first statement that raises. *)
Definition process_recording (self : Transcriber) (video_path : Path) : M W unit :=
  let base_name := stem video_path in
  let wav_path := joinpath (path_str RECORDINGS_DIR) (base_name +:+ ".wav") in
  let transcript_path := transcript_path_of video_path in
  already <- gets (fun w => fs_exists w transcript_path);;
  if already then ret tt
  else
    r <- convert_to_wav self video_path wav_path;;
    match r with
    | Raises _ => ret tt
    | Returns _ =>
        r <- transcribe_audio self wav_path;;
        match r with
        | Raises _ => ret tt
        | Returns transcript =>
            r <- lift (fs_write_text transcript_path transcript);;
            match r with
            | Raises _ => ret tt
            | Returns _ =>
                r <- lift (fs_move video_path
                             (joinpath (path_str PROCESSED_DIR) (name video_path)));;
                match r with
                | Raises _ => ret tt
                | Returns _ =>
                    _ <- lift (fs_move wav_path
                                 (joinpath (path_str PROCESSED_DIR) (name wav_path)));;
                    ret tt
                end
            end
        end
    end.

Fixpoint process_videos (self : Transcriber) (video_files : list Path) : M W unit :=
  match video_files with
  | [] => ret tt
  | video_file :: rest =>
      _ <- (if in_formats (lower (suffix video_file)) SUPPORTED_VIDEO_FORMATS
            then process_recording self video_file else ret tt);;
      process_videos self rest
  end.

(** [process_all]: the directory listing is outside every [try]. *)
Definition process_all (self : Transcriber) : M W (Result unit) :=
  listing <- gets (fun w => fs_iterdir w (path_str RECORDINGS_DIR));;
  match listing with
  | Raises e => ret (Raises e)
  | Returns video_files =>
      _ <- process_videos self video_files;;
      ret (Returns tt)
  end.

End WithWorld.
Arguments Transcriber W : clear implicits.

End Transcriber.

(* ================================================================= *)
(** ** A small concrete world for the examples *)

Module Scenario.
Import PyStr InputManager Orchestrator.

(** The paths that exist, by their text, and the number of pages the
    remote workspace holds. *)
Record Desk := mkDesk { present : list string; pages : nat }.

Definition june_first : datetime := mkDatetime 2025 6 1 12 0 0 0.

Definition a_wav : Path := mkPath "audio" "a.wav".
Definition b_txt : Path := mkPath "audio" "b.txt".
Definition c_mp3 : Path := mkPath "audio" "c.mp3".

Definition on_desk (w : Desk) (p : Path) : bool :=
  existsb (String.eqb (path_str p)) (present w).

(** What looking at a path below the locked [vault] raises. *)
Definition locked (text : string) : Exn :=
  raise_ OtherException ("[Errno 13] Permission denied: '" +:+ text +:+ "'").

#[global] Instance desk_fs : FileSystem Desk := {|
  fs_is_dir := fun _ d => String.eqb d "audio";
  fs_iterdir := fun _ _ => Returns [a_wav; b_txt; c_mp3];
  fs_is_file := on_desk;
  fs_exists := on_desk;
  fs_stat := fun _ _ => Returns (mkStat None june_first 1024);
  fs_write_text := fun p _ w => (Returns tt, mkDesk (path_str p :: present w) (pages w));
  fs_move := fun _ q w => (Returns tt, mkDesk (path_str q :: present w) (pages w));
  fs_denied := fun _ text =>
    if String.prefix "vault/" text then Some (locked text) else None
|}.

(** Three files to scan, and the note of an earlier transcription of
    [a]. *)
Definition desk : Desk :=
  mkDesk ["audio/a.wav"; "audio/b.txt"; "audio/c.mp3";
          "base/transcripts/a_notes.txt"] 0.

(** The model answer of the specification's example: three lines, each
    with a bullet. *)
Definition raw_claimed : string :=
  "- Follow up with Bob" +:+ String nl "- no bullet here" +:+ String nl "- Send report".

(** The same answer with a middle line that has no bullet. *)
Definition raw_plain_line : string :=
  "- Follow up with Bob" +:+ String nl "no bullet here" +:+ String nl "- Send report".

(** A speech model that hears [a] and fails on everything else. *)
Definition speech : TranscriptionService Desk :=
  mkTranscription "OpenAI Whisper" (fun p w =>
    if String.eqb (name p) "a.wav"
    then (Returns "Bob will send the report.", w, [])
    else (Raises (raise_ RuntimeError "Whisper transcription failed"), w, [])).

Definition gemini : SummarizerService.Service Desk :=
  SummarizerService.mkService "gemini-1.5-flash-latest" (fun prompt w =>
    (Returns (SummarizerService.mkResponse
                (Some (if contains "Action Items:" prompt
                       then raw_plain_line else "Bob reports."))
                (Returns [])), w)).

(** A model client whose call fails with an [AttributeError]. *)
Definition gemini_down : SummarizerService.Service Desk :=
  SummarizerService.mkService "gemini-1.5-flash-latest" (fun _ w =>
    (Raises (raise_ AttributeError "module has no attribute"), w)).

Definition notion : NotionHandler.Handler Desk :=
  NotionHandler.mkHandler "db" (fun _ props _ w =>
    (Returns (Some ("https://www.notion.so/" +:+ NotionHandler.Name_title props)),
     mkDesk (present w) (S (pages w)))).

(** A workspace whose answer carries no [url]. *)
Definition notion_no_url : NotionHandler.Handler Desk :=
  NotionHandler.mkHandler "db" (fun _ _ _ w => (Returns None, w)).

(** A publishing capability that raises. *)
Definition raising_publisher : Publisher Desk :=
  mkPublisher (fun _ _ _ _ _ _ w => (Raises (raise_ OtherException "boom"), w, [])).

Definition studio : Orchestrator Desk :=
  mkOrchestrator (Some speech) (Some (summarizer_of gemini)) (Some (publisher_of notion)).

Definition january : gmap string string := {[ "a.wav" := "2025-01-01" ]}.

(** A mapping whose entry for [a] is empty. *)
Definition undated : gmap string string := {[ "a.wav" := "" ]}.

(** A model that finds nothing to do. *)
Definition gemini_no_items : SummarizerService.Service Desk :=
  SummarizerService.mkService "gemini-1.5-flash-latest" (fun prompt w =>
    (Returns (SummarizerService.mkResponse
                (Some (if contains "Action Items:" prompt
                       then "No action items identified." else "Bob reports."))
                (Returns [])), w)).

Definition blank : string := String (ascii_of_nat 9) (String nl "  ").

Definition studio_without_analysis : Orchestrator Desk :=
  mkOrchestrator (Some speech) None (Some (publisher_of notion)).

Definition studio_analysis_down : Orchestrator Desk :=
  mkOrchestrator (Some speech) (Some (summarizer_of gemini_down))
                 (Some (publisher_of notion)).

Definition studio_no_url : Orchestrator Desk :=
  mkOrchestrator (Some speech) None (Some (publisher_of notion_no_url)).

(** The studio when the speech model failed to load. *)
Definition studio_deaf : Orchestrator Desk :=
  mkOrchestrator None (Some (summarizer_of gemini)) (Some (publisher_of notion)).

Definition studio_raising : Orchestrator Desk :=
  mkOrchestrator (Some speech) None (Some raising_publisher).

(** A file the scan saw and that is gone by the time its date is read. *)
Definition gone_wav : Path := mkPath "audio" "gone.wav".


Definition recorder : Transcriber.Transcriber Desk :=
  Transcriber.mkTranscriber
    (fun _ wav w => (Returns tt, mkDesk (path_str wav :: present w) (pages w)))
    (fun _ w => (Returns "Bob will send the report.", w)).

Definition success_a : Outcome :=
  mkOutcome "audio/a.wav" "success"
    "Successfully processed and uploaded to Notion: https://www.notion.so/a"
    "https://www.notion.so/a".

End Scenario.

(* ================================================================= *)
(** ** Reading a page back *)

Module Readback.
Import PyStr NotionHandler.

(** The texts of the rich-text objects of a block. *)
Definition texts_of (rich_text : list RichText) : list string :=
  map content rich_text.

(** The action items a page shows: the texts of its to-do blocks. *)
Definition todo_texts (blocks : list Block) : list string :=
  flat_map (fun b =>
              match b with
              | to_do rich_text _ _ => texts_of rich_text
              | _ => []
              end) blocks.

(** The text of the paragraphs of a list of blocks, in order. *)
Definition paragraph_texts (blocks : list Block) : list string :=
  flat_map (fun b =>
              match b with
              | paragraph rich_text _ => texts_of rich_text
              | _ => []
              end) blocks.

(** The text a page holds under its toggles: the paragraphs of their
    children, concatenated. *)
Definition toggle_text (blocks : list Block) : string :=
  join (flat_map (fun b =>
                    match b with
                    | toggle _ _ children => paragraph_texts children
                    | _ => []
                    end) blocks).

(** Every text of a block, its children included. *)
Fixpoint all_texts (b : Block) : list string :=
  match b with
  | heading _ rich_text _ => texts_of rich_text
  | paragraph rich_text _ => texts_of rich_text
  | to_do rich_text _ _ => texts_of rich_text
  | bulleted_list_item rich_text _ => texts_of rich_text
  | toggle rich_text _ children => texts_of rich_text ++ flat_map all_texts children
  end.

End Readback.

(* ================================================================= *)
(** ** What a finished outcome looks like *)

Module Outcomes.
Import PyStr Orchestrator.

(** A success carries the page URL and the message built from it; an error
    carries a message and no URL. *)
Definition settled (o : Outcome) : bool :=
  String.eqb (status o) "success"
    && contains "https://" (url o)
    && String.eqb (message o)
         ("Successfully processed and uploaded to Notion: " +:+ url o)
  || String.eqb (status o) "error"
       && is_empty (url o)
       && negb (is_empty (message o)).

End Outcomes.

(* ================================================================= *)
(** ** Names the recordings pipeline uses *)

Module Recordings.
Import PyStr InputManager Transcriber.


(** The test of [process_all] on an entry of the recordings folder. *)
Definition is_video (video_file : Path) : bool :=
  in_formats (lower (suffix video_file)) SUPPORTED_VIDEO_FORMATS.

End Recordings.

(* ================================================================= *)
(** ** Configuration values *)

Module Config.
Import PyStr.

(** What a settings file or a configuration dictionary holds under a
    key: a string, [None] (the [null] of a JSON document), or any other
    value of a JSON document, a boolean, a number, a list or an object,
    known by what the code can see of it: the name of its type, its truth
    value and its [str()], which is never empty. *)
Inductive Value :=
| VNone
| VStr (s : string)
| VOther (type_name : string) (truth : bool) (text : string).

(** [str(v)] *)
Definition value_str (v : Value) : string :=
  match v with
  | VNone => "None"
  | VStr s => s
  | VOther _ _ text => text
  end.

(** The truth value of [v]. *)
Definition truthy (v : Value) : bool :=
  match v with
  | VNone => false
  | VStr s => negb (is_empty s)
  | VOther _ truth _ => truth
  end.

(** [v == s] for a string [s]: nothing but that string equals it. *)
Definition is_str (v : Value) (s : string) : bool :=
  match v with
  | VStr x => String.eqb x s
  | _ => false
  end.

(** [settings.get(key)]: [None] when the key is missing. *)
Definition get (d : gmap string Value) (key : string) : Value :=
  default VNone (d !! key).

(** [settings.get(key, fallback)]: the fallback is for a missing key
    only, a [null] under the key is returned as it is. *)
Definition get_or (d : gmap string Value) (key fallback : string) : Value :=
  default (VStr fallback) (d !! key).

(** [config.get(key)] and [config.get(key, fallback)] on the dictionary
    handed to a transcriber. *)
Definition config_get (config : gmap string Value) (key : string) : Value :=
  default VNone (config !! key).

Definition config_get_or (config : gmap string Value) (key : string)
    (fallback : Value) : Value :=
  default fallback (config !! key).

End Config.

(* ================================================================= *)
(** ** [google_stt_transcriber.py] *)

Module GoogleSTT.
Import PyStr Config Orchestrator.

Record GoogleSTTTranscriber := mkGoogleSTT {
  api_key_path : Value;
  language_code : Value
}.

(** [GoogleSTTTranscriber(config)] *)
Definition init (config : gmap string Value) : Result GoogleSTTTranscriber :=
  let api_key_path := config_get config "api_key_path" in
  if negb (truthy api_key_path) then
    Raises (raise_ ValueError
              "Missing 'api_key_path' in configuration for GoogleSTTTranscriber.")
  else
    Returns (mkGoogleSTT api_key_path (config_get_or config "language_code" (VStr "en-US"))).

Section WithFS.
Context {W : Type} `{FileSystem W}.

Definition transcribe (self : GoogleSTTTranscriber) (w : W) (audio_path : Path)
    : Result string :=
  try! there <- path_exists w audio_path;
  if negb there then
    Raises (raise_ FileNotFoundError ("Audio file not found: " +:+ path_str audio_path))
  else
    Returns ("[Simulated Google STT transcript for " +:+ name audio_path
             +:+ " using language " +:+ value_str (language_code self) +:+ "]").

Definition service_name : string := "Google Cloud Speech-to-Text".

(** The transcriber as the orchestrator's transcription capability. *)
Definition as_service (self : GoogleSTTTranscriber) : TranscriptionService W :=
  mkTranscription service_name (fun audio_path => gets (fun w => transcribe self w audio_path)).

End WithFS.

End GoogleSTT.

(* ================================================================= *)
(** ** [whisper_transcriber.py] *)

Module Whisper.
Import PyStr Config Orchestrator.

Definition MODEL_LEVELS : list string := ["tiny"; "base"; "small"; "medium"; "large"].
Definition DEFAULT_MODEL : string := "base".

(** [v in MODEL_LEVELS] *)
Definition is_model_level (v : Value) : bool :=
  match v with
  | VStr s => existsb (String.eqb s) MODEL_LEVELS
  | _ => false
  end.

(** What [wave.open] tells of a WAV file. *)
Record WaveInfo := mkWaveInfo {
  nchannels : N;
  framerate : N;
  sampwidth : N
}.

(** How [subprocess.run(..., check=True)] ends: the process ran, it exited
    with a non-zero code ([CalledProcessError], the code as it prints), or
    the call raised something else. *)
Inductive Completed :=
| Ran (stdout : string)
| Failed (returncode stdout stderr : string)
| Crashed (e : Exn).

Section WithWorld.
Context {W : Type} `{FileSystem W}.

(** A loaded model: [model.transcribe(path)["text"]]. *)
Definition Model : Type := Path -> W -> Result string * W.

(** What the module takes from outside: whether [import whisper]
    succeeded, the directory for temporary files and the process id, and
    the calls into the library, the file system and [ffmpeg]. [unlink] and
    [mkdir] raise nothing but [OSError]. *)
Record Env := mkEnv {
  whisper_installed : bool;
  gettempdir : string;
  getpid : string;
  load_model : string -> W -> Result Model * W;
  mkdir : Path -> W -> Result unit * W;
  wave_open : W -> Path -> Result WaveInfo;
  copy : Path -> Path -> W -> Result unit * W;
  unlink : Path -> W -> Result unit * W;
  ffmpeg_version : W -> Completed * W;
  ffmpeg_convert : Path -> Path -> W -> Completed * W
}.

Record WhisperTranscriber := mkWhisper {
  model_size : string;
  temp_audio_dir : Path;
  model : Model
}.

Definition TEMP_AUDIO_PARENT_DIR (env : Env) : Path :=
  joinpath (gettempdir env) "seshat_agent_temp_audio".

(** [WhisperTranscriber(config)] *)
Definition init (env : Env) (config : gmap string Value) (w : W)
    : Result WhisperTranscriber * W :=
  if negb (whisper_installed env) then
    (Raises (raise_ RuntimeError
               "Whisper library is not available. Please install openai-whisper."), w)
  else
    let requested := config_get_or config "model_size" (VStr DEFAULT_MODEL) in
    let model_size :=
      if is_model_level requested then value_str requested else DEFAULT_MODEL in
    let temp_audio_dir :=
      joinpath (path_str (TEMP_AUDIO_PARENT_DIR env)) ("whisper_" +:+ getpid env) in
    match mkdir env temp_audio_dir w with
    | (Raises e, w1) =>
        (Raises (raise_ OtherException
                   ("Could not create temporary audio directory: "
                    +:+ path_str temp_audio_dir +:+ ". Error: " +:+ exn_str e)), w1)
    | (Returns _, w1) =>
        match load_model env model_size w1 with
        | (Returns m, w2) => (Returns (mkWhisper model_size temp_audio_dir m), w2)
        | (Raises e, w2) =>
            if negb (String.eqb model_size DEFAULT_MODEL) then
              match load_model env DEFAULT_MODEL w2 with
              | (Returns m, w3) =>
                  (Returns (mkWhisper DEFAULT_MODEL temp_audio_dir m), w3)
              | (Raises fallback_e, w3) =>
                  (Raises (raise_ RuntimeError
                             ("Failed to load Whisper model '" +:+ model_size
                              +:+ "' and fallback '" +:+ DEFAULT_MODEL +:+ "': "
                              +:+ exn_str fallback_e)), w3)
              end
            else
              (Raises (raise_ RuntimeError
                         ("Failed to load Whisper model '" +:+ model_size +:+ "': "
                          +:+ exn_str e)), w2)
        end
    end.

(** [_is_ffmpeg_available]: [False] for a failing or missing [ffmpeg];
    any other exception of the call propagates. *)
Definition _is_ffmpeg_available (env : Env) (w : W) : Result bool * W :=
  match ffmpeg_version env w with
  | (Ran _, w1) => (Returns true, w1)
  | (Failed _ _ _, w1) => (Returns false, w1)
  | (Crashed e, w1) =>
      if class_eqb (exn_class e) FileNotFoundError then (Returns false, w1)
      else (Raises e, w1)
  end.

(** The command line of the conversion, joined with spaces. *)
Definition ffmpeg_command (audio_path wav_path : Path) : string :=
  "ffmpeg -i " +:+ path_str audio_path
  +:+ " -ac 1 -ar 16000 -acodec pcm_s16le -y " +:+ path_str wav_path.

Definition conversion_error (audio_path wav_path : Path)
    (returncode stdout stderr : string) : string :=
  "ffmpeg conversion failed for " +:+ path_str audio_path +:+ "." +:+ String nl ""
  +:+ "Command: " +:+ ffmpeg_command audio_path wav_path +:+ String nl ""
  +:+ "Return code: " +:+ returncode +:+ String nl ""
  +:+ "ffmpeg stdout: " +:+ stdout +:+ String nl ""
  +:+ "ffmpeg stderr: " +:+ stderr +:+ String nl "".

(** The fast path of [_convert_to_wav]: a WAV file that is already mono,
    16 kHz, 16 bit is copied. [Some] is the early [return]; every
    exception inside the [try] is caught and leads to the conversion. *)
Definition copy_if_canonical (env : Env) (audio_path wav_path : Path) (w : W)
    : option Path * W :=
  if String.eqb (lower (suffix audio_path)) ".wav" then
    match wave_open env w audio_path with
    | Returns wf =>
        if N.eqb (nchannels wf) 1 && N.eqb (framerate wf) 16000 && N.eqb (sampwidth wf) 2 then
          match copy env audio_path wav_path w with
          | (Returns _, w1) => (Some wav_path, w1)
          | (Raises _, w1) => (None, w1)
          end
        else (None, w)
    | Raises _ => (None, w)
    end
  else (None, w).

(** The conversion proper, once the fast path did not apply. *)
Definition run_ffmpeg (env : Env) (audio_path wav_path : Path) : M W (Result Path) :=
  fun w =>
    match _is_ffmpeg_available env w with
    | (Raises e, w1) => (Raises e, w1, [])
    | (Returns false, w1) =>
        (Raises (raise_ FileNotFoundError
                   "ffmpeg is not installed or not found in PATH. It is required for audio conversion."),
         w1, [])
    | (Returns true, w1) =>
        match ffmpeg_convert env audio_path wav_path w1 with
        | (Ran _, w2) => (Returns wav_path, w2, [CallFfmpeg audio_path wav_path])
        | (Failed returncode stdout stderr, w2) =>
            let error_message :=
              conversion_error audio_path wav_path returncode stdout stderr in
            match path_exists w2 wav_path with
            | Raises e => (Raises e, w2, [CallFfmpeg audio_path wav_path])
            | Returns true =>
                match unlink env wav_path w2 with
                | (Returns _, w3) =>
                    (Raises (raise_ RuntimeError error_message), w3,
                     [CallFfmpeg audio_path wav_path])
                | (Raises e, w3) => (Raises e, w3, [CallFfmpeg audio_path wav_path])
                end
            | Returns false =>
                (Raises (raise_ RuntimeError error_message), w2,
                 [CallFfmpeg audio_path wav_path])
            end
        | (Crashed e, w2) =>
            if class_eqb (exn_class e) FileNotFoundError then
              (Raises (raise_ FileNotFoundError
                         "ffmpeg not found during conversion. Please ensure it is installed and in your PATH."),
               w2, [CallFfmpeg audio_path wav_path])
            else (Raises e, w2, [CallFfmpeg audio_path wav_path])
        end
    end.

Definition converted_path (self : WhisperTranscriber) (audio_path : Path) : Path :=
  joinpath (path_str (temp_audio_dir self)) (stem audio_path +:+ "_converted.wav").

Definition _convert_to_wav (env : Env) (self : WhisperTranscriber) (audio_path : Path)
    : M W (Result Path) :=
  fun w =>
    match path_exists w audio_path with
    | Raises e => (Raises e, w, [])
    | Returns false =>
        (Raises (raise_ FileNotFoundError
                   ("Input audio file not found: " +:+ path_str audio_path)), w, [])
    | Returns true =>
        let wav_path := converted_path self audio_path in
        match mkdir env (temp_audio_dir self) w with
        | (Raises e, w1) => (Raises e, w1, [])
        | (Returns _, w1) =>
            match copy_if_canonical env audio_path wav_path w1 with
            | (Some copied, w2) => (Returns copied, w2, [])
            | (None, w2) => run_ffmpeg env audio_path wav_path w2
            end
        end
    end.

(** The [except] clauses of [transcribe]: [FileNotFoundError] and
    [RuntimeError] pass, anything else is wrapped. *)
Definition reraise (audio_path : Path) (e : Exn) : Exn :=
  if class_eqb (exn_class e) FileNotFoundError
     || class_eqb (exn_class e) RuntimeError
  then e
  else raise_ RuntimeError
         ("Whisper transcription failed for " +:+ path_str audio_path
          +:+ ": " +:+ exn_str e).

(** The [finally] clause: the converted file, when there is one and it
    still exists, is removed; a failing removal is only reported, while
    an existence check that raises is not caught. *)
Definition cleanup (env : Env) (converted_wav_path : option Path) (w : W)
    : Result unit * W :=
  match converted_wav_path with
  | Some wav =>
      match path_exists w wav with
      | Raises e => (Raises e, w)
      | Returns true => (Returns tt, snd (unlink env wav w))
      | Returns false => (Returns tt, w)
      end
  | None => (Returns tt, w)
  end.

(** [try: ... finally: ...]: an exception of the [finally] clause takes
    the place of what the [try] returned or raised. *)
Definition finally_ {A : Type} (tried : Result A) (cleaned : Result unit) : Result A :=
  match cleaned with
  | Raises e => Raises e
  | Returns _ => tried
  end.

(** The [try] of [transcribe] with its [except] clauses: what it gives,
    and the converted file, when the conversion got that far. *)
Definition attempt (env : Env) (self : WhisperTranscriber) (audio_path : Path)
    : M W (Result string * option Path) :=
  fun w =>
    match _convert_to_wav env self audio_path w with
    | (Raises e, w1, t1) => (Raises (reraise audio_path e), None, w1, t1)
    | (Returns converted_wav_path, w1, t1) =>
        match model self converted_wav_path w1 with
        | (Returns transcription, w2) =>
            (Returns transcription, Some converted_wav_path, w2,
             t1 ++ [CallWhisper converted_wav_path])
        | (Raises e, w2) =>
            (Raises (reraise audio_path e), Some converted_wav_path, w2,
             t1 ++ [CallWhisper converted_wav_path])
        end
    end.

Definition transcribe (env : Env) (self : WhisperTranscriber) (audio_path : Path)
    : M W (Result string) :=
  fun w =>
    match path_exists w audio_path with
    | Raises e => (Raises e, w, [])
    | Returns false =>
        (Raises (raise_ FileNotFoundError
                   ("Audio file not found: " +:+ path_str audio_path)), w, [])
    | Returns true =>
        let '(tried, converted_wav_path, w1, t1) := attempt env self audio_path w in
        let '(cleaned, w2) := cleanup env converted_wav_path w1 in
        (finally_ tried cleaned, w2, t1)
    end.

Definition service_name : string := "OpenAI Whisper".

(** The transcriber as the orchestrator's transcription capability. *)
Definition as_service (env : Env) (self : WhisperTranscriber) : TranscriptionService W :=
  mkTranscription service_name (transcribe env self).

End WithWorld.
Arguments Env W : clear implicits.
Arguments WhisperTranscriber W : clear implicits.
Arguments Model W : clear implicits.

End Whisper.

(* ================================================================= *)
(** ** [notion_handler.py]: the constructor *)

Module NotionInit.
Import PyStr NotionHandler.

Section WithWorld.
Context {W : Type}.

(** The remote client [Client(auth=...)] gives: [databases.retrieve] and
    [pages.create]. *)
Record Client := mkClient {
  databases_retrieve : string -> W -> Result unit * W;
  client_pages_create :
    string -> PageProperties -> list Block -> W -> Result (option string) * W
}.

(** The [notion_client] library: whether its import succeeded, the
    client's constructor, and the two error codes the handler looks
    for. *)
Record Library := mkLibrary {
  installed : bool;
  new_client : string -> W -> Result Client * W;
  Unauthorized : string;
  ObjectNotFound : string
}.

(** The two [except] clauses of the constructor. *)
Definition init_error (lib : Library) (database_id : string) (e : Exn) : Exn :=
  if class_eqb (exn_class e) APIResponseError then
    if String.eqb (exn_code e) (Unauthorized lib) then
      raise_ RuntimeError
        ("Notion API Error: Unauthorized. Check your API key. Details: " +:+ exn_str e)
    else if String.eqb (exn_code e) (ObjectNotFound lib) then
      raise_ RuntimeError
        ("Notion API Error: Database not found. Check your Database ID '"
         +:+ database_id +:+ "'. Details: " +:+ exn_str e)
    else
      raise_ RuntimeError
        ("Notion API Error during initialization. Details: " +:+ exn_str e)
  else
    raise_ RuntimeError ("Failed to initialize Notion client: " +:+ exn_str e).

(** [NotionHandler(api_key, database_id)] *)
Definition init (lib : Library) (api_key database_id : string) (w : W)
    : Result (Handler W) * W :=
  if negb (installed lib) then
    (Raises (raise_ RuntimeError
               "Notion client library (notion-client) is not installed. Please install it: pip install notion-client"),
     w)
  else if is_empty api_key then
    (Raises (raise_ ValueError "Notion API key not provided."), w)
  else if is_empty database_id then
    (Raises (raise_ ValueError "Notion Database ID not provided."), w)
  else
    match new_client lib api_key w with
    | (Raises e, w1) => (Raises (init_error lib database_id e), w1)
    | (Returns notion, w1) =>
        match databases_retrieve notion database_id w1 with
        | (Raises e, w2) => (Raises (init_error lib database_id e), w2)
        | (Returns _, w2) =>
            (Returns (mkHandler database_id (client_pages_create notion)), w2)
        end
    end.

End WithWorld.
Arguments Client W : clear implicits.
Arguments Library W : clear implicits.

End NotionInit.

(* ================================================================= *)
(** ** [summarizer_service.py]: the constructor *)

Module SummarizerInit.
Import PyStr SummarizerService.

Definition DEFAULT_MODEL_NAME : string := "gemini-1.5-flash-latest".

Section WithWorld.
Context {W : Type}.

(** The [google.generativeai] module: whether its import succeeded,
    [configure], and [GenerativeModel], whose object is known by its
    [generate_content]. *)
Record Library := mkLibrary {
  installed : bool;
  configure : string -> W -> Result unit * W;
  GenerativeModel : string -> W -> Result (string -> W -> Result Response * W) * W
}.

(** [SummarizerService(api_key, model_name)] *)
Definition init (lib : Library) (api_key : string) (model_name : option string) (w : W)
    : Result (Service W) * W :=
  if negb (installed lib) then
    (Raises (raise_ RuntimeError
               "Google Generative AI SDK (google-generativeai) is not installed. Please install it: pip install google-generativeai"),
     w)
  else if is_empty api_key then
    (Raises (raise_ ValueError "API key for Gemini (SummarizerService) not provided."), w)
  else
    match configure lib api_key w with
    | (Raises e, w1) =>
        (Raises (raise_ RuntimeError
                   ("Failed to configure Google Generative AI: " +:+ exn_str e)), w1)
    | (Returns _, w1) =>
        let model_name :=
          match model_name with
          | Some n => if is_empty n then DEFAULT_MODEL_NAME else n
          | None => DEFAULT_MODEL_NAME
          end in
        match GenerativeModel lib model_name w1 with
        | (Returns model, w2) => (Returns (mkService model_name model), w2)
        | (Raises e, w2) =>
            (Raises (raise_ RuntimeError
                       ("Failed to initialize Gemini model '" +:+ model_name
                        +:+ "': " +:+ exn_str e)), w2)
        end
    end.

End WithWorld.
Arguments Library W : clear implicits.

End SummarizerInit.

(* ================================================================= *)
(** ** [orchestrator.py]: the services at start-up *)

Module Startup.
Import PyStr Config Orchestrator.

(** The two classes a service name can select. *)
Inductive ServiceClass :=
| WhisperTranscriber
| GoogleSTTTranscriber.

Definition class_name (c : ServiceClass) : string :=
  match c with
  | WhisperTranscriber => "WhisperTranscriber"
  | GoogleSTTTranscriber => "GoogleSTTTranscriber"
  end.

(** The selection of the transcription service: the class, when the name
    is known, and the configuration handed to it. *)
Definition select_transcription (settings : gmap string Value)
    : option ServiceClass * gmap string Value :=
  let service_name := get_or settings "transcription_service" "OpenAI Whisper" in
  if is_str service_name "OpenAI Whisper" then
    (Some WhisperTranscriber,
     {[ "model_size" := get_or settings "whisper_model_size" "base" ]})
  else if is_str service_name "Google Cloud Speech-to-Text" then
    (Some GoogleSTTTranscriber,
     <[ "api_key_path" := get settings "google_stt_api_key_path" ]>
       {[ "language_code" := get_or settings "google_stt_language_code" "en-US" ]})
  else (None, ∅).

Section WithWorld.
Context {W : Type} `{FileSystem W}.

(** What start-up takes from outside: whether the import of the
    transcription classes succeeded (the module otherwise defines
    placeholder classes, which take no arguments), and the three
    libraries. The two remote libraries are handed a credential by its
    text. *)
Record Libraries := mkLibraries {
  transcribers_imported : bool;
  whisper : Whisper.Env W;
  genai : SummarizerInit.Library W;
  notion : NotionInit.Library W
}.

(** [service_class(config=transcription_config)] *)
Definition construct (libs : Libraries) (service_class : ServiceClass)
    (config : gmap string Value) (w : W) : Result (TranscriptionService W) * W :=
  if negb (transcribers_imported libs) then
    (Raises (raise_ OtherException (class_name service_class +:+ "() takes no arguments")), w)
  else
    match service_class with
    | WhisperTranscriber =>
        match Whisper.init (whisper libs) config w with
        | (Returns t, w1) => (Returns (Whisper.as_service (whisper libs) t), w1)
        | (Raises e, w1) => (Raises e, w1)
        end
    | GoogleSTTTranscriber =>
        match GoogleSTT.init config with
        | Returns g => (Returns (GoogleSTT.as_service g), w)
        | Raises e => (Raises e, w)
        end
    end.

(** Step 1: the transcription service. *)
Definition initialize_transcription (libs : Libraries) (settings : gmap string Value)
    (w : W) : option (TranscriptionService W) * W :=
  match select_transcription settings with
  | (Some service_class, transcription_config) =>
      match construct libs service_class transcription_config w with
      | (Returns service, w1) => (Some service, w1)
      | (Raises _, w1) => (None, w1)
      end
  | (None, _) => (None, w)
  end.

(** Step 2: the summarizer. *)
Definition initialize_summarizer (libs : Libraries) (settings : gmap string Value)
    (w : W) : option (Summarizer W) * W :=
  let gemini_api_key := get settings "gemini_api_key" in
  if truthy gemini_api_key then
    match SummarizerInit.init (genai libs) (value_str gemini_api_key) None w with
    | (Returns service, w1) => (Some (summarizer_of service), w1)
    | (Raises _, w1) => (None, w1)
    end
  else (None, w).

(** Step 3: the publishing handler. *)
Definition initialize_notion (libs : Libraries) (settings : gmap string Value)
    (w : W) : option (Publisher W) * W :=
  let notion_api_key := get settings "notion_api_key" in
  let notion_database_id := get settings "notion_database_id" in
  if truthy notion_api_key && truthy notion_database_id then
    match NotionInit.init (notion libs) (value_str notion_api_key)
            (value_str notion_database_id) w with
    | (Returns handler, w1) => (Some (publisher_of handler), w1)
    | (Raises _, w1) => (None, w1)
    end
  else (None, w).

(** [Orchestrator(settings)]: the three steps, in order. *)
Definition _initialize_services (libs : Libraries) (settings : gmap string Value)
    (w : W) : Orchestrator W * W :=
  let '(transcription_service, w1) := initialize_transcription libs settings w in
  let '(summarizer_service, w2) := initialize_summarizer libs settings w1 in
  let '(notion_handler, w3) := initialize_notion libs settings w2 in
  (mkOrchestrator transcription_service summarizer_service notion_handler, w3).

End WithWorld.
Arguments Libraries W : clear implicits.

End Startup.

(* ================================================================= *)
(** ** [config_manager.py] *)

Module ConfigManager.
Import PyStr.

Section WithWorld.
Context {W : Type} `{FileSystem W} {V : Type}.

(** What the module takes from outside: the home directory, how a JSON
    value is made of a string, and the calls on the file system.
    [read_json] is the body of the [try] up to [update]: it gives the
    entries of the document, or raises when the file cannot be opened or
    parsed, or when the document has no entries to merge. *)
Record Env := mkEnv {
  home : string;
  of_str : string -> V;
  mkdir : Path -> W -> Result unit * W;
  read_json : W -> Path -> Result (gmap string V);
  write_json : Path -> gmap string V -> W -> Result unit * W
}.

Definition SETTINGS_DIR (env : Env) : Path := joinpath (home env) ".voice2notion".
Definition SETTINGS_FILE (env : Env) : Path :=
  joinpath (path_str (SETTINGS_DIR env)) "settings.json".

Definition get_default_settings (env : Env) : gmap string V :=
  <[ "notion_api_key" := of_str env "" ]>
  (<[ "notion_database_id" := of_str env "" ]>
  (<[ "transcription_service" := of_str env "OpenAI Whisper" ]>
  (<[ "whisper_model_size" := of_str env "base" ]>
  (<[ "google_stt_api_key_path" := of_str env "" ]>
  (<[ "gemini_api_key" := of_str env "" ]>
  (<[ "audio_input_folder" := of_str env (path_str (joinpath (home env) "Recordings")) ]>
   ∅)))))).

Definition ensure_config_dir_exists (env : Env) (w : W) : Result unit * W :=
  mkdir env (SETTINGS_DIR env) w.

(** [default_settings.copy()] updated with the loaded entries: the loaded
    ones win. *)
Definition load_settings (env : Env) (w : W) : Result (gmap string V) * W :=
  match ensure_config_dir_exists env w with
  | (Raises e, w1) => (Raises e, w1)
  | (Returns _, w1) =>
      match path_exists w1 (SETTINGS_FILE env) with
      | Raises e => (Raises e, w1)
      | Returns false => (Returns (get_default_settings env), w1)
      | Returns true =>
          match read_json env w1 (SETTINGS_FILE env) with
          | Returns loaded_settings_from_file =>
              (Returns (loaded_settings_from_file ∪ get_default_settings env), w1)
          | Raises _ => (Returns (get_default_settings env), w1)
          end
      end
  end.

Definition save_settings (env : Env) (settings : gmap string V) (w : W)
    : Result unit * W :=
  match ensure_config_dir_exists env w with
  | (Raises e, w1) => (Raises e, w1)
  | (Returns _, w1) => write_json env (SETTINGS_FILE env) settings w1
  end.

End WithWorld.
Arguments Env W V : clear implicits.

End ConfigManager.

(* ================================================================= *)
(** ** [orchestrator.py]: the command line *)

Module Main.
Import PyStr Config Orchestrator.

(** The parsed arguments; an option that was not given is [None]. *)
Record Args := mkArgs {
  folder_path : option string;
  notion_api_key : option string;
  notion_db_id : option string;
  gemini_api_key : option string;
  whisper_model : option string
}.

(** A value that passes [if x:]: neither [None] nor empty. *)
Definition given (x : option string) : option string :=
  match x with
  | Some a => if is_empty a then None else Some a
  | None => None
  end.

(** [if arg: settings[key] = arg] *)
Definition override (key : string) (arg : option string)
    (settings : gmap string Value) : gmap string Value :=
  match given arg with
  | Some a => <[ key := VStr a ]> settings
  | None => settings
  end.

Definition apply_overrides (args : Args) (settings : gmap string Value)
    : gmap string Value :=
  override "whisper_model_size" (whisper_model args)
    (override "gemini_api_key" (gemini_api_key args)
       (override "notion_database_id" (notion_db_id args)
          (override "notion_api_key" (notion_api_key args) settings))).

(** The folder: the argument, else the setting when it is true, else the
    current directory. The setting is whatever the settings hold. *)
Definition folder_to_process (args : Args) (settings : gmap string Value) : Value :=
  match given (folder_path args) with
  | Some folder => VStr folder
  | None =>
      let folder := get settings "audio_input_folder" in
      if truthy folder then folder else VStr "."
  end.

(** The two counters of the final loop. *)
Fixpoint tally (results : list Outcome) (successful_uploads failed_processing : nat)
    : nat * nat :=
  match results with
  | [] => (successful_uploads, failed_processing)
  | res :: rest =>
      if String.eqb (status res) "success" then
        tally rest (S successful_uploads) failed_processing
      else tally rest successful_uploads (S failed_processing)
  end.

(** What a run prints at its end: the records and the two counters. *)
Record Report := mkReport {
  results : list Outcome;
  successful_uploads : nat;
  failed_processing : nat
}.

Section WithWorld.
Context {W : Type} `{FileSystem W}.

(** What [main] takes from [pathlib]: the answer of
    [Path(text).exists()], and the [TypeError] of [Path(x)] for an [x]
    that is not a string, given the name of the type of [x]; its text is
    not the same in all versions of Python. *)
Record Pathlib := mkPathlib {
  folder_exists : W -> string -> bool;
  not_a_path : string -> Exn
}.

(** [Path(folder)], by its text. *)
Definition Path_ (lib : Pathlib) (folder : Value) : Result string :=
  match folder with
  | VStr text => Returns text
  | VNone => Raises (not_a_path lib "NoneType")
  | VOther type_name _ _ => Raises (not_a_path lib type_name)
  end.

(** [main]: [None] when the folder does not exist. The services are
    initialised before the folder is looked at. *)
Definition main (cfg : ConfigManager.Env W Value) (libs : Startup.Libraries W)
    (lib : Pathlib) (args : Args) : M W (Result (option Report)) :=
  fun w =>
    match ConfigManager.load_settings cfg w with
    | (Raises e, w1) => (Raises e, w1, [])
    | (Returns settings, w1) =>
        let settings := apply_overrides args settings in
        let folder_to_process := folder_to_process args settings in
        let '(orchestrator, w2) := Startup._initialize_services libs settings w1 in
        match try! text <- Path_ lib folder_to_process;
              try! there <- examine w2 text (folder_exists lib w2 text);
              Returns (text, there) with
        | Raises e => (Raises e, w2, [])
        | Returns (_, false) => (Returns None, w2, [])
        | Returns (text, true) =>
            match process_folder orchestrator text None w2 with
            | (Raises e, w3, t) => (Raises e, w3, t)
            | (Returns results, w3, t) =>
                let '(successful_uploads, failed_processing) := tally results 0 0 in
                (Returns (Some (mkReport results successful_uploads failed_processing)),
                 w3, t)
            end
        end
    end.

End WithWorld.
Arguments Pathlib W : clear implicits.

End Main.

(* ================================================================= *)
(** ** [summarizer.py]: the six-facet analysis *)

Module MeetingAnalyzer.
Import PyStr.

(** The blank line between an instruction and the transcript. *)
Definition nn : string := String nl (String nl "").

(** The prompts, in the order of the dictionary. *)
Definition prompts (transcript : string) : list (string * string) :=
  [ ("summary", "Summarize the following meeting transcript:" +:+ nn +:+ transcript);
    ("participants",
     "List the people who actively participated in the following meeting transcript. Only include names that actually spoke or contributed:"
     +:+ nn +:+ transcript);
    ("tasks",
     "Extract any tasks or action items from the meeting transcript below. Include assignee names if mentioned:"
     +:+ nn +:+ transcript);
    ("deadlines",
     "Extract any deadlines, due dates, or reminders mentioned in the following meeting transcript:"
     +:+ nn +:+ transcript);
    ("decisions",
     "List the decisions made by the team in the following meeting transcript:"
     +:+ nn +:+ transcript);
    ("insights",
     "What key insights or noteworthy takeaways can be inferred from the following meeting transcript? These could help with teamwork or project alignment:"
     +:+ nn +:+ transcript) ].

Section WithWorld.
Context {W : Type}.

(** The analyzer: [generate_text] is [model.generate_content(prompt).text];
    [read_text] reads the transcript file. *)
Record Analyzer := mkAnalyzer {
  generate_text : string -> W -> Result string * W;
  read_text : W -> Path -> Result string
}.

Definition _run_prompt (self : Analyzer) (prompt : string) : M W (Result string) :=
  r <- call (CallModel prompt) (generate_text self prompt);;
  ret (try! t <- r; Returns (strip t)).

(** The loop over the prompts: one entry of [results] per prompt. *)
Fixpoint extract (self : Analyzer) (items : list (string * string))
    : M W (list (string * string)) :=
  match items with
  | [] => ret []
  | (key, prompt) :: rest =>
      r <- _run_prompt self prompt;;
      others <- extract self rest;;
      ret ((key, match r with Returns response => response | Raises _ => "ERROR" end)
           :: others)
  end.

Definition analyze (self : Analyzer) (transcript_path : Path)
    : M W (Result (list (string * string))) :=
  fun w =>
    match read_text self w transcript_path with
    | Raises e => (Raises e, w, [])
    | Returns transcript =>
        let '(results, w1, t) := extract self (prompts transcript) w in
        (Returns results, w1, t)
    end.

End WithWorld.
Arguments Analyzer W : clear implicits.

End MeetingAnalyzer.

(* ================================================================= *)
(** ** [notion_writer.py]: the page of a meeting *)

Module NotionWriter.
Import PyStr.

Definition CR : ascii := ascii_of_nat 13.

(** The line boundaries of [str.splitlines] below 256. *)
Definition is_linebreak (c : ascii) : bool :=
  let n := code c in
  ((10 <=? n) && (n <=? 13) || (28 <=? n) && (n <=? 30) || (n =? 133))%N.

Definition prepend (c : ascii) (parts : list string) : list string :=
  match parts with
  | h :: t => String c h :: t
  | [] => [String c EmptyString]
  end.

(** [s.splitlines()]: a carriage return followed by a line feed is one
    boundary; a boundary at the very end opens no further line. *)
Fixpoint splitlines (s : string) : list string :=
  match s with
  | EmptyString => []
  | String c r =>
      if is_linebreak c then
        match r with
        | String d r' =>
            if Ascii.eqb c CR && Ascii.eqb d nl then EmptyString :: splitlines r'
            else EmptyString :: splitlines r
        | EmptyString => [EmptyString]
        end
      else prepend c (splitlines r)
  end.

(** [s.rstrip(chars)] and [s.strip(chars)] *)
Fixpoint rstrip_chars (chars s : string) : string :=
  match s with
  | EmptyString => EmptyString
  | String c r =>
      match rstrip_chars chars r with
      | EmptyString => if mem_char c chars then EmptyString else String c EmptyString
      | r' => String c r'
      end
  end.

Definition strip_chars (chars s : string) : string :=
  rstrip_chars chars (lstrip_chars chars s).

(** [s.replace("**", "")]: the occurrences are taken from the left and do
    not overlap. *)
Fixpoint remove_double_star (s : string) : string :=
  match s with
  | EmptyString => EmptyString
  | String c r =>
      if Ascii.eqb c "*" then
        match r with
        | String d r' =>
            if Ascii.eqb d "*" then remove_double_star r'
            else String c (remove_double_star r)
        | EmptyString => String c EmptyString
        end
      else String c (remove_double_star r)
  end.

(** [s.split(", ")] *)
Fixpoint split_comma_space (s : string) : list string :=
  match s with
  | EmptyString => [EmptyString]
  | String c r =>
      if Ascii.eqb c "," then
        match r with
        | String d r' =>
            if Ascii.eqb d " " then EmptyString :: split_comma_space r'
            else prepend c (split_comma_space r)
        | EmptyString => [String c EmptyString]
        end
      else prepend c (split_comma_space r)
  end.

(** The block dictionaries of this module, by their [type] and the
    content of their one text. *)
Inductive Block :=
| heading_2 (content : string)
| paragraph (content : string)
| bulleted_list_item (content : string)
| to_do (content : string) (checked : bool).

Definition _heading (text : string) : Block := heading_2 text.
Definition _paragraph (text : string) : Block := paragraph text.

Definition _bulleted_list (items : list string) : list Block :=
  map bulleted_list_item
      (List.filter (fun item => negb (is_empty (strip item))) items).

(** [stripped.startswith(("*", "-"))] *)
Definition bulleted (stripped : string) : bool :=
  startswith "*" stripped || startswith "-" stripped.

(** What one line adds to the blocks of the tasks. *)
Definition task_block (line : string) : option Block :=
  let stripped := strip line in
  if startswith "* **" stripped || startswith "- **" stripped then
    Some (_paragraph (remove_double_star (strip_chars "*- " stripped)))
  else if bulleted stripped && negb (is_empty (strip (slice_from 1 stripped))) then
    Some (to_do (strip (lstrip_chars "*- " stripped)) false)
  else None.

Definition _task_blocks (markdown_text : string) : list Block :=
  omap task_block (splitlines markdown_text).

(** What one line adds to the blocks of a markdown text. *)
Definition markdown_block (line : string) : option Block :=
  let stripped := strip line in
  if is_empty stripped then None
  else if bulleted stripped then
    Some (bulleted_list_item (strip (lstrip_chars "*- " stripped)))
  else Some (_paragraph stripped).

Definition _markdown_blocks (markdown_text : string) : list Block :=
  omap markdown_block (splitlines markdown_text).

(** [analysis[key]] *)
Definition getitem (analysis : gmap string string) (key : string) : Result string :=
  match analysis !! key with
  | Some v => Returns v
  | None => Raises (raise_ OtherException ("'" +:+ key +:+ "'"))
  end.

(** The [children] of the page, its elements evaluated in order. The
    texts of the headings are kept as the bytes of the source. *)
Definition children (analysis : gmap string string) : Result (list Block) :=
  try! summary <- getitem analysis "summary";
  try! participants <- getitem analysis "participants";
  try! tasks <- getitem analysis "tasks";
  try! deadlines <- getitem analysis "deadlines";
  try! decisions <- getitem analysis "decisions";
  try! insights <- getitem analysis "insights";
  Returns ([_heading "📝 Summary"; _paragraph summary; _heading "👥 Participants"]
           ++ _bulleted_list (split_comma_space participants)
           ++ [_heading "✅ Tasks"] ++ _task_blocks tasks
           ++ [_heading "📆 Deadlines & Reminders"] ++ _markdown_blocks deadlines
           ++ [_heading "📌 Key Decisions"] ++ _markdown_blocks decisions
           ++ [_heading "💡 Insights & Recommendations"] ++ _markdown_blocks insights).

Section WithWorld.
Context {W : Type}.

(** The response of [pages.create]: its [url] entry, when it has one. *)
Record Page := mkPage { page_url : option string }.

(** What the module takes from outside: the database named by the
    environment, if any, the clock, and the remote [pages.create], given
    the database, the title, the date and the children. *)
Record Workspace := mkWorkspace {
  DATABASE_ID : option string;
  now_isoformat : W -> string;
  pages_create :
    option string -> string -> string -> list Block -> W -> Result Page * W
}.

Definition create_meeting_page (ws : Workspace)
    (meeting_data analysis : gmap string string) (w : W) : Result Page * W :=
  let title := default "Untitled Meeting" (meeting_data !! "title") in
  let date := default (now_isoformat ws w) (meeting_data !! "date") in
  match children analysis with
  | Raises e => (Raises e, w)
  | Returns blocks =>
      match pages_create ws (DATABASE_ID ws) title date blocks w with
      | (Raises e, w1) => (Raises e, w1)
      | (Returns page, w1) =>
          match page_url page with
          | Some _ => (Returns page, w1)
          | None => (Raises (raise_ OtherException "'url'"), w1)
          end
      end
  end.

End WithWorld.
Arguments Workspace W : clear implicits.

End NotionWriter.

(* ================================================================= *)
(** ** More of the small world *)

Module Backstage.
Import PyStr InputManager Orchestrator Scenario.

(** The studio without credentials for the workspace. *)
Definition studio_unpublished : Orchestrator Desk :=
  mkOrchestrator (Some speech) (Some (summarizer_of gemini)) None.

(** A speech model that hears nothing but silence. *)
Definition mumbling : TranscriptionService Desk :=
  mkTranscription "OpenAI Whisper" (fun _ w => (Returns "   ", w, [])).

Definition studio_mumbling : Orchestrator Desk :=
  mkOrchestrator (Some mumbling) (Some (summarizer_of gemini)) (Some (publisher_of notion)).

(** A workspace that cannot be reached; the text of the failure quotes
    the address. *)
Definition notion_unreachable : NotionHandler.Handler Desk :=
  NotionHandler.mkHandler "db" (fun _ _ _ w =>
    (Raises (raise_ OtherException
               "Max retries exceeded with url: https://api.notion.com/v1/pages"), w)).

Definition studio_unreachable : Orchestrator Desk :=
  mkOrchestrator (Some speech) None (Some (publisher_of notion_unreachable)).

(** A model client out of quota for its first prompt. *)
Definition gemini_quota : SummarizerService.Service Desk :=
  SummarizerService.mkService "gemini-1.5-flash-latest" (fun prompt w =>
    if contains "Action Items:" prompt
    then (Returns (SummarizerService.mkResponse (Some raw_plain_line) (Returns [])), w)
    else (Raises (raise_ OtherException "429 quota exceeded"), w)).



(** The simulated Google backend, with a key file. *)
Definition stenographer : GoogleSTT.GoogleSTTTranscriber :=
  GoogleSTT.mkGoogleSTT (Config.VStr "key.json") (Config.VStr "en-US").

Definition studio_google : Orchestrator Desk :=
  mkOrchestrator (Some (GoogleSTT.as_service stenographer)) None
                 (Some (publisher_of notion)).

(** Putting a file on the desk and taking it away. *)
Definition put (p : Path) (w : Desk) : Desk :=
  mkDesk (path_str p :: present w) (pages w).

Definition remove (p : Path) (w : Desk) : Desk :=
  mkDesk (List.filter (fun q => negb (String.eqb q (path_str p))) (present w)) (pages w).

(** A loaded speech model. *)
Definition hears_bob : Whisper.Model Desk :=
  fun _ w => (Returns "Bob will send the report.", w).

(** A machine with the speech library and the converter installed; no
    file on it is a WAV file [wave] can read. *)
Definition whisper_env : Whisper.Env Desk :=
  Whisper.mkEnv true "/tmp" "42"
    (fun _ w => (Returns hears_bob, w))
    (fun _ w => (Returns tt, w))
    (fun _ _ => Raises (raise_ OtherException "file does not start with RIFF id"))
    (fun _ q w => (Returns tt, put q w))
    (fun q w => (Returns tt, remove q w))
    (fun w => (Whisper.Ran "ffmpeg version 6.0", w))
    (fun _ wav w => (Whisper.Ran "", put wav w)).

(** The same machine without the speech library. *)
Definition whisper_missing : Whisper.Env Desk :=
  Whisper.mkEnv false "/tmp" "42"
    (Whisper.load_model whisper_env) (Whisper.mkdir whisper_env)
    (Whisper.wave_open whisper_env) (Whisper.copy whisper_env)
    (Whisper.unlink whisper_env) (Whisper.ffmpeg_version whisper_env)
    (Whisper.ffmpeg_convert whisper_env).

(** A transcriber on that machine. *)
Definition whisper_base : Whisper.WhisperTranscriber Desk :=
  Whisper.mkWhisper "base" (mkPath "/tmp/seshat_agent_temp_audio" "whisper_42") hears_bob.

(** The remote workspace behind the client library: it knows the
    database [db]. *)
Definition notion_client : NotionInit.Client Desk :=
  NotionInit.mkClient
    (fun database_id w =>
       if String.eqb database_id "db" then (Returns tt, w)
       else (Raises (mkExn APIResponseError "Could not find database"
                           "object_not_found" "{}"), w))
    (NotionHandler.pages_create notion).

Definition notion_library : NotionInit.Library Desk :=
  NotionInit.mkLibrary true (fun _ w => (Returns notion_client, w))
    "unauthorized" "object_not_found".

Definition genai_library : SummarizerInit.Library Desk :=
  SummarizerInit.mkLibrary true (fun _ w => (Returns tt, w))
    (fun _ w => (Returns (SummarizerService.generate_content gemini), w)).

Definition libraries : Startup.Libraries Desk :=
  Startup.mkLibraries true whisper_env genai_library notion_library.

(** A home directory without a settings file. *)
Definition fresh_home : ConfigManager.Env Desk Config.Value :=
  ConfigManager.mkEnv "/home/bob" Config.VStr
    (fun _ w => (Returns tt, w))
    (fun _ _ => Raises (raise_ FileNotFoundError "settings.json"))
    (fun p _ w => (Returns tt, put p w)).

(** A command line that names the folder and nothing else. *)
Definition only_folder : Main.Args :=
  Main.mkArgs (Some "audio") None None None None.

(** A shelf that keeps the settings last saved on it. *)
Record Shelf := mkShelf { saved : option (gmap string Config.Value) }.

#[global] Instance shelf_fs : FileSystem Shelf := {|
  fs_is_dir := fun _ _ => false;
  fs_iterdir := fun _ _ => Returns [];
  fs_is_file := fun w _ => match saved w with Some _ => true | None => false end;
  fs_exists := fun w _ => match saved w with Some _ => true | None => false end;
  fs_stat := fun _ _ => Raises (raise_ FileNotFoundError "no such file");
  fs_write_text := fun _ _ w => (Returns tt, w);
  fs_move := fun _ _ w => (Returns tt, w);
  fs_denied := fun _ _ => None
|}.

Definition shelf_home : ConfigManager.Env Shelf Config.Value :=
  ConfigManager.mkEnv "/home/bob" Config.VStr
    (fun _ w => (Returns tt, w))
    (fun w _ => match saved w with
                | Some d => Returns d
                | None => Raises (raise_ FileNotFoundError "settings.json")
                end)
    (fun _ d _ => (Returns tt, mkShelf (Some d))).

(** Settings that name a folder and a database, nothing else. *)
Definition bobs_settings : gmap string Config.Value :=
  <[ "audio_input_folder" := Config.VStr "/home/bob/meetings" ]>
    {[ "notion_database_id" := Config.VStr "db" ]}.

(** A settings file whose folder is [null]. *)
Definition no_folder : gmap string Config.Value :=
  {[ "audio_input_folder" := Config.VNone ]}.

(** A settings file whose folder is the number [7]. *)
Definition numbered_folder : gmap string Config.Value :=
  {[ "audio_input_folder" := Config.VOther "int" true "7" ]}.

(** The part of [pathlib] the command line needs, on the desk and on the
    shelf, with the text of the error of Python 3.12. *)
Definition not_a_path (type_name : string) : Exn :=
  raise_ OtherException
    ("argument should be a str or an os.PathLike object where __fspath__ returns a str, not '"
     +:+ type_name +:+ "'").

Definition desk_paths : Main.Pathlib Desk :=
  Main.mkPathlib (fun _ folder => String.eqb folder "audio") not_a_path.

Definition shelf_paths : Main.Pathlib Shelf :=
  Main.mkPathlib (fun _ _ => false) not_a_path.

(** A machine on which no library is installed. *)
Definition bare_libraries : Startup.Libraries Shelf :=
  Startup.mkLibraries false
    (Whisper.mkEnv false "/tmp" "42"
       (fun _ w => (Raises (raise_ OtherException "no module named whisper"), w))
       (fun _ w => (Returns tt, w))
       (fun _ _ => Raises (raise_ OtherException "no such file"))
       (fun _ _ w => (Returns tt, w))
       (fun _ w => (Returns tt, w))
       (fun w => (Whisper.Crashed (raise_ FileNotFoundError "ffmpeg"), w))
       (fun _ _ w => (Whisper.Crashed (raise_ FileNotFoundError "ffmpeg"), w)))
    (SummarizerInit.mkLibrary false (fun _ w => (Returns tt, w))
       (fun _ w => (Raises (raise_ OtherException "no module"), w)))
    (NotionInit.mkLibrary false
       (fun _ w => (Raises (raise_ OtherException "no module"), w))
       "unauthorized" "object_not_found").

(** A model that answers every prompt but the one for the deadlines. *)
Definition analyst : MeetingAnalyzer.Analyzer Desk :=
  MeetingAnalyzer.mkAnalyzer
    (fun prompt w =>
       if startswith "Extract any deadlines" prompt
       then (Raises (raise_ OtherException "429 quota exceeded"), w)
       else (Returns " ok ", w))
    (fun _ _ => Returns "Bob will send the report.").

(** A model answer that numbers its tasks instead of using bullets. *)
Definition numbered_tasks : string :=
  "1. Bob sends the report" +:+ String nl "" +:+ String nl "2. Ann books a room".

End Backstage.

(* ================================================================= *)
(** * Properties *)

(** ** Strings *)

Module PyStrFacts.
Import PyStr.

Lemma append_nil (s : string) : "" +:+ s = s.
Proof. reflexivity. Qed.

Lemma append_cons (c : ascii) (r s : string) :
  String c r +:+ s = String c (r +:+ s).
Proof. reflexivity. Qed.




Lemma is_empty_true (s : string) : is_empty s = true <-> s = "".
Proof. destruct s; simpl; split; congruence. Qed.


(** *** Slices *)

Lemma substring_shift (n i m : nat) (s : string) :
  String.substring (n + i) m s = String.substring i m (slice_from n s).
Proof.
  revert s. induction n as [|n IH]; intros s; simpl.
  - reflexivity.
  - destruct s as [|c r].
    + destruct i, m; reflexivity.
    + apply IH.
Qed.

Lemma take_drop (n : nat) (s : string) :
  String.substring 0 n s +:+ slice_from n s = s.
Proof.
  revert s. induction n as [|n IH]; intros [|c r]; simpl; try reflexivity.
  now rewrite append_cons, IH.
Qed.

Lemma length_slice_from (n : nat) (s : string) :
  String.length (slice_from n s) = String.length s - n.
Proof.
  revert s. induction n as [|n IH]; intros [|c r]; simpl; try reflexivity.
  apply IH.
Qed.

Lemma length_take (n : nat) (s : string) :
  String.length (String.substring 0 n s) = Nat.min n (String.length s).
Proof.
  revert s. induction n as [|n IH]; intros [|c r]; simpl; try reflexivity.
  now rewrite IH.
Qed.

Lemma slice_step (s : string) (i n : nat) :
  slice s i (i + n) = String.substring i n s.
Proof. unfold slice. f_equal. lia. Qed.

(** *** Ranges *)

Lemma range_from_shift (a n k : nat) :
  range_from (n + a) n k = map (Nat.add n) (range_from a n k).
Proof.
  revert a. induction k as [|k IH]; intros a; simpl; [reflexivity|].
  f_equal. rewrite <- IH. f_equal. lia.
Qed.


(** The number of values of [range(0, len, n)]. *)
Lemma range_count_zero (n : nat) : 0 < n -> (0 - 0 + (n - 1)) / n = 0.
Proof. intros Hn. apply Nat.div_small. lia. Qed.

Lemma range_count_succ (len n : nat) :
  0 < n -> 0 < len ->
  (len - 0 + (n - 1)) / n = S ((len - n - 0 + (n - 1)) / n).
Proof.
  intros Hn Hlen.
  destruct (Nat.le_gt_cases n len) as [Hle|Hlt].
  - replace (len - 0 + (n - 1)) with ((len - n - 0 + (n - 1)) + 1 * n) by lia.
    rewrite Nat.div_add by lia. lia.
  - replace (len - n - 0 + (n - 1)) with (n - 1) by lia.
    rewrite (Nat.div_small (n - 1) n) by lia.
    replace (len - 0 + (n - 1)) with ((len - 1) + 1 * n) by lia.
    rewrite Nat.div_add by lia. rewrite Nat.div_small by lia. reflexivity.
Qed.

End PyStrFacts.

(** ** Chunking *)

Module ChunkFacts.
Import PyStr PyStrFacts NotionHandler.

Section Chunks.
Variable n : nat.
Hypothesis n_pos : 0 < n.

Lemma chunks_of_nil : chunks_of "" n = [].
Proof.
  unfold chunks_of, range. simpl String.length.
  now rewrite range_count_zero.
Qed.

(** The comprehension, unrolled once. *)
Lemma chunks_of_cons (s : string) :
  s <> "" ->
  chunks_of s n = String.substring 0 n s :: chunks_of (slice_from n s) n.
Proof.
  intros Hs. unfold chunks_of, range.
  rewrite range_count_succ; [|assumption|destruct s; simpl; [congruence|lia]].
  rewrite length_slice_from.
  set (k := (String.length s - n - 0 + (n - 1)) / n).
  simpl range_from. simpl map. f_equal.
  - exact (slice_step s 0 n).
  - pose proof (range_from_shift 0 n k) as Hshift.
    rewrite Nat.add_0_r in Hshift. rewrite Hshift, map_map.
    apply map_ext. intros i.
    rewrite !slice_step. apply substring_shift.
Qed.

Lemma slice_from_shorter (s : string) :
  s <> "" -> String.length (slice_from n s) < String.length s.
Proof.
  intros Hs. rewrite length_slice_from.
  destruct s; simpl; [congruence|lia].
Qed.

(** Induction along the chunks of a text. *)
Lemma chunks_of_ind (P : string -> list string -> Prop) :
  P "" [] ->
  (forall s, s <> "" ->
     P (slice_from n s) (chunks_of (slice_from n s) n) ->
     P s (String.substring 0 n s :: chunks_of (slice_from n s) n)) ->
  forall s, P s (chunks_of s n).
Proof.
  intros Hnil Hcons s.
  remember (String.length s) as len eqn:Hlen.
  revert s Hlen.
  induction len as [len IH] using lt_wf_ind. intros s Hlen.
  destruct s as [|c r].
  - rewrite chunks_of_nil. exact Hnil.
  - rewrite chunks_of_cons by discriminate.
    apply Hcons; [discriminate|].
    apply (IH (String.length (slice_from n (String c r)))); [|reflexivity].
    subst len. apply slice_from_shorter. discriminate.
Qed.

Lemma chunks_of_join (s : string) : join (chunks_of s n) = s.
Proof.
  apply (chunks_of_ind (fun s cs => join cs = s)); [reflexivity|].
  intros t _ IH. simpl. rewrite IH. apply take_drop.
Qed.

Lemma first_chunk_nonempty (s : string) :
  s <> "" -> String.substring 0 n s <> "".
Proof.
  intros Hs. destruct s as [|c r]; [congruence|].
  destruct n; [lia|]. simpl. discriminate.
Qed.

Lemma chunks_of_bounded (s : string) :
  Forall (fun c => c <> "" /\ String.length c <= n) (chunks_of s n).
Proof.
  apply (chunks_of_ind (fun _ cs =>
           Forall (fun c => c <> "" /\ String.length c <= n) cs)); [constructor|].
  intros t Ht IH. constructor; [|exact IH]. split.
  - now apply first_chunk_nonempty.
  - rewrite length_take. lia.
Qed.

Lemma chunks_of_empty_iff (s : string) : chunks_of s n = [] <-> s = "".
Proof.
  split.
  - intros Hc. destruct s as [|c r]; [reflexivity|].
    rewrite chunks_of_cons in Hc by discriminate. discriminate.
  - intros ->. apply chunks_of_nil.
Qed.

(** Every chunk that is followed by another one is full. *)
Lemma chunks_of_full (s : string) (i : nat) (c : string) :
  chunks_of s n !! i = Some c ->
  S i < length (chunks_of s n) ->
  String.length c = n.
Proof.
  revert i c.
  apply (chunks_of_ind (fun _ cs => forall i c,
           cs !! i = Some c -> S i < length cs -> String.length c = n)).
  - intros i c Hi. destruct i; discriminate.
  - intros t Ht IH [|i] c Hi Hlen.
    + injection Hi as <-. rewrite length_take.
      destruct (chunks_of (slice_from n t) n) eqn:Hrest; [simpl in Hlen; lia|].
      assert (slice_from n t <> "") as Hne.
      { intros Heq. apply chunks_of_empty_iff in Heq. congruence. }
      assert (0 < String.length (slice_from n t)) as Hpos.
      { destruct (slice_from n t); [congruence|simpl; lia]. }
      rewrite length_slice_from in Hpos. lia.
    + simpl in Hi, Hlen. apply (IH i c Hi). lia.
Qed.

End Chunks.

End ChunkFacts.

(** ** Stripping and splitting *)

Module StripFacts.
Import PyStr PyStrFacts.

Lemma lstrip_whitespace (s : string) :
  all_chars isspace s = true -> lstrip s = "".
Proof.
  induction s as [|c r IH]; simpl; [reflexivity|].
  intros [Hc Hr]%andb_prop. rewrite Hc. auto.
Qed.


Lemma rstrip_empty_inv (s : string) :
  rstrip s = "" -> all_chars isspace s = true.
Proof.
  induction s as [|c r IH]; simpl; [reflexivity|].
  destruct (rstrip r) eqn:Hr; [|discriminate].
  destruct (isspace c); [|discriminate].
  intros _. simpl. now apply IH.
Qed.

Lemma lstrip_suffix_whitespace (s : string) :
  all_chars isspace (lstrip s) = true -> all_chars isspace s = true.
Proof.
  induction s as [|c r IH]; simpl; [reflexivity|].
  destruct (isspace c) eqn:Hc; simpl.
  - exact IH.
  - rewrite Hc. simpl. discriminate.
Qed.

(** [s.strip()] is empty exactly for the empty and the whitespace-only
    strings. *)
Lemma strip_empty_iff (s : string) :
  strip s = "" <-> all_chars isspace s = true.
Proof.
  unfold strip. split.
  - intros Hs. apply lstrip_suffix_whitespace, rstrip_empty_inv, Hs.
  - intros Hs. now rewrite lstrip_whitespace.
Qed.

Lemma is_empty_strip (s : string) :
  is_empty (strip s) = all_chars isspace s.
Proof.
  destruct (all_chars isspace s) eqn:Hs.
  - apply strip_empty_iff in Hs. now rewrite Hs.
  - destruct (is_empty (strip s)) eqn:He; [|reflexivity].
    apply is_empty_true, strip_empty_iff in He. congruence.
Qed.

(** The truth test [not s or not s.strip()] is the second disjunct. *)
Lemma blank_test (s : string) :
  is_empty s || is_empty (strip s) = all_chars isspace s.
Proof.
  rewrite is_empty_strip. destruct s; reflexivity.
Qed.


(** Splitting at the first separator: the text before it has none. *)
Lemma split_at_first (sep : ascii) (a b : string) :
  all_chars (fun c => negb (Ascii.eqb c sep)) a = true ->
  split sep (a +:+ String sep b) = a :: split sep b.
Proof.
  induction a as [|c r IH]; intros Ha.
  - rewrite append_nil. simpl. now rewrite Ascii.eqb_refl.
  - simpl in Ha. apply andb_prop in Ha as [Hc Hr].
    rewrite append_cons. simpl.
    apply negb_true_iff in Hc. rewrite Hc, (IH Hr). reflexivity.
Qed.

Lemma all_chars_append (p : ascii -> bool) (a b : string) :
  all_chars p (a +:+ b) = all_chars p a && all_chars p b.
Proof.
  induction a as [|c r IH]; [reflexivity|].
  rewrite append_cons. simpl. now rewrite IH, andb_assoc.
Qed.

End StripFacts.

(** ** The date portion of a timestamp *)

Module DateFacts.
Import PyStr PyStrFacts StripFacts InputManager.

Lemma digit_code (k : N) : N_of_ascii (digit k) = (48 + k mod 10)%N.
Proof.
  unfold digit. apply N_ascii_embedding.
  assert (k mod 10 < 10)%N by (apply N.mod_lt; lia). lia.
Qed.

Lemma digit_not_T (k : N) : Ascii.eqb (digit k) "T" = false.
Proof.
  apply Ascii.eqb_neq. intros Heq.
  apply (f_equal N_of_ascii) in Heq. rewrite digit_code in Heq.
  assert (k mod 10 < 10)%N by (apply N.mod_lt; lia).
  simpl in Heq. lia.
Qed.

Lemma date_part_no_T (d : datetime) :
  all_chars (fun c => negb (Ascii.eqb c "T")) (date_part d) = true.
Proof.
  unfold date_part, pad4, pad2.
  rewrite !all_chars_append. simpl.
  rewrite !digit_not_T. reflexivity.
Qed.

Lemma date_part_nonempty (d : datetime) : is_empty (date_part d) = false.
Proof. reflexivity. Qed.

(** [isoformat().split("T")[0]] is the date. *)
Lemma isoformat_date (d : datetime) :
  hd "" (split "T" (isoformat d)) = date_part d.
Proof.
  unfold isoformat.
  change ("T" +:+ time_part d) with (String "T" (time_part d)).
  rewrite split_at_first by apply date_part_no_T.
  reflexivity.
Qed.

End DateFacts.

(** ** The orchestrator *)

Module OrchestratorFacts.
Import PyStr PyStrFacts StripFacts DateFacts InputManager Orchestrator.

Section WithWorld.
Context {W : Type} `{FileSystem W}.

Implicit Types (self : Orchestrator W) (p : Path) (w : W).

(** Name the result of the next computation of the goal. *)
Ltac next_run :=
  match goal with
  | |- context [match ?m with _ => _ end] =>
      let r := fresh "r" in let w := fresh "w" in let t := fresh "t" in
      let E := fresh "E" in
      destruct m as [[r w] t] eqn:E; simpl
  end.



Lemma publish_outcome_file (result : Outcome) (r : Result string) :
  file (publish_outcome result r) = file result.
Proof.
  destruct r as [s|e]; simpl; [|reflexivity].
  destruct (contains _ s); reflexivity.
Qed.

Lemma publish_file self result p d sd t w :
  file (value_of (publish self result p d sd t w)) = file result.
Proof.
  unfold publish, value_of.
  destruct (notion_handler self) as [nh|]; [|reflexivity].
  unfold bind, invoke, ret. repeat next_run.
  apply publish_outcome_file.
Qed.

(** Whatever the stages do, the outcome names the file it is about. *)
Lemma process_single_file self p d w :
  file (value_of (process_single_audio_file self p d w)) = path_str p.
Proof.
  unfold process_single_audio_file.
  destruct (transcription_service self) as [ts|]; [|reflexivity].
  unfold bind at 1. unfold invoke at 1.
  destruct (transcribe ts p w) as [[r w1] t1]. simpl.
  destruct r as [t|e]; [|reflexivity].
  destruct (is_empty t || is_empty (strip t)); [reflexivity|].
  unfold bind. destruct (summarize self t p w1) as [[sd w2] t2].
  pose proof (publish_file self (mkOutcome (path_str p) "pending" "" "") p d sd t w2) as Hp.
  destruct (publish self _ p d sd t w2) as [[o w3] t3]. exact Hp.
Qed.

Lemma process_item_file self dm p w :
  file (value_of (process_item self dm p w)) = path_str p.
Proof.
  unfold process_item, bind, gets.
  destruct (resolve_date dm p w) as [skipped|d] eqn:Hd.
  - simpl. unfold resolve_date in Hd.
    destruct (mapped_date dm (name p)); [discriminate|].
    destruct (get_file_metadata w p) as [md|e]; [discriminate|].
    destruct (class_eqb _ _); injection Hd as <-; reflexivity.
  - destruct (is_empty d); [reflexivity|].
    pose proof (process_single_file self p d w) as Hp.
    destruct (process_single_audio_file self p d w) as [[o w1] t1]. exact Hp.
Qed.

(** The accumulating loop appends what the item-by-item run yields. *)
Lemma process_files_acc self dm files : forall acc w,
  process_files self dm files acc w =
  (let '(rs, w', t) := one_outcome_per_file self dm files w in (acc ++ rs, w', t)).
Proof.
  induction files as [|p rest IH]; intros acc w; simpl.
  - unfold ret. now rewrite app_nil_r.
  - unfold bind. destruct (process_item self dm p w) as [[o w1] t1].
    rewrite IH.
    destruct (one_outcome_per_file self dm rest w1) as [[rs w2] t2].
    unfold ret. rewrite app_nil_r, <- app_assoc. reflexivity.
Qed.

Lemma one_outcome_per_file_files self dm files : forall w,
  map file (value_of (one_outcome_per_file self dm files w)) = map path_str files.
Proof.
  induction files as [|p rest IH]; intros w; simpl; [reflexivity|].
  unfold bind.
  pose proof (process_item_file self dm p w) as Hp.
  destruct (process_item self dm p w) as [[o w1] t1].
  specialize (IH w1).
  destruct (one_outcome_per_file self dm rest w1) as [[rs w2] t2].
  unfold ret, value_of in *. simpl in *. now rewrite Hp, IH.
Qed.

(** Items are handled one after the other: the run over [before ++ after]
    is the run over [before] followed by the run over [after]. *)
Lemma one_outcome_per_file_app self dm before after : forall w,
  one_outcome_per_file self dm (before ++ after) w =
  (let '(r1, w1, t1) := one_outcome_per_file self dm before w in
   let '(r2, w2, t2) := one_outcome_per_file self dm after w1 in
   (r1 ++ r2, w2, t1 ++ t2)).
Proof.
  induction before as [|p rest IH]; intros w; simpl.
  - unfold ret. destruct (one_outcome_per_file self dm after w) as [[r2 w2] t2].
    reflexivity.
  - unfold bind. destruct (process_item self dm p w) as [[o w1] t1].
    rewrite IH.
    destruct (one_outcome_per_file self dm rest w1) as [[r1 w2] t2]. simpl.
    destruct (one_outcome_per_file self dm after w2) as [[r2 w3] t3].
    unfold ret. simpl. rewrite !app_nil_r, app_assoc. reflexivity.
Qed.

Lemma one_outcome_per_file_length self dm files w :
  length (value_of (one_outcome_per_file self dm files w)) = length files.
Proof.
  rewrite <- (length_map file), one_outcome_per_file_files.
  apply length_map.
Qed.

(** The outcome at the position of an item is the outcome of that item,
    computed in the world its predecessors left. *)
Lemma one_outcome_per_file_lookup self dm before p after w :
  value_of (one_outcome_per_file self dm (before ++ p :: after) w)
    !! length before
  = Some (value_of (process_item self dm p
            (world_of (one_outcome_per_file self dm before w)))).
Proof.
  rewrite one_outcome_per_file_app.
  pose proof (one_outcome_per_file_length self dm before w) as Hlen.
  destruct (one_outcome_per_file self dm before w) as [[r1 w1] t1].
  unfold value_of, world_of in *. simpl in *.
  unfold bind.
  destruct (process_item self dm p w1) as [[o w2] t2].
  destruct (one_outcome_per_file self dm after w2) as [[r2 w3] t3].
  simpl. rewrite <- Hlen.
  rewrite lookup_app_r by lia. now rewrite Nat.sub_diag.
Qed.

Lemma mapped_date_lookup (m : gmap string string) (n : string) :
  mapped_date (Some m) n = m !! n.
Proof.
  unfold mapped_date. case_bool_decide as Hm; [|reflexivity].
  subst m. now rewrite lookup_empty.
Qed.

(** Once transcription gave a text that is not blank, the item goes
    through analysis and publishing. *)
Lemma process_single_transcribed self ts p d w t w1 t1 :
  transcription_service self = Some ts ->
  transcribe ts p w = (Returns t, w1, t1) ->
  all_chars isspace t = false ->
  process_single_audio_file self p d w =
  (let '(o, w2, t2) :=
     bind (summarize self t p)
          (fun sd => publish self (mkOutcome (path_str p) "pending" "" "") p d sd t) w1 in
   (o, w2, (CallTranscribe p :: t1) ++ t2)).
Proof.
  intros Hts Ht Hblank. unfold process_single_audio_file. rewrite Hts.
  unfold bind at 1. unfold invoke at 1. rewrite Ht.
  rewrite blank_test, Hblank. reflexivity.
Qed.

End WithWorld.

End OrchestratorFacts.

(** ** The publishing handler: chunks and blocks *)

Module NotionHandlerFacts.
Import PyStr PyStrFacts ChunkFacts NotionHandler.

Lemma default_chunk_size_pos : 0 < default_chunk_size.
Proof. unfold default_chunk_size. lia. Qed.

Lemma split_default (s : string) :
  _split_text_into_chunks s default_chunk_size
  = Returns (chunks_of s default_chunk_size).
Proof. reflexivity. Qed.

(** The children of the toggle: one paragraph per chunk, or the single
    blank paragraph. *)
Lemma toggle_children (heading_text content_text : string) :
  _toggle_block_with_text_content heading_text content_text =
  Returns (toggle (_rich_text_object heading_text None) "default"
             (map (fun chunk => paragraph [mkRichText chunk None] None)
                  (if is_empty content_text then [" "]
                   else chunks_of content_text default_chunk_size))).
Proof.
  unfold _toggle_block_with_text_content. rewrite split_default. simpl rbind.
  destruct content_text as [|c r].
  - rewrite chunks_of_nil by apply default_chunk_size_pos. reflexivity.
  - rewrite chunks_of_cons by (apply default_chunk_size_pos || discriminate).
    reflexivity.
Qed.

(** C10. For every text [s] and every positive chunk size [n],
    [_split_text_into_chunks s n] returns a list whose concatenation, in
    order, is exactly [s]; every chunk but possibly the last has length
    exactly [n]; no chunk is empty; and for the empty text the list is
    empty. *)
Theorem split_text_into_chunks_lossless (s : string) (n : nat) :
  0 < n ->
  exists chunks,
    _split_text_into_chunks s n = Returns chunks
    /\ join chunks = s
    /\ (forall i c, chunks !! i = Some c -> S i < length chunks ->
          String.length c = n)
    /\ Forall (fun c => c <> "") chunks
    /\ (s = "" -> chunks = []).
Proof.
  intros Hn. exists (chunks_of s n).
  split; [|split; [|split; [|split]]].
  - unfold _split_text_into_chunks.
    destruct (Nat.eqb_spec n 0); [lia | reflexivity].
  - now apply chunks_of_join.
  - intros i c. now apply chunks_of_full.
  - eapply Forall_impl; [apply chunks_of_bounded; assumption|].
    intros c [Hc _]. exact Hc.
  - intros ->. now apply chunks_of_nil.
Qed.

Lemma split_text_into_chunks_lossless_witness :
  0 < 3 /\
  exists chunks,
    _split_text_into_chunks "abcdefg" 3 = Returns chunks
    /\ join chunks = "abcdefg"
    /\ (forall i c, chunks !! i = Some c -> S i < length chunks ->
          String.length c = 3)
    /\ Forall (fun c => c <> "") chunks
    /\ ("abcdefg" = "" -> chunks = []).
Proof.
  split; [lia | apply (split_text_into_chunks_lossless "abcdefg" 3); lia].
Defined.

(** The page ends with the transcript heading and the toggle; the toggle
    holds the transcript, or a fixed notice when there is none. *)
Lemma page_content_blocks_shape (summary : string) (action_items : list string)
    (transcript : string) :
  exists blocks,
    page_content_blocks summary action_items transcript
    = Returns (blocks ++
        [heading 2 [mkRichText "Transcript" None] "default";
         toggle [mkRichText "Full Transcript" None] "default"
           (map (fun chunk => paragraph [mkRichText chunk None] None)
                (chunks_of (or_else transcript "Transcript not available.")
                           default_chunk_size))]).
Proof.
  unfold page_content_blocks.
  change (_heading 2 "Summary")
    with (Returns (heading 2 [mkRichText "Summary" None] "default")).
  change (_heading 2 "Action Items")
    with (Returns (heading 2 [mkRichText "Action Items" None] "default")).
  change (_heading 2 "Transcript")
    with (Returns (heading 2 [mkRichText "Transcript" None] "default")).
  rewrite toggle_children. unfold rbind.
  assert (is_empty (or_else transcript "Transcript not available.") = false) as ->.
  { unfold or_else. destruct transcript; reflexivity. }
  eexists (_ :: _ :: _ :: _). simpl app. reflexivity.
Qed.

(** C9. The text handed to the toggle is split into consecutive chunks of
    at most 2000 characters, each chunk is its own paragraph block among
    the children of the toggle, a paragraph with an empty body carries
    the single character [" "], and so does the body of the toggle when
    the text is empty; on the page, the toggle is the last block and
    holds the transcript that [create_notion_page] hands to it. *)
Theorem transcript_rendering (heading_text content_text : string)
    (link : option string) (summary : string) (action_items : list string) :
  let chunks := chunks_of content_text default_chunk_size in
  default_chunk_size = 2000
  /\ join chunks = content_text
  /\ Forall (fun c => String.length c <= default_chunk_size) chunks
  /\ _toggle_block_with_text_content heading_text content_text =
       Returns (toggle [mkRichText heading_text None] "default"
                  (map (fun chunk => paragraph [mkRichText chunk None] None)
                       (if is_empty content_text then [" "] else chunks)))
  /\ _paragraph "" link = paragraph [mkRichText " " None] None
  /\ exists blocks,
       page_content_blocks summary action_items content_text
       = Returns (blocks ++
           [heading 2 [mkRichText "Transcript" None] "default";
            toggle [mkRichText "Full Transcript" None] "default"
              (map (fun chunk => paragraph [mkRichText chunk None] None)
                   (chunks_of (or_else content_text "Transcript not available.")
                              default_chunk_size))]).
Proof.
  intros chunks. subst chunks.
  split; [reflexivity|].
  split; [|split; [|split; [|split]]].
  - apply chunks_of_join, default_chunk_size_pos.
  - eapply Forall_impl; [apply chunks_of_bounded, default_chunk_size_pos|].
    intros c [_ Hc]. exact Hc.
  - apply toggle_children.
  - reflexivity.
  - apply page_content_blocks_shape.
Qed.

End NotionHandlerFacts.

(** ** The analysis service *)

Module SummarizerFacts.
Import PyStr PyStrFacts StripFacts SummarizerService Scenario.

(** The two passes of the parser are one pass of [bullet_entry] over the
    lines. *)
Lemma two_passes (lines : list string) :
  map (fun item => strip (lstrip_chars "- " item))
      (List.filter (fun item => negb (is_empty (strip (lstrip_chars "- " item))))
         (map strip (List.filter (fun item => startswith "-" (strip item)) lines)))
  = omap bullet_entry lines.
Proof.
  induction lines as [|l rest IH]; [reflexivity|].
  simpl. unfold bullet_entry at 1.
  destruct (startswith "-" (strip l)); simpl; [|exact IH].
  destruct (is_empty (strip (lstrip_chars "- " (strip l)))); simpl;
    now rewrite IH.
Qed.

Lemma parse_action_items_lines (raw : string) :
  parse_action_items raw =
  if is_empty raw || existsb (String.eqb (lower raw)) no_items_answers
  then [] else omap bullet_entry (split nl raw).
Proof.
  unfold parse_action_items. rewrite two_passes.
  destruct (is_empty raw);
    destruct (existsb (String.eqb (lower raw)) no_items_answers);
    cbv [negb andb orb]; try reflexivity;
    destruct (contains "no action items identified" (lower raw));
    destruct (contains "no action items found" (lower raw)); reflexivity.
Qed.

Lemma bullet_entry_nonempty (l entry : string) :
  bullet_entry l = Some entry -> entry <> "".
Proof.
  unfold bullet_entry. destruct (startswith "-" (strip l)); [|discriminate].
  destruct (is_empty _) eqn:He; [discriminate|].
  intros [= <-] Heq. rewrite Heq in He. discriminate.
Qed.

Lemma parse_action_items_entries (raw : string) :
  Forall (fun entry => exists l, l ∈ split nl raw /\ bullet_entry l = Some entry)
         (parse_action_items raw).
Proof.
  rewrite parse_action_items_lines.
  destruct (_ || _); [constructor|].
  apply Forall_forall. intros entry Hin.
  apply list_elem_of_omap in Hin as (l & Hl & He). eauto.
Qed.

(** The entries of the lines, written as a selection followed by the
    stripping of the prefix. *)
Lemma bullet_entries_selected (lines : list string) :
  omap bullet_entry lines
  = map (fun l => strip (lstrip_chars "- " (strip l)))
        (List.filter (fun l => startswith "-" (strip l)
                               && negb (is_empty (strip (lstrip_chars "- " (strip l)))))
                     lines).
Proof.
  induction lines as [|l rest IH]; [reflexivity|].
  change (omap bullet_entry (l :: rest)) with
    (match bullet_entry l with
     | Some entry => entry :: omap bullet_entry rest
     | None => omap bullet_entry rest
     end).
  cbn [List.filter]. unfold bullet_entry at 1.
  destruct (startswith "-" (strip l)); cbn [andb]; [|exact IH].
  destruct (is_empty (strip (lstrip_chars "- " (strip l)))); cbn [negb map];
    now rewrite IH.
Qed.

(** C3, as the code has it. A line counts as an action item exactly when,
    stripped, it starts with ["-"]; the bullet prefix is stripped and
    blank entries are dropped, so no returned item is empty: unless the
    answer is empty or is one of the two no-items answers, the items are
    exactly the stripped entries of the lines that start with ["-"] and
    have an entry that is not blank, one per such line, in the order of
    the lines. The answer of the claim, in which all three lines carry a
    bullet, gives three items; with an unbulleted middle line it gives
    the two items ["Follow up with Bob"] and ["Send report"]; the answer
    ["No action items identified."] gives the empty list, and the
    analysis returns normally on it. *)
Theorem action_items_parsing :
  parse_action_items raw_claimed
    = ["Follow up with Bob"; "no bullet here"; "Send report"]
  /\ parse_action_items raw_plain_line = ["Follow up with Bob"; "Send report"]
  /\ parse_action_items "No action items identified." = []
  /\ value_of (analyze_transcript gemini_no_items "Bob will send the report." "a.wav" desk)
     = Returns (mkAnalysis "Bob reports." [] (Some "a.wav"))
  /\ (forall raw,
        parse_action_items raw
        = if is_empty raw || existsb (String.eqb (lower raw)) no_items_answers
          then []
          else map (fun l => strip (lstrip_chars "- " (strip l)))
                   (List.filter
                      (fun l => startswith "-" (strip l)
                                && negb (is_empty (strip (lstrip_chars "- " (strip l)))))
                      (split nl raw)))
  /\ forall raw,
       Forall (fun entry =>
                 entry <> ""
                 /\ exists l, l ∈ split nl raw
                      /\ startswith "-" (strip l) = true
                      /\ entry = strip (lstrip_chars "- " (strip l)))
              (parse_action_items raw).
Proof.
  split; [vm_compute; reflexivity|].
  split; [vm_compute; reflexivity|].
  split; [vm_compute; reflexivity|].
  split; [vm_compute; reflexivity|].
  split.
  { intros raw. rewrite parse_action_items_lines.
    destruct (is_empty raw || existsb (String.eqb (lower raw)) no_items_answers);
      [reflexivity | apply bullet_entries_selected]. }
  intros raw.
  eapply Forall_impl; [apply parse_action_items_entries|].
  intros entry (l & Hl & He). split.
  - eapply bullet_entry_nonempty, He.
  - exists l. unfold bullet_entry in He.
    destruct (startswith "-" (strip l)); [|discriminate].
    destruct (is_empty _); [discriminate|].
    injection He as <-. auto.
Qed.

(** The claim C3 fails on its own example: the middle line starts with a
    bullet marker and is kept. *)
Lemma action_items_parsing_counterexample :
  parse_action_items raw_claimed <> ["Follow up with Bob"; "Send report"].
Proof. vm_compute. discriminate. Qed.

Section WithModel.
Context {W : Type}.

(** C4. For every empty or whitespace-only transcript [t] and every
    file name [f], [analyze_transcript] returns exactly the analysis
    with empty summary, no action item and [f] as original file name;
    it makes no call (the trace is empty, the world is unchanged) and
    does not raise. *)
Theorem analyze_blank_transcript (self : Service W) (t f : string) (w : W) :
  all_chars isspace t = true ->
  analyze_transcript self t f w
  = (Returns (mkAnalysis "" [] (Some f)), w, []).
Proof.
  intros Ht. unfold analyze_transcript.
  rewrite blank_test, Ht. reflexivity.
Qed.
End WithModel.

Lemma analyze_blank_transcript_witness :
  all_chars isspace blank = true
  /\ analyze_transcript gemini blank "f.wav" desk
     = (Returns (mkAnalysis "" [] (Some "f.wav")), desk, []).
Proof.
  split; [reflexivity | apply (analyze_blank_transcript gemini blank "f.wav" desk)].
  reflexivity.
Defined.

End SummarizerFacts.

(** ** The pipeline, claim by claim *)

Module PipelineFacts.
Import PyStr PyStrFacts StripFacts DateFacts InputManager Orchestrator
       OrchestratorFacts Scenario.

Section WithWorld.
Context {W : Type} `{FileSystem W}.

Implicit Types (self : Orchestrator W) (p : Path) (w : W).

(** The concrete handler never raises: what the remote call raises is
    turned into the returned text. *)
Lemma create_notion_page_returns (h : NotionHandler.Handler W)
    (title date_iso summary : string) (items : list string)
    (transcript source : string) w :
  exists s w' calls,
    NotionHandler.create_notion_page h title date_iso summary items transcript source w
    = (Returns s, w', calls).
Proof.
  unfold NotionHandler.create_notion_page.
  destruct (NotionHandlerFacts.page_content_blocks_shape summary items transcript)
    as (blocks & ->).
  unfold bind, call.
  destruct (NotionHandler.pages_create h _ _ _ w) as [[[u|]|e] w'];
    try (unfold ret; simpl; eauto).
  destruct (class_eqb _ _); simpl; eauto.
Qed.

(** C1. In every run of [process_folder] that reaches the scan (some
    capability is bound) and whose scan returns, the results hold
    exactly one outcome per scanned file, in order and under the file's
    own path, whatever each stage does; the outcome at the position of
    a file is the outcome of that file alone, computed in the world its
    predecessors left, so that no failure halts, skips or alters a
    later file. *)
Theorem one_outcome_per_work_item self (folder : string)
    (dm : option (gmap string string)) w (files : list Path) :
  no_services self = false ->
  get_audio_files w folder = Returns files ->
  exists results w' calls,
    process_folder self folder dm w = (Returns results, w', calls)
    /\ one_outcome_per_file self dm files w = (results, w', calls)
    /\ length results = length files
    /\ map file results = map path_str files
    /\ forall before p after,
         files = before ++ p :: after ->
         results !! length before
         = Some (value_of (process_item self dm p
                   (world_of (one_outcome_per_file self dm before w)))).
Proof.
  intros Hsome Hscan.
  pose proof (one_outcome_per_file_length self dm files w) as Hlen.
  pose proof (one_outcome_per_file_files self dm files w) as Hfiles.
  pose proof (fun before p after =>
                one_outcome_per_file_lookup self dm before p after w) as Hat.
  destruct (one_outcome_per_file self dm files w) as [[results w'] calls] eqn:Hrun.
  exists results, w', calls.
  split; [|split; [reflexivity|split; [exact Hlen|split; [exact Hfiles|]]]].
  - unfold process_folder. rewrite Hsome.
    unfold bind, gets. rewrite Hscan.
    destruct files as [|p rest].
    + simpl in Hrun. unfold ret in *. injection Hrun as <- <- <-. reflexivity.
    + rewrite process_files_acc, Hrun. unfold ret. simpl.
      now rewrite app_nil_r.
  - intros before p after ->. specialize (Hat before p after).
    rewrite Hrun in Hat. exact Hat.
Qed.

(** Without a transcription capability no item reaches a capability. *)
Lemma process_item_without_transcription (summ : option (Summarizer W))
    (nh : option (Publisher W)) (dm : option (gmap string string)) p w :
  exists o,
    process_item (mkOrchestrator None summ nh) dm p w = (o, w, [])
    /\ status o = "error".
Proof.
  unfold process_item, bind, gets.
  destruct (resolve_date dm p w) as [skipped|d] eqn:Hd.
  - exists skipped. split; [reflexivity|].
    unfold resolve_date in Hd.
    destruct (mapped_date dm (name p)); [discriminate|].
    destruct (get_file_metadata w p) as [md|e]; [discriminate|].
    destruct (class_eqb _ _); injection Hd as <-; reflexivity.
  - destruct (is_empty d); eexists; split; reflexivity.
Qed.

Lemma one_outcome_per_file_without_transcription (summ : option (Summarizer W))
    (nh : option (Publisher W)) (dm : option (gmap string string))
    (files : list Path) w :
  exists results,
    one_outcome_per_file (mkOrchestrator None summ nh) dm files w = (results, w, [])
    /\ Forall (fun o => status o = "error") results.
Proof.
  induction files as [|p rest (results & Hrest & Hall)].
  - exists []. split; [reflexivity | constructor].
  - destruct (process_item_without_transcription summ nh dm p w) as (o & Ho & Herr).
    exists (o :: results). split; [|now constructor].
    cbn [one_outcome_per_file]. unfold bind. rewrite Ho, Hrest. reflexivity.
Qed.

(** C6. Without a transcription capability the item ends at once as an
    error with the message below; the world is untouched and no call
    is made, neither analysis nor publishing. Hence a whole run over a
    folder makes no call at all and every outcome it records is an
    error. *)
Theorem no_transcription_service (summ : option (Summarizer W))
    (nh : option (Publisher W)) p (d : string) w
    (folder : string) (dm : option (gmap string string)) :
  process_single_audio_file (mkOrchestrator None summ nh) p d w
  = (mkOutcome (path_str p) "error"
       "Transcription service not available or failed to initialize." "",
     w, [])
  /\ world_of (process_folder (mkOrchestrator None summ nh) folder dm w) = w
  /\ calls_of (process_folder (mkOrchestrator None summ nh) folder dm w) = []
  /\ forall results,
       value_of (process_folder (mkOrchestrator None summ nh) folder dm w)
       = Returns results ->
       Forall (fun o => status o = "error") results.
Proof.
  split; [reflexivity|].
  unfold process_folder.
  destruct (no_services (mkOrchestrator None summ nh)).
  { repeat split. intros results [= <-]. repeat constructor. }
  unfold bind, gets.
  destruct (get_audio_files w folder) as [[|q rest]|e].
  - repeat split. intros results [= <-]. constructor.
  - rewrite process_files_acc.
    destruct (one_outcome_per_file_without_transcription summ nh dm (q :: rest) w)
      as (results & -> & Hall).
    repeat split. intros results' [= <-]. exact Hall.
  - repeat split. intros results. discriminate.
Qed.

(** C5, as the code has it. Once the item reaches publishing: a
    returned text containing ["https://"] makes the outcome a success
    with that text as URL; any other returned text makes it an error
    whose message is ["Failed to create Notion page: "] followed by
    that text; an exception raised by the publishing call is caught
    and its text recorded in the message of an error outcome. The
    handler of the repository itself returns in every case. *)
Theorem publish_reference_check self ts nh p (d : string) w
    (t : string) w1 t1 sd w2 t2 r w3 t3 :
  transcription_service self = Some ts ->
  notion_handler self = Some nh ->
  transcribe ts p w = (Returns t, w1, t1) ->
  all_chars isspace t = false ->
  summarize self t p w1 = (sd, w2, t2) ->
  create_notion_page nh (stem p) d (summary sd) (action_items sd) t (name p) w2
    = (r, w3, t3) ->
  value_of (process_single_audio_file self p d w)
    = match r with
      | Returns s =>
          if contains "https://" s then
            mkOutcome (path_str p) "success"
              ("Successfully processed and uploaded to Notion: " +:+ s) s
          else
            mkOutcome (path_str p) "error"
              ("Failed to create Notion page: " +:+ s) ""
      | Raises e =>
          mkOutcome (path_str p) "error"
            ("Failed to create Notion page due to unexpected error: " +:+ exn_str e) ""
      end
  /\ world_of (process_single_audio_file self p d w) = w3
  /\ forall (h : NotionHandler.Handler W) title date summary items transcript source w0,
       exists s, value_of (NotionHandler.create_notion_page h title date summary
                             items transcript source w0) = Returns s.
Proof.
  intros Hts Hnh Ht Hblank Hsum Hpub.
  rewrite (process_single_transcribed self ts p d w t w1 t1 Hts Ht Hblank).
  unfold bind, publish. rewrite Hsum, Hnh.
  unfold bind, invoke. rewrite Hpub. unfold ret, value_of, world_of. simpl.
  split; [|split; [reflexivity|]].
  - destruct r as [s|e]; simpl; [|reflexivity].
    destruct (contains "https://" s); reflexivity.
  - intros h title date summary items transcript source w0.
    destruct (create_notion_page_returns h title date summary items transcript source w0)
      as (s & w' & calls & ->).
    now exists s.
Qed.

(** C7. When transcription gave a text, an analysis problem alone does
    not fail the item. Without an analysis capability, publishing is
    called with the blank summary and no action item; when the analysis
    raises, publishing is called with the summary
    ["[Analysis failed: " e "]"] and no action item. In both cases the
    outcome is the one read off the publishing answer, a success when
    that answer contains ["https://"]. *)
Theorem analysis_degradation self ts nh p (d : string) w (t : string) w1 t1 :
  transcription_service self = Some ts ->
  notion_handler self = Some nh ->
  transcribe ts p w = (Returns t, w1, t1) ->
  all_chars isspace t = false ->
  let pending := mkOutcome (path_str p) "pending" "" "" in
  (summarizer_service self = None ->
   forall r w3 t3,
     create_notion_page nh (stem p) d "" [] t (name p) w1 = (r, w3, t3) ->
     process_single_audio_file self p d w
     = (publish_outcome pending r, w3,
        CallTranscribe p :: t1
        ++ CallPublish (stem p) d "" [] t (name p) :: t3))
  /\ (forall svc e w2 t2,
        summarizer_service self = Some svc ->
        analyze_transcript svc t (name p) w1 = (Raises e, w2, t2) ->
        forall r w3 t3,
          create_notion_page nh (stem p) d
            ("[Analysis failed: " +:+ exn_str e +:+ "]") [] t (name p) w2
            = (r, w3, t3) ->
          process_single_audio_file self p d w
          = (publish_outcome pending r, w3,
             CallTranscribe p :: t1
             ++ CallAnalyze t (name p) :: t2
             ++ CallPublish (stem p) d
                  ("[Analysis failed: " +:+ exn_str e +:+ "]") [] t (name p) :: t3))
  /\ (forall u,
        contains "https://" u = true ->
        publish_outcome pending (Returns u)
        = mkOutcome (path_str p) "success"
            ("Successfully processed and uploaded to Notion: " +:+ u) u).
Proof.
  intros Hts Hnh Ht Hblank pending.
  pose proof (process_single_transcribed self ts p d w t w1 t1 Hts Ht Hblank) as Hrun.
  split; [|split].
  - intros Hnone r w3 t3 Hpub. rewrite Hrun.
    unfold bind at 1. unfold summarize. rewrite Hnone. unfold ret at 1.
    unfold publish. rewrite Hnh. simpl summary. simpl action_items.
    unfold bind, invoke. rewrite Hpub. unfold ret. simpl.
    now rewrite app_nil_r.
  - intros svc e w2 t2 Hsvc Hthrow r w3 t3 Hpub. rewrite Hrun.
    unfold bind at 1. unfold summarize. rewrite Hsvc.
    unfold bind at 1. unfold invoke at 1. rewrite Hthrow. unfold ret at 1.
    unfold publish. rewrite Hnh. simpl summary. simpl action_items.
    unfold bind, invoke. rewrite Hpub. unfold ret. simpl.
    rewrite !app_nil_r. reflexivity.
  - intros u Hu. simpl. now rewrite Hu.
Qed.

Lemma no_entry_mapped_date (dm : option (gmap string string)) (n : string) :
  (forall m, dm = Some m -> m !! n = None) -> mapped_date dm n = None.
Proof.
  intros Hno. destruct dm as [m|]; [|reflexivity].
  rewrite mapped_date_lookup. now apply Hno.
Qed.

(** C8, as the code has it. For every file of the loop: an entry of the
    date mapping for the file's name that is not empty is the date used,
    whatever the file system says; an empty entry is not replaced by the
    modification date: the item is recorded as an error and nothing is
    called for it; without an entry, the date is the [YYYY-MM-DD] part
    of the modification time; and when the metadata cannot be read, the
    item is recorded as an error and nothing is called for it. *)
Theorem date_resolution_precedence self p w :
  (forall (m : gmap string string) (d : string),
     m !! name p = Some d ->
     process_item self (Some m) p w
     = if is_empty d
       then (mkOutcome (path_str p) "error"
               "Could not determine date for Notion page." "", w, [])
       else process_single_audio_file self p d w)
  /\ (forall dm s,
        (forall m, dm = Some m -> m !! name p = None) ->
        is_file w p = Returns true ->
        fs_stat w p = Returns s ->
        process_item self dm p w
        = process_single_audio_file self p (date_part (st_mtime s)) w)
  /\ (forall dm e,
        (forall m, dm = Some m -> m !! name p = None) ->
        get_file_metadata w p = Raises e ->
        exists msg,
          process_item self dm p w
          = (mkOutcome (path_str p) "error" msg "", w, [])).
Proof.
  split; [|split].
  - intros m d Hm. unfold process_item, bind, gets, resolve_date.
    rewrite mapped_date_lookup, Hm.
    destruct (is_empty d); [reflexivity|].
    destruct (process_single_audio_file self p d w) as [[o w1] t1]. reflexivity.
  - intros dm s Hno Hfile Hstat. unfold process_item, bind, gets, resolve_date.
    rewrite (no_entry_mapped_date dm (name p) Hno).
    unfold get_file_metadata. rewrite Hfile. cbn [rbind negb]. rewrite Hstat.
    cbn [rbind modification_date_iso].
    rewrite isoformat_date, date_part_nonempty.
    destruct (process_single_audio_file self p _ w) as [[o w1] t1]. reflexivity.
  - intros dm e Hno Hmeta. unfold process_item, bind, gets, resolve_date.
    rewrite (no_entry_mapped_date dm (name p) Hno), Hmeta.
    destruct (class_eqb (exn_class e) FileNotFoundError); eexists; reflexivity.
Qed.

End WithWorld.

(** *** The theorems at work on the small world *)

Lemma one_outcome_per_work_item_witness :
  no_services studio = false
  /\ get_audio_files desk "audio" = Returns [a_wav; c_mp3]
  /\ exists results w' calls,
       process_folder studio "audio" None desk = (Returns results, w', calls)
       /\ one_outcome_per_file studio None [a_wav; c_mp3] desk = (results, w', calls)
       /\ length results = length [a_wav; c_mp3]
       /\ map file results = map path_str [a_wav; c_mp3]
       /\ forall before p after,
            [a_wav; c_mp3] = before ++ p :: after ->
            results !! length before
            = Some (value_of (process_item studio None p
                      (world_of (one_outcome_per_file studio None before desk)))).
Proof.
  split; [reflexivity|]. split; [vm_compute; reflexivity|].
  apply (one_outcome_per_work_item studio "audio" None desk [a_wav; c_mp3]);
    [reflexivity | vm_compute; reflexivity].
Defined.

Lemma no_transcription_service_witness :
  process_single_audio_file studio_deaf a_wav "2025-06-01" desk
  = (mkOutcome "audio/a.wav" "error"
       "Transcription service not available or failed to initialize." "",
     desk, [])
  /\ world_of (process_folder studio_deaf "audio" None desk) = desk
  /\ calls_of (process_folder studio_deaf "audio" None desk) = []
  /\ Forall (fun o => status o = "error")
       [mkOutcome "audio/a.wav" "error"
          "Transcription service not available or failed to initialize." "";
        mkOutcome "audio/c.mp3" "error"
          "Transcription service not available or failed to initialize." ""].
Proof.
  destruct (no_transcription_service (Some (summarizer_of gemini))
              (Some (publisher_of notion)) a_wav "2025-06-01" desk "audio" None)
    as (Hitem & Hworld & Hcalls & Hall).
  split; [exact Hitem|]. split; [exact Hworld|]. split; [exact Hcalls|].
  apply Hall. vm_compute. reflexivity.
Defined.

Lemma publish_reference_check_witness :
  value_of (process_single_audio_file studio a_wav "2025-06-01" desk) = success_a
  /\ world_of (process_single_audio_file studio a_wav "2025-06-01" desk)
     = mkDesk (present desk) 1
  /\ value_of (process_single_audio_file studio_no_url a_wav "2025-06-01" desk)
     = mkOutcome "audio/a.wav" "error"
         "Failed to create Notion page: URL not found in response" ""
  /\ value_of (process_single_audio_file studio_raising a_wav "2025-06-01" desk)
     = mkOutcome "audio/a.wav" "error"
         "Failed to create Notion page due to unexpected error: boom" "".
Proof.
  edestruct (publish_reference_check studio speech (publisher_of notion)
               a_wav "2025-06-01" desk) as (Hvalue & Hworld & _);
    [reflexivity | reflexivity | vm_compute; reflexivity | reflexivity
    | vm_compute; reflexivity | vm_compute; reflexivity | ].
  edestruct (publish_reference_check studio_no_url speech (publisher_of notion_no_url)
               a_wav "2025-06-01" desk) as (Hno_url & _ & _);
    [reflexivity | reflexivity | vm_compute; reflexivity | reflexivity
    | vm_compute; reflexivity | vm_compute; reflexivity | ].
  edestruct (publish_reference_check studio_raising speech raising_publisher
               a_wav "2025-06-01" desk) as (Hraised & _ & _);
    [reflexivity | reflexivity | vm_compute; reflexivity | reflexivity
    | vm_compute; reflexivity | vm_compute; reflexivity | ].
  split; [exact Hvalue|]. split; [exact Hworld|].
  split; [exact Hno_url | exact Hraised].
Defined.

(** The claim C5 fails where the publishing call returns a text without
    ["https://"]: the message of the outcome is not that text. *)
Lemma publish_reference_check_counterexample :
  value_of (NotionHandler.create_notion_page notion_no_url "a" "2025-06-01" "" []
              "Bob will send the report." "a.wav" desk)
    = Returns "URL not found in response"
  /\ contains "https://" "URL not found in response" = false
  /\ status (value_of (process_single_audio_file studio_no_url a_wav "2025-06-01" desk))
     = "error"
  /\ message (value_of (process_single_audio_file studio_no_url a_wav "2025-06-01" desk))
     <> "URL not found in response".
Proof.
  split; [vm_compute; reflexivity|]. split; [vm_compute; reflexivity|].
  split; [vm_compute; reflexivity|]. vm_compute. discriminate.
Qed.

Lemma analysis_degradation_witness :
  value_of (process_single_audio_file studio_without_analysis a_wav "2025-06-01" desk)
    = success_a
  /\ value_of (process_single_audio_file studio_analysis_down a_wav "2025-06-01" desk)
     = success_a
  /\ In (CallPublish "a" "2025-06-01"
           "[Analysis failed: cannot access local variable 'response' where it is not associated with a value]"
           [] "Bob will send the report." "a.wav")
        (calls_of (process_single_audio_file studio_analysis_down a_wav
                     "2025-06-01" desk)).
Proof.
  destruct (analysis_degradation studio_without_analysis speech (publisher_of notion)
              a_wav "2025-06-01" desk "Bob will send the report." desk []
              eq_refl eq_refl eq_refl eq_refl) as (Hnone & _ & _).
  destruct (analysis_degradation studio_analysis_down speech (publisher_of notion)
              a_wav "2025-06-01" desk "Bob will send the report." desk []
              eq_refl eq_refl eq_refl eq_refl) as (_ & Hthrew & _).
  split; [|split].
  - erewrite Hnone; [|reflexivity|vm_compute; reflexivity]. reflexivity.
  - erewrite (Hthrew (summarizer_of gemini_down));
      [|reflexivity|vm_compute; reflexivity|vm_compute; reflexivity]. reflexivity.
  - erewrite (Hthrew (summarizer_of gemini_down));
      [|reflexivity|vm_compute; reflexivity|vm_compute; reflexivity].
    vm_compute. right. right. right. left. reflexivity.
Defined.

Lemma date_resolution_precedence_witness :
  january !! name a_wav = Some "2025-01-01"
  /\ fs_stat desk a_wav = Returns (mkStat None june_first 1024)
  /\ date_part june_first = "2025-06-01"
  /\ process_item studio (Some january) a_wav desk
     = process_single_audio_file studio a_wav "2025-01-01" desk
  /\ process_item studio None a_wav desk
     = process_single_audio_file studio a_wav "2025-06-01" desk
  /\ exists msg,
       process_item studio None gone_wav desk
       = (mkOutcome "audio/gone.wav" "error" msg "", desk, []).
Proof.
  destruct (date_resolution_precedence studio a_wav desk) as (Hmapped & Hmtime & _).
  destruct (date_resolution_precedence studio gone_wav desk) as (_ & _ & Hgone).
  assert (january !! name a_wav = Some "2025-01-01") as Hentry
    by (vm_compute; reflexivity).
  split; [exact Hentry|]. split; [reflexivity|]. split; [vm_compute; reflexivity|].
  split; [exact (Hmapped january "2025-01-01" Hentry)|].
  split.
  - apply (Hmtime None (mkStat None june_first 1024));
      [discriminate | vm_compute; reflexivity | reflexivity].
  - eapply (Hgone None); [discriminate | vm_compute; reflexivity].
Defined.

(** The claim C8 fails on an empty entry of the mapping: the entry is
    there and the modification date can be read, yet the item is an error
    and is processed with neither date. *)
Lemma date_resolution_precedence_counterexample :
  undated !! name a_wav = Some ""
  /\ (exists md, get_file_metadata desk a_wav = Returns md
                 /\ hd "" (split "T" (modification_date_iso md)) = "2025-06-01")
  /\ process_item studio (Some undated) a_wav desk
     = (mkOutcome "audio/a.wav" "error" "Could not determine date for Notion page." "",
        desk, [])
  /\ process_item studio (Some undated) a_wav desk
     <> process_single_audio_file studio a_wav "" desk
  /\ process_item studio (Some undated) a_wav desk
     <> process_single_audio_file studio a_wav "2025-06-01" desk.
Proof.
  split; [vm_compute; reflexivity|].
  split; [eexists; split; vm_compute; reflexivity|].
  split; [vm_compute; reflexivity|].
  split; vm_compute; discriminate.
Qed.

End PipelineFacts.

(** ** The recordings pipeline and its transcript artifacts *)

Module TranscriberFacts.
Import PyStr InputManager Orchestrator Transcriber Scenario.

Section WithWorld.
Context {W : Type} `{FileSystem W}.

Variable BASE_DIR : string.




End WithWorld.



End TranscriberFacts.

(* ================================================================= *)
(** * Further properties of the pipeline *)

(** ** Outcomes of the orchestrator *)

Module OutcomeFacts.
Import PyStr PyStrFacts StripFacts InputManager Orchestrator OrchestratorFacts
       Outcomes Scenario.

Lemma settled_error (f msg : string) :
  is_empty msg = false -> settled (mkOutcome f "error" msg "") = true.
Proof. intros Hmsg. unfold settled. simpl. now rewrite Hmsg. Qed.

Lemma settled_publish_outcome (f : string) (r : Result string) :
  settled (publish_outcome (mkOutcome f "pending" "" "") r) = true.
Proof.
  destruct r as [s|e]; simpl.
  - destruct (contains "https://" s) eqn:Hs; unfold settled; simpl.
    + now rewrite Hs, String.eqb_refl.
    + reflexivity.
  - reflexivity.
Qed.

Section WithWorld.
Context {W : Type} `{FileSystem W}.

Implicit Types (self : Orchestrator W) (p : Path) (w : W).

Lemma process_single_settled self p (d : string) w :
  settled (value_of (process_single_audio_file self p d w)) = true.
Proof.
  unfold process_single_audio_file.
  destruct (transcription_service self) as [ts|]; [|reflexivity].
  unfold bind at 1. unfold invoke at 1.
  destruct (transcribe ts p w) as [[r w1] t1]. simpl.
  destruct r as [t|e]; [|reflexivity].
  destruct (is_empty t || is_empty (strip t)); [reflexivity|].
  unfold bind. destruct (summarize self t p w1) as [[sd w2] t2].
  unfold publish. destruct (notion_handler self) as [nh|]; [|reflexivity].
  unfold bind, invoke, ret.
  destruct (create_notion_page nh _ _ _ _ _ _ w2) as [[r w3] t3].
  apply settled_publish_outcome.
Qed.

Lemma process_item_settled self (dm : option (gmap string string)) p w :
  settled (value_of (process_item self dm p w)) = true.
Proof.
  unfold process_item, bind, gets.
  destruct (resolve_date dm p w) as [skipped|d] eqn:Hd.
  - unfold resolve_date in Hd.
    destruct (mapped_date dm (name p)); [discriminate|].
    destruct (get_file_metadata w p) as [md|e]; [discriminate|].
    destruct (class_eqb _ _); injection Hd as <-; reflexivity.
  - destruct (is_empty d); [reflexivity|].
    pose proof (process_single_settled self p d w) as Hp.
    destruct (process_single_audio_file self p d w) as [[o w1] t1]. exact Hp.
Qed.

Lemma one_outcome_per_file_settled self (dm : option (gmap string string))
    (files : list Path) : forall w,
  Forall (fun o => settled o = true)
         (value_of (one_outcome_per_file self dm files w)).
Proof.
  induction files as [|p rest IH]; intros w; [constructor|].
  cbn [one_outcome_per_file]. unfold bind.
  pose proof (process_item_settled self dm p w) as Hp.
  destruct (process_item self dm p w) as [[o w1] t1].
  specialize (IH w1).
  destruct (one_outcome_per_file self dm rest w1) as [[rs w2] t2].
  constructor; assumption.
Qed.

(** X1. Every outcome the orchestrator records is settled: it is a
    success with a URL containing ["https://"] and the matching message,
    or an error with a message and no URL; no outcome is left pending.
    This holds for one file and for every record of a run over a folder,
    whatever the capabilities and the file system do. *)
Theorem every_outcome_settled self (folder : string)
    (dm : option (gmap string string)) p (d : string) w :
  settled (value_of (process_single_audio_file self p d w)) = true
  /\ match value_of (process_folder self folder dm w) with
     | Returns results => Forall (fun o => settled o = true) results
     | Raises _ => True
     end.
Proof.
  split; [apply process_single_settled|].
  unfold process_folder.
  destruct (no_services self); [repeat constructor|].
  unfold bind, gets.
  destruct (get_audio_files w folder) as [[|q rest]|e]; [constructor| |exact I].
  rewrite process_files_acc.
  pose proof (one_outcome_per_file_settled self dm (q :: rest) w) as Hall.
  destruct (one_outcome_per_file self dm (q :: rest) w) as [[rs w'] t].
  exact Hall.
Qed.

(** X2. When the transcription raises, or returns a text that is empty or
    whitespace only, the item ends there as an error naming the cause: the
    world is the one the transcription left and the trace holds the
    transcription call and nothing after it, so that neither analysis nor
    publishing is invoked. *)
Theorem transcription_failure_stops self ts p (d : string) w
    (r : Result string) w1 t1 :
  transcription_service self = Some ts ->
  transcribe ts p w = (r, w1, t1) ->
  match r with
  | Returns t => all_chars isspace t = true
  | Raises _ => True
  end ->
  process_single_audio_file self p d w
  = (mkOutcome (path_str p) "error"
       match r with
       | Returns _ => "Transcription resulted in empty text."
       | Raises e => "Transcription failed: " +:+ exn_str e
       end "",
     w1, CallTranscribe p :: t1).
Proof.
  intros Hts Ht Hblank. unfold process_single_audio_file. rewrite Hts.
  unfold bind at 1. unfold invoke at 1. rewrite Ht.
  destruct r as [t|e]; simpl.
  - rewrite blank_test, Hblank. unfold ret. now rewrite app_nil_r.
  - unfold ret. now rewrite app_nil_r.
Qed.

(** X3. The publishing capability is looked for only after the analysis
    ran. With a transcript but no publishing capability the item is an
    error, and the analysis capability, when bound, was still called: its
    call is in the trace and its result is dropped. *)
Theorem unpublished_analysis self ts p (d : string) w (t : string) w1 t1
    (sd : Analysis) w2 t2 :
  transcription_service self = Some ts ->
  notion_handler self = None ->
  transcribe ts p w = (Returns t, w1, t1) ->
  all_chars isspace t = false ->
  summarize self t p w1 = (sd, w2, t2) ->
  process_single_audio_file self p d w
  = (mkOutcome (path_str p) "error"
       "NotionHandler not available or failed to initialize. Cannot create page." "",
     w2, CallTranscribe p :: t1 ++ t2)
  /\ (forall svc, summarizer_service self = Some svc ->
        exists rest, t2 = CallAnalyze t (name p) :: rest).
Proof.
  intros Hts Hnh Ht Hblank Hsum. split.
  - rewrite (process_single_transcribed self ts p d w t w1 t1 Hts Ht Hblank).
    unfold bind. rewrite Hsum. unfold publish. rewrite Hnh.
    unfold ret. simpl. now rewrite app_nil_r.
  - intros svc Hsvc. unfold summarize in Hsum. rewrite Hsvc in Hsum.
    unfold bind, invoke in Hsum.
    destruct (analyze_transcript svc t (name p) w1) as [[ra wa] ta].
    destruct ra; unfold ret in Hsum; simpl in Hsum;
      injection Hsum as _ _ <-; eauto.
Qed.

End WithWorld.

Lemma transcription_failure_stops_witness :
  process_single_audio_file studio c_mp3 "2025-06-01" desk
  = (mkOutcome "audio/c.mp3" "error"
       "Transcription failed: Whisper transcription failed" "",
     desk, [CallTranscribe c_mp3])
  /\ process_single_audio_file Backstage.studio_mumbling a_wav "2025-06-01" desk
     = (mkOutcome "audio/a.wav" "error" "Transcription resulted in empty text." "",
        desk, [CallTranscribe a_wav]).
Proof.
  split.
  - apply (transcription_failure_stops studio speech c_mp3 "2025-06-01" desk
             (Raises (raise_ RuntimeError "Whisper transcription failed")) desk []);
      [reflexivity | reflexivity | exact I].
  - apply (transcription_failure_stops Backstage.studio_mumbling Backstage.mumbling
             a_wav "2025-06-01" desk (Returns "   ") desk []);
      [reflexivity | reflexivity | reflexivity].
Defined.

Lemma unpublished_analysis_witness :
  value_of (process_single_audio_file Backstage.studio_unpublished a_wav "2025-06-01" desk)
  = mkOutcome "audio/a.wav" "error"
      "NotionHandler not available or failed to initialize. Cannot create page." ""
  /\ In (CallAnalyze "Bob will send the report." "a.wav")
        (calls_of (process_single_audio_file Backstage.studio_unpublished a_wav
                     "2025-06-01" desk)).
Proof.
  edestruct (unpublished_analysis Backstage.studio_unpublished speech a_wav
               "2025-06-01" desk "Bob will send the report." desk [])
    as (Hrun & Hcalled);
    [reflexivity | reflexivity | reflexivity | reflexivity
    | vm_compute; reflexivity | ].
  rewrite Hrun. split; [reflexivity|].
  destruct (Hcalled (summarizer_of gemini) eq_refl) as (rest & Hrest).
  unfold calls_of. cbn [snd]. right. cbn [app].
  injection Hrest as <-. left. reflexivity.
Defined.

End OutcomeFacts.

(** ** File names and the scanner *)

Module InputFacts.
Import PyStr PyStrFacts StripFacts DateFacts InputManager Scenario.

Lemma rfind_absent (c : ascii) (s : string) :
  mem_char c s = false -> rfind c s = None.
Proof.
  induction s as [|d r IH]; simpl; [reflexivity|].
  intros [Hd Hr]%orb_false_elim. rewrite (IH Hr).
  rewrite Ascii.eqb_sym, Hd. reflexivity.
Qed.

Lemma rfind_last (c : ascii) (s e : string) :
  mem_char c e = false ->
  rfind c (s +:+ String c e) = Some (String.length s).
Proof.
  intros He. induction s as [|d r IH].
  - rewrite append_nil. simpl. now rewrite (rfind_absent c e He), Ascii.eqb_refl.
  - rewrite append_cons. simpl. now rewrite IH.
Qed.

Lemma length_append (a b : string) :
  String.length (a +:+ b) = String.length a + String.length b.
Proof.
  induction a as [|x r IH]; [reflexivity|].
  rewrite append_cons. simpl. now rewrite IH.
Qed.

Lemma substring_whole (s : string) : String.substring 0 (String.length s) s = s.
Proof. induction s as [|c r IH]; simpl; [reflexivity | now rewrite IH]. Qed.

Lemma substring_after (a b : string) (m : nat) :
  String.substring (String.length a) m (a +:+ b) = String.substring 0 m b.
Proof.
  induction a as [|c r IH]; [reflexivity|].
  rewrite append_cons. simpl. exact IH.
Qed.

Lemma substring_before (a b : string) :
  String.substring 0 (String.length a) (a +:+ b) = a.
Proof.
  induction a as [|c r IH]; [destruct b; reflexivity|].
  rewrite append_cons. simpl. now rewrite IH.
Qed.

(** A name [s.e] with a non-empty [s] and a non-empty, dot-free [e] has
    the stem [s] and the suffix [.e]. *)
Lemma stem_suffix_dotted (d s e : string) :
  s <> "" -> e <> "" -> mem_char "." e = false ->
  stem (mkPath d (s +:+ String "." e)) = s
  /\ suffix (mkPath d (s +:+ String "." e)) = String "." e.
Proof.
  intros Hs He Hdot. unfold stem, suffix, suffix_index. cbn [name].
  rewrite (rfind_last "." s e Hdot).
  assert (0 < String.length s) as Hls by (destruct s; [congruence | simpl; lia]).
  assert (0 < String.length e) as Hle by (destruct e; [congruence | simpl; lia]).
  rewrite length_append. cbn [String.length].
  destruct (Nat.ltb_spec 0 (String.length s)); [|lia].
  destruct (Nat.ltb_spec (String.length s)
              (String.length s + S (String.length e) - 1)); [|lia].
  cbn [andb]. unfold slice. split.
  - rewrite Nat.sub_0_r. apply substring_before.
  - replace (String.length s + S (String.length e) - String.length s)
      with (String.length (String "." e)) by (simpl; lia).
    rewrite substring_after. apply substring_whole.
Qed.

Lemma lower_char_dot (c : ascii) :
  Ascii.eqb "." (lower_char c) = Ascii.eqb "." c.
Proof.
  destruct c as [[] [] [] [] [] [] [] []]; vm_compute; reflexivity.
Qed.

Lemma mem_char_dot_lower (s : string) :
  mem_char "." (lower s) = mem_char "." s.
Proof.
  induction s as [|c r IH]; [reflexivity|].
  cbn [lower mem_char]. now rewrite lower_char_dot, IH.
Qed.

(** The seven extensions have no second dot, hence neither has a name
    part that lower-cases to one of them. *)
Lemma supported_extension (e : string) :
  in_formats (String "." (lower e)) supported_formats = true ->
  e <> "" /\ mem_char "." e = false.
Proof.
  unfold in_formats, supported_formats. cbn [existsb].
  intros Hin. rewrite <- (mem_char_dot_lower e).
  repeat (apply orb_prop in Hin as [Hin|Hin];
          [apply String.eqb_eq in Hin; injection Hin as Hin;
           split; [intros ->; discriminate | rewrite Hin; reflexivity]|]).
  discriminate.
Qed.

Lemma filter_sublist {A} (f : A -> bool) (l : list A) :
  sublist (List.filter f l) l.
Proof.
  induction l as [|x r IH]; simpl; [constructor|].
  destruct (f x); now constructor.
Qed.

Section WithFS.
Context {W : Type} `{FileSystem W}.

Lemma audio_among_clear (w : W) (formats : list string) (items : list Path) :
  Forall (fun item => fs_denied w (path_str item) = None) items ->
  audio_among w formats items
  = Returns (List.filter (fun item =>
               fs_is_file w item && in_formats (lower (suffix item)) formats) items).
Proof.
  induction 1 as [|item rest Hitem _ IH]; [reflexivity|].
  cbn [audio_among List.filter]. unfold is_file, examine. rewrite Hitem, IH.
  cbn [rbind]. now destruct (fs_is_file w item && _).
Qed.

Lemma audio_among_denied (w : W) (formats : list string)
    (before : list Path) (item : Path) (after : list Path) (e : Exn) :
  Forall (fun item => fs_denied w (path_str item) = None) before ->
  fs_denied w (path_str item) = Some e ->
  audio_among w formats (before ++ item :: after) = Raises e.
Proof.
  intros Hbefore Hitem.
  induction Hbefore as [|first rest Hfirst _ IH]; cbn [app audio_among];
    unfold is_file, examine.
  - now rewrite Hitem.
  - rewrite Hfirst. cbn [rbind]. now rewrite IH.
Qed.

(** X4. In a directory that can be listed and whose entries can all be
    examined, the scanner returns the entries that are regular files with
    a supported extension, and no other, each once and in the order of
    the listing. The extension is compared without regard to letter case:
    a regular file named [s.e], [s] not empty, is returned as soon as
    [.e] in lower case is one of the seven formats. A returned name
    always has a suffix: a dot that is neither its first nor its last
    character. When an entry of the listing cannot be examined, the scan
    returns nothing: it raises the error of the first such entry. *)
Theorem scanner_keeps_audio_files (w : W) (folder : string) (items : list Path) :
  is_dir w folder = Returns true ->
  fs_iterdir w folder = Returns items ->
  (Forall (fun item => fs_denied w (path_str item) = None) items ->
   exists files,
     get_audio_files w folder = Returns files
     /\ files = List.filter (fun item =>
                  fs_is_file w item
                  && in_formats (lower (suffix item)) supported_formats) items
     /\ sublist files items
     /\ (forall p, In p files <->
           In p items /\ fs_is_file w p = true
           /\ in_formats (lower (suffix p)) supported_formats = true)
     /\ (forall d s e,
           s <> "" ->
           in_formats (String "." (lower e)) supported_formats = true ->
           In (mkPath d (s +:+ String "." e)) items ->
           fs_is_file w (mkPath d (s +:+ String "." e)) = true ->
           In (mkPath d (s +:+ String "." e)) files)
     /\ (forall p, In p files ->
           exists i, rfind "." (name p) = Some i
                     /\ 0 < i < String.length (name p) - 1))
  /\ (forall before item after e,
        items = before ++ item :: after ->
        Forall (fun item => fs_denied w (path_str item) = None) before ->
        fs_denied w (path_str item) = Some e ->
        get_audio_files w folder = Raises e).
Proof.
  intros Hdir Hlist.
  unfold get_audio_files, get_audio_files_in. rewrite Hdir. cbn [rbind negb].
  rewrite Hlist. cbn [rbind]. split.
  - intros Hclear. rewrite (audio_among_clear w _ items Hclear).
    eexists. split; [reflexivity|]. split; [reflexivity|].
    split; [apply filter_sublist|].
    assert (forall p,
              In p (List.filter (fun item =>
                      fs_is_file w item
                      && in_formats (lower (suffix item)) supported_formats) items)
              <-> In p items /\ fs_is_file w p = true
                  /\ in_formats (lower (suffix p)) supported_formats = true) as Hchar.
    { intros p. rewrite filter_In, andb_true_iff. reflexivity. }
    split; [exact Hchar|]. split.
    + intros d s e Hs Hext Hin Hfile. apply Hchar.
      destruct (supported_extension e Hext) as (He & Hdot).
      destruct (stem_suffix_dotted d s e Hs He Hdot) as (_ & ->).
      auto.
    + intros p (_ & _ & Hext)%Hchar.
      unfold suffix, suffix_index in Hext.
      destruct (rfind "." (name p)) as [i|]; [|discriminate].
      destruct (Nat.ltb_spec 0 i); [|discriminate].
      destruct (Nat.ltb_spec i (String.length (name p) - 1)); [|discriminate].
      exists i. auto.
  - intros before item after e -> Hbefore Hitem.
    apply audio_among_denied; assumption.
Qed.

End WithFS.

Lemma scanner_keeps_audio_files_witness :
  is_dir desk "audio" = Returns true
  /\ fs_iterdir desk "audio" = Returns [a_wav; b_txt; c_mp3]
  /\ exists files,
       get_audio_files desk "audio" = Returns files
       /\ sublist files [a_wav; b_txt; c_mp3]
       /\ In a_wav files.
Proof.
  split; [reflexivity|]. split; [reflexivity|].
  destruct (scanner_keeps_audio_files desk "audio" [a_wav; b_txt; c_mp3])
    as (Hclear & _); [reflexivity | reflexivity |].
  destruct Hclear as (files & Hscan & _ & Hsub & _ & Hnamed & _).
  { repeat constructor. }
  exists files. split; [exact Hscan|]. split; [exact Hsub|].
  apply (Hnamed "audio" "a" "wav");
    [discriminate | reflexivity | left; reflexivity | reflexivity].
Defined.

Lemma prefix_append (n b : string) : String.prefix n (n +:+ b) = true.
Proof.
  induction n as [|c r IH]; [destruct b; reflexivity|].
  rewrite append_cons. simpl.
  destruct (ascii_dec c c); [exact IH | congruence].
Qed.

Lemma contains_prefix (n hay : string) :
  String.prefix n hay = true -> contains n hay = true.
Proof. destruct hay; simpl; intros ->; reflexivity. Qed.

Lemma contains_here (n b : string) : contains n (n +:+ b) = true.
Proof. apply contains_prefix, prefix_append. Qed.

Lemma contains_later (n a b : string) :
  contains n b = true -> contains n (a +:+ b) = true.
Proof.
  intros Hb. induction a as [|c r IH]; [exact Hb|].
  rewrite append_cons. simpl. rewrite IH. apply orb_true_r.
Qed.

Lemma isoformat_has_T (d : datetime) : contains "T" (isoformat d) = true.
Proof. unfold isoformat. apply contains_later, contains_here. Qed.

Lemma date_part_length (d : datetime) : String.length (date_part d) = 10.
Proof. reflexivity. Qed.

Section Metadata.
Context {W : Type} `{FileSystem W}.

(** X5. [get_file_metadata] raises [FileNotFoundError], naming the path,
    for what is not a regular file, and the error of a path that cannot be
    examined. When it returns, the file is a regular file, the metadata
    carry its name and size, and both dates are ISO texts with a ["T"]
    whose part before the ["T"] is the ten-character date of their
    timestamp: the modification time for the one, and for the other the
    birth time when the platform records one and the modification time
    when it does not. *)
Theorem file_metadata_shape (w : W) (p : Path) :
  (is_file w p = Returns false ->
   get_file_metadata w p
   = Raises (raise_ FileNotFoundError
               ("File not found or is not a regular file: " +:+ path_str p)))
  /\ (forall e, is_file w p = Raises e -> get_file_metadata w p = Raises e)
  /\ (forall md,
        get_file_metadata w p = Returns md ->
        is_file w p = Returns true
        /\ exists st,
             fs_stat w p = Returns st
             /\ filename md = name p
             /\ size_bytes md = st_size st
             /\ modification_date_iso md = isoformat (st_mtime st)
             /\ creation_date_iso md
                = isoformat (default (st_mtime st) (st_birthtime st))
             /\ contains "T" (creation_date_iso md) = true
             /\ contains "T" (modification_date_iso md) = true
             /\ hd "" (split "T" (modification_date_iso md)) = date_part (st_mtime st)
             /\ hd "" (split "T" (creation_date_iso md))
                = date_part (default (st_mtime st) (st_birthtime st))
             /\ String.length (hd "" (split "T" (creation_date_iso md))) = 10
             /\ (st_birthtime st = None ->
                 creation_date_iso md = modification_date_iso md)).
Proof.
  unfold get_file_metadata. split; [|split].
  - intros ->. reflexivity.
  - intros e ->. reflexivity.
  - intros md. destruct (is_file w p) as [[|]|e]; try discriminate.
    cbn [rbind negb]. destruct (fs_stat w p) as [st|e]; [|discriminate].
    cbn [rbind]. intros [= <-]. split; [reflexivity|].
    exists st. cbn [filename size_bytes creation_date_iso modification_date_iso].
    assert (Hcreated : match st_birthtime st with
                       | Some t => t
                       | None => st_mtime st
                       end = default (st_mtime st) (st_birthtime st))
      by now destruct (st_birthtime st).
    rewrite Hcreated.
    repeat split.
    + apply isoformat_has_T.
    + apply isoformat_has_T.
    + apply isoformat_date.
    + apply isoformat_date.
    + rewrite isoformat_date. apply date_part_length.
    + intros ->. reflexivity.
Qed.

End Metadata.

Lemma file_metadata_shape_witness :
  is_file desk gone_wav = Returns false
  /\ get_file_metadata desk gone_wav
     = Raises (raise_ FileNotFoundError
                 "File not found or is not a regular file: audio/gone.wav")
  /\ get_file_metadata desk (mkPath "vault" "a.wav")
     = Raises (locked "vault/a.wav")
  /\ get_file_metadata desk a_wav
     = Returns (mkMetadata "a.wav" "2025-06-01T12:00:00+00:00"
                  "2025-06-01T12:00:00+00:00" 1024)
  /\ is_file desk a_wav = Returns true.
Proof.
  destruct (file_metadata_shape desk gone_wav) as (Hgone & _).
  destruct (file_metadata_shape desk (mkPath "vault" "a.wav")) as (_ & Hlocked & _).
  destruct (file_metadata_shape desk a_wav) as (_ & _ & Hthere).
  assert (get_file_metadata desk a_wav
          = Returns (mkMetadata "a.wav" "2025-06-01T12:00:00+00:00"
                       "2025-06-01T12:00:00+00:00" 1024)) as Hmd
    by (vm_compute; reflexivity).
  split; [reflexivity|]. split; [apply Hgone; reflexivity|].
  split; [apply Hlocked; reflexivity|].
  split; [exact Hmd|]. apply (Hthere _ Hmd).
Defined.

End InputFacts.

(** ** The page the handler builds *)

Module PageFacts.
Import PyStr PyStrFacts StripFacts ChunkFacts NotionHandler NotionHandlerFacts
       Readback Orchestrator OrchestratorFacts Scenario.

(** The blocks of the page, written out. *)
Lemma page_content_blocks_eq (summary : string) (action_items : list string)
    (transcript : string) :
  page_content_blocks summary action_items transcript
  = Returns
      ([heading 2 [mkRichText "Summary" None] "default";
        _paragraph (or_else summary "No summary generated.") None;
        heading 2 [mkRichText "Action Items" None] "default"]
       ++ match action_items with
          | [] => [_paragraph "No action items identified." None]
          | _ => map (fun item => _todo_item item false) action_items
          end
       ++ [heading 2 [mkRichText "Transcript" None] "default";
           toggle [mkRichText "Full Transcript" None] "default"
             (map (fun chunk => paragraph [mkRichText chunk None] None)
                  (chunks_of (or_else transcript "Transcript not available.")
                             default_chunk_size))]).
Proof.
  unfold page_content_blocks.
  change (_heading 2 "Summary")
    with (Returns (heading 2 [mkRichText "Summary" None] "default")).
  change (_heading 2 "Action Items")
    with (Returns (heading 2 [mkRichText "Action Items" None] "default")).
  change (_heading 2 "Transcript")
    with (Returns (heading 2 [mkRichText "Transcript" None] "default")).
  rewrite toggle_children. unfold rbind.
  assert (is_empty (or_else transcript "Transcript not available.") = false) as ->.
  { unfold or_else. destruct transcript; reflexivity. }
  reflexivity.
Qed.

Lemma or_else_nonempty (x d : string) : d <> "" -> or_else x d <> "".
Proof. unfold or_else. destruct x; [auto | discriminate]. Qed.

Lemma paragraph_text (x : string) :
  x <> "" -> _paragraph x None = paragraph [mkRichText x None] (Some "default").
Proof. destruct x; [congruence | reflexivity]. Qed.

Lemma todo_texts_app (a b : list Block) :
  todo_texts (a ++ b) = todo_texts a ++ todo_texts b.
Proof. apply flat_map_app. Qed.

Lemma todo_texts_items (items : list string) :
  todo_texts (map (fun item => _todo_item item false) items) = items.
Proof. induction items as [|i r IH]; simpl; [reflexivity | now rewrite IH]. Qed.

Lemma paragraph_texts_chunks (chunks : list string) :
  paragraph_texts (map (fun chunk => paragraph [mkRichText chunk None] None) chunks)
  = chunks.
Proof. induction chunks as [|c r IH]; simpl; [reflexivity | now rewrite IH]. Qed.

Lemma append_assoc (a b c : string) : (a +:+ b) +:+ c = a +:+ (b +:+ c).
Proof.
  induction a as [|x r IH]; [reflexivity|]. now rewrite !append_cons, IH.
Qed.

Lemma join_app (a b : list string) : join (a ++ b) = join a +:+ join b.
Proof.
  induction a as [|x r IH]; [reflexivity|].
  change (join ((x :: r) ++ b)) with (x +:+ join (r ++ b)).
  change (join (x :: r)) with (x +:+ join r).
  now rewrite IH, append_assoc.
Qed.

Lemma toggle_text_app (a b : list Block) :
  toggle_text (a ++ b) = toggle_text a +:+ toggle_text b.
Proof. unfold toggle_text. now rewrite flat_map_app, join_app. Qed.

Lemma toggle_text_items (items : list string) :
  toggle_text match items with
              | [] => [_paragraph "No action items identified." None]
              | _ => map (fun item => _todo_item item false) items
              end = "".
Proof.
  destruct items as [|i r]; [reflexivity|].
  generalize (i :: r) as l. induction l as [|x l IH]; [reflexivity | exact IH].
Qed.

(** X6. The page loses nothing of what it is given. It has five fixed
    blocks and one block per action item (one in all when there is none);
    the texts of its to-do blocks are the action items, in order; the text
    under its toggle is the transcript, or the notice
    ["Transcript not available."] for an empty one. *)
Theorem page_reads_back (summary : string) (action_items : list string)
    (transcript : string) :
  exists blocks,
    page_content_blocks summary action_items transcript = Returns blocks
    /\ length blocks = 5 + Nat.max 1 (length action_items)
    /\ todo_texts blocks = action_items
    /\ toggle_text blocks = or_else transcript "Transcript not available."
    /\ hd "" (paragraph_texts blocks) = or_else summary "No summary generated.".
Proof.
  eexists. split; [apply page_content_blocks_eq|].
  assert (or_else summary "No summary generated." <> "") as Hsum
    by (apply or_else_nonempty; discriminate).
  rewrite (paragraph_text _ Hsum).
  split; [|split; [|split]].
  - rewrite !length_app. destruct action_items as [|i r]; simpl; [reflexivity|].
    rewrite length_map. lia.
  - rewrite !todo_texts_app. destruct action_items as [|i r].
    + reflexivity.
    + rewrite todo_texts_items. simpl. now rewrite app_nil_r.
  - rewrite !toggle_text_app, toggle_text_items.
    unfold toggle_text. simpl flat_map.
    rewrite app_nil_r, paragraph_texts_chunks.
    apply chunks_of_join, default_chunk_size_pos.
  - reflexivity.
Qed.

Lemma all_texts_todo (items : list string) :
  Forall (fun i => i <> "") items ->
  Forall (fun b => Forall (fun t => t <> "") (all_texts b))
         (map (fun item => _todo_item item false) items).
Proof.
  induction 1 as [|i r Hi _ IH]; simpl; constructor; [|exact IH].
  repeat constructor. exact Hi.
Qed.

Lemma all_texts_chunks (chunks : list string) :
  Forall (fun c => c <> "") chunks ->
  Forall (fun t => t <> "")
         (flat_map all_texts
            (map (fun chunk => paragraph [mkRichText chunk None] None) chunks)).
Proof.
  induction 1 as [|c r Hc _ IH]; simpl; constructor; assumption.
Qed.

(** X7. No text on the page is empty, provided no action item is: every
    rich-text object of every block, the children of the toggle included,
    has a non-empty content. The action items the parser returns are never
    empty, so a page built from an analysis has no empty text. *)
Theorem no_empty_text_on_page (summary : string) (action_items : list string)
    (transcript : string) :
  Forall (fun i => i <> "") action_items ->
  (exists blocks,
     page_content_blocks summary action_items transcript = Returns blocks
     /\ Forall (fun b => Forall (fun t => t <> "") (all_texts b)) blocks)
  /\ forall raw, Forall (fun i => i <> "") (SummarizerService.parse_action_items raw).
Proof.
  intros Hitems. split.
  - eexists. split; [apply page_content_blocks_eq|].
    assert (or_else summary "No summary generated." <> "") as Hsum
      by (apply or_else_nonempty; discriminate).
    rewrite (paragraph_text _ Hsum).
    repeat apply Forall_app_2.
    + repeat constructor; (discriminate || exact Hsum).
    + destruct action_items as [|i r]; [repeat constructor; discriminate|].
      now apply all_texts_todo.
    + constructor; [repeat constructor; discriminate|].
      constructor; [|constructor].
      cbn [all_texts]. apply Forall_app_2; [repeat constructor; discriminate|].
      apply all_texts_chunks.
      eapply Forall_impl; [apply chunks_of_bounded, default_chunk_size_pos|].
      intros c [Hc _]. exact Hc.
  - intros raw.
    eapply Forall_impl; [apply SummarizerFacts.parse_action_items_entries|].
    intros entry (l & _ & He).
    eapply SummarizerFacts.bullet_entry_nonempty, He.
Qed.

Lemma no_empty_text_on_page_witness :
  Forall (fun i => i <> "") ["Follow up with Bob"; "Send report"]
  /\ exists blocks,
       page_content_blocks "Bob reports." ["Follow up with Bob"; "Send report"] ""
       = Returns blocks
       /\ Forall (fun b => Forall (fun t => t <> "") (all_texts b)) blocks.
Proof.
  assert (Forall (fun i => i <> "") ["Follow up with Bob"; "Send report"]) as Hitems
    by (repeat constructor; discriminate).
  split; [exact Hitems|].
  apply (no_empty_text_on_page "Bob reports." _ "" Hitems).
Defined.

Section Publishing.
Context {W : Type} `{FileSystem W}.

(** X8. The handler of the repository turns every failure of the remote
    call into a returned text, and the orchestrator tells success from
    failure by looking for ["https://"] in what is returned. Hence a
    failure whose text contains ["https://"] is recorded as a success, with
    the failure text as the URL of the page. *)
Theorem failure_text_with_url_is_success (self : Orchestrator W)
    (ts : TranscriptionService W) (h : Handler W) (p : Path) (d : string) (w : W)
    (t : string) (w1 : W) (t1 : list Call) (sd : Analysis) (w2 : W) (t2 : list Call)
    (blocks : list Block) (e : Exn) (w3 : W) :
  transcription_service self = Some ts ->
  notion_handler self = Some (publisher_of h) ->
  transcribe ts p w = (Returns t, w1, t1) ->
  all_chars isspace t = false ->
  summarize self t p w1 = (sd, w2, t2) ->
  page_content_blocks (summary sd) (action_items sd) t = Returns blocks ->
  pages_create h (database_id h) (mkProps (stem p) d (name p)) blocks w2
    = (Raises e, w3) ->
  let failure :=
    if class_eqb (exn_class e) APIResponseError
    then "Notion API Error while creating page: "
         +:+ exn_code e +:+ " - " +:+ exn_body e
    else "An unexpected error occurred while creating Notion page: " +:+ exn_str e in
  contains "https://" failure = true ->
  NotionHandler.create_notion_page h (stem p) d (summary sd) (action_items sd) t
    (name p) w2
  = (Returns failure, w3, [CallPagesCreate (database_id h)])
  /\ value_of (process_single_audio_file self p d w)
     = mkOutcome (path_str p) "success"
         ("Successfully processed and uploaded to Notion: " +:+ failure) failure.
Proof.
  intros Hts Hnh Ht Hblank Hsum Hblocks Hcreate failure Hurl.
  assert (NotionHandler.create_notion_page h (stem p) d (summary sd)
            (action_items sd) t (name p) w2
          = (Returns failure, w3, [CallPagesCreate (database_id h)])) as Hpage.
  { unfold NotionHandler.create_notion_page. rewrite Hblocks.
    unfold bind, call. rewrite Hcreate. subst failure.
    destruct (class_eqb (exn_class e) APIResponseError); reflexivity. }
  split; [exact Hpage|].
  rewrite (process_single_transcribed self ts p d w t w1 t1 Hts Ht Hblank).
  unfold bind, publish. rewrite Hsum, Hnh.
  unfold bind, invoke. cbn [create_notion_page publisher_of].
  rewrite Hpage. unfold ret, value_of. simpl. now rewrite Hurl.
Qed.

End Publishing.

Lemma failure_text_with_url_is_success_witness :
  status (value_of (process_single_audio_file Backstage.studio_unreachable a_wav
                      "2025-06-01" desk)) = "success"
  /\ url (value_of (process_single_audio_file Backstage.studio_unreachable a_wav
                      "2025-06-01" desk))
     = "An unexpected error occurred while creating Notion page: Max retries exceeded with url: https://api.notion.com/v1/pages"
  /\ pages (world_of (process_single_audio_file Backstage.studio_unreachable a_wav
                        "2025-06-01" desk)) = 0.
Proof.
  edestruct (failure_text_with_url_is_success Backstage.studio_unreachable speech
               Backstage.notion_unreachable a_wav "2025-06-01" desk)
    as (_ & Hvalue);
    [reflexivity | reflexivity | reflexivity | reflexivity
    | vm_compute; reflexivity | apply page_content_blocks_eq
    | reflexivity | vm_compute; reflexivity | ].
  rewrite Hvalue. split; [reflexivity|]. split; [reflexivity|].
  vm_compute. reflexivity.
Defined.

End PageFacts.

(** ** The analysis service beyond the blank transcript *)

Module AnalysisFacts.
Import PyStr PyStrFacts StripFacts SummarizerService SummarizerFacts Scenario.

Lemma rstrip_idempotent (s : string) : rstrip (rstrip s) = rstrip s.
Proof.
  induction s as [|c r IH]; [reflexivity|].
  cbn [rstrip]. destruct (rstrip r) as [|c' r'] eqn:Hr.
  - destruct (isspace c) eqn:Hc; [reflexivity|].
    cbn [rstrip]. now rewrite Hc.
  - cbn [rstrip]. cbn [rstrip] in IH. rewrite IH. reflexivity.
Qed.

Lemma rstrip_keeps_head (c : ascii) (r : string) :
  isspace c = false -> exists r', rstrip (String c r) = String c r'.
Proof.
  intros Hc. cbn [rstrip]. destruct (rstrip r); [rewrite Hc|]; eauto.
Qed.

Lemma lstrip_head (s : string) :
  lstrip s = "" \/ exists c r, lstrip s = String c r /\ isspace c = false.
Proof.
  induction s as [|c r IH]; [now left|].
  cbn [lstrip]. destruct (isspace c) eqn:Hc; [exact IH | right; eauto].
Qed.

(** [s.strip()] is stripped. *)
Lemma strip_idempotent (s : string) : strip (strip s) = strip s.
Proof.
  unfold strip.
  destruct (lstrip_head s) as [->|(c & r & -> & Hc)]; [reflexivity|].
  destruct (rstrip_keeps_head c r Hc) as (r' & Hr).
  assert (lstrip (rstrip (String c r)) = rstrip (String c r)) as ->.
  { rewrite Hr. cbn [lstrip]. now rewrite Hc. }
  apply rstrip_idempotent.
Qed.

Lemma mem_char_lstrip (c : ascii) (s : string) :
  mem_char c s = false -> mem_char c (lstrip s) = false.
Proof.
  induction s as [|d r IH]; [reflexivity|].
  cbn [lstrip]. destruct (isspace d); [|auto].
  cbn [mem_char]. intros [_ Hr]%orb_false_elim. auto.
Qed.

Lemma mem_char_rstrip (c : ascii) (s : string) :
  mem_char c s = false -> mem_char c (rstrip s) = false.
Proof.
  induction s as [|d r IH]; [reflexivity|].
  cbn [mem_char]. intros [Hd Hr]%orb_false_elim.
  specialize (IH Hr). cbn [rstrip].
  destruct (rstrip r) as [|c' r'].
  - destruct (isspace d); [reflexivity|]. cbn [mem_char]. now rewrite Hd.
  - cbn [mem_char] in *. now rewrite Hd, IH.
Qed.

Lemma mem_char_split (c sep : ascii) (s : string) :
  mem_char c s = false ->
  Forall (fun l => mem_char c l = false) (split sep s).
Proof.
  induction s as [|d r IH]; [repeat constructor|].
  cbn [mem_char]. intros [Hd Hr]%orb_false_elim.
  specialize (IH Hr). cbn [split].
  destruct (Ascii.eqb d sep).
  - constructor; [reflexivity | exact IH].
  - destruct (split sep r) as [|h t'].
    + repeat constructor. cbn [mem_char]. now rewrite Hd.
    + inversion IH as [|? ? Hh Ht]; subst. constructor; [|exact Ht].
      cbn [mem_char]. now rewrite Hd, Hh.
Qed.

Lemma startswith_mem (c : ascii) (s : string) :
  startswith (String c "") s = true -> mem_char c s = true.
Proof.
  unfold startswith. destruct s as [|d r]; simpl; [discriminate|].
  destruct (ascii_dec c d) as [->|]; [|discriminate].
  intros _. now rewrite Ascii.eqb_refl.
Qed.

Lemma bullet_entry_needs_dash (l : string) :
  mem_char "-" l = false -> bullet_entry l = None.
Proof.
  intros Hl. unfold bullet_entry.
  destruct (startswith "-" (strip l)) eqn:Hs; [|reflexivity].
  apply startswith_mem in Hs. unfold strip in Hs.
  rewrite (mem_char_rstrip _ _ (mem_char_lstrip _ _ Hl)) in Hs. discriminate.
Qed.

Lemma omap_none {A B} (f : A -> option B) (l : list A) :
  Forall (fun x => f x = None) l -> omap f l = [].
Proof.
  induction 1 as [|x r Hx _ IH]; simpl; [reflexivity|].
  change (list_omap A B f r) with (omap f r). now rewrite Hx.
Qed.

Lemma length_omap {A B} (f : A -> option B) (l : list A) :
  length (omap f l) <= length l.
Proof.
  induction l as [|x r IH]; simpl; [lia|].
  change (list_omap A B f r) with (omap f r).
  destruct (f x); simpl; lia.
Qed.

Lemma parse_action_items_stripped (raw : string) :
  Forall (fun item => item <> "" /\ strip item = item) (parse_action_items raw).
Proof.
  rewrite parse_action_items_lines.
  destruct (_ || _); [constructor|].
  apply Forall_forall. intros item (l & _ & He)%list_elem_of_omap.
  split; [eapply bullet_entry_nonempty, He|].
  unfold bullet_entry in He.
  destruct (startswith "-" (strip l)); [|discriminate].
  destruct (is_empty _); [discriminate|].
  injection He as <-. apply strip_idempotent.
Qed.

(** X9. The parser reads bulleted lines only. It returns at most one item
    per line of the answer, each of them stripped and not empty; an answer
    without any ["-"], such as a sentence of prose, gives no item at all,
    and so does the answer ["no action items found."] in any letter
    case. *)
Theorem only_bulleted_lines_count (raw : string) :
  length (parse_action_items raw) <= length (split nl raw)
  /\ Forall (fun item => item <> "" /\ strip item = item) (parse_action_items raw)
  /\ (mem_char "-" raw = false -> parse_action_items raw = [])
  /\ (existsb (String.eqb (lower raw)) no_items_answers = true ->
      parse_action_items raw = []).
Proof.
  split; [|split; [apply parse_action_items_stripped|]];
    rewrite parse_action_items_lines; [|split].
  - destruct (_ || _); [apply Nat.le_0_l | apply length_omap].
  - intros Hdash. destruct (_ || _); [reflexivity|].
    apply omap_none.
    eapply Forall_impl; [apply (mem_char_split "-" nl raw Hdash)|].
    intros l. apply bullet_entry_needs_dash.
  - intros ->. now rewrite orb_true_r.
Qed.

Lemma only_bulleted_lines_count_witness :
  mem_char "-" "Bob should send the report by Friday." = false
  /\ parse_action_items "Bob should send the report by Friday." = []
  /\ existsb (String.eqb (lower "NO ACTION ITEMS FOUND.")) no_items_answers = true
  /\ parse_action_items "NO ACTION ITEMS FOUND." = [].
Proof.
  destruct (only_bulleted_lines_count "Bob should send the report by Friday.")
    as (_ & _ & Hprose & _).
  destruct (only_bulleted_lines_count "NO ACTION ITEMS FOUND.")
    as (_ & _ & _ & Hnone).
  split; [reflexivity|]. split; [apply Hprose; reflexivity|].
  split; [reflexivity|]. apply Hnone. reflexivity.
Defined.

Section WithModel.
Context {W : Type}.

(** One call of the helper, for a client that does not raise
    [AttributeError]: the call is recorded and the helper returns a text
    or raises [RuntimeError]. *)
Lemma generate_once (self : Service W) (prompt : string) (w : W) :
  (forall q w0 e w0', generate_content self q w0 = (Raises e, w0') ->
     class_eqb (exn_class e) AttributeError = false) ->
  exists r w',
    _generate_content_with_gemini self prompt w = (r, w', [CallModel prompt])
    /\ match r with
       | Returns _ => True
       | Raises e => exn_class e = RuntimeError
       end.
Proof.
  intros Hclient. unfold _generate_content_with_gemini, bind, call.
  destruct (generate_content self prompt w) as [[resp|e] w'] eqn:Hcall.
  - destruct (response_text resp) as [s|e].
    + eexists _, _. split; [reflexivity | exact I].
    + destruct (class_eqb (exn_class e) AttributeError);
        eexists _, _; split; reflexivity || exact I.
  - rewrite (Hclient _ _ _ _ Hcall). eexists _, _. split; reflexivity.
Qed.

Lemma except_RuntimeError_returns {A B} (r : Result A) (f : A -> B) (before : B) :
  match r with
  | Returns _ => True
  | Raises e => exn_class e = RuntimeError
  end ->
  except_RuntimeError (try! x <- r; Returns (f x)) before
  = Returns match r with Returns a => f a | Raises _ => before end.
Proof. destruct r as [a|e]; simpl; [reflexivity|]. now intros ->. Qed.

(** X10. A failing model does not fail the analysis. For a transcript
    that is not blank and a client whose call never raises
    [AttributeError], [analyze_transcript] returns: it makes exactly two
    model calls, the summary prompt then the action-items prompt; the
    result names the original file, its summary is stripped and its action
    items are stripped and not empty. A facet whose call failed is empty
    and the other one is kept. *)
Theorem analysis_survives_model_failures (self : Service W) (t f : string) (w : W) :
  all_chars isspace t = false ->
  (forall q w0 e w0', generate_content self q w0 = (Raises e, w0') ->
     class_eqb (exn_class e) AttributeError = false) ->
  exists r1 w1 r2 w2,
    _generate_content_with_gemini self (summary_prompt t f) w
      = (r1, w1, [CallModel (summary_prompt t f)])
    /\ _generate_content_with_gemini self (action_items_prompt t f) w1
        = (r2, w2, [CallModel (action_items_prompt t f)])
    /\ analyze_transcript self t f w
       = (Returns (mkAnalysis
                     match r1 with Returns s => strip s | Raises _ => "" end
                     match r2 with
                     | Returns raw => parse_action_items (strip raw)
                     | Raises _ => []
                     end
                     (Some f)),
          w2, [CallModel (summary_prompt t f); CallModel (action_items_prompt t f)])
    /\ strip match r1 with Returns s => strip s | Raises _ => "" end
       = match r1 with Returns s => strip s | Raises _ => "" end
    /\ Forall (fun item => item <> "" /\ strip item = item)
         match r2 with
         | Returns raw => parse_action_items (strip raw)
         | Raises _ => []
         end.
Proof.
  intros Hblank Hclient.
  destruct (generate_once self (summary_prompt t f) w Hclient) as (r1 & w1 & H1 & Hr1).
  destruct (generate_once self (action_items_prompt t f) w1 Hclient)
    as (r2 & w2 & H2 & Hr2).
  exists r1, w1, r2, w2. split; [exact H1|]. split; [exact H2|].
  split; [|split].
  - unfold analyze_transcript. rewrite blank_test, Hblank.
    unfold bind at 1. rewrite H1.
    rewrite (except_RuntimeError_returns r1 strip "" Hr1).
    unfold bind. rewrite H2.
    rewrite (except_RuntimeError_returns r2 (fun raw => parse_action_items (strip raw))
               [] Hr2).
    reflexivity.
  - destruct r1; [apply strip_idempotent | reflexivity].
  - destruct r2 as [raw|]; [|constructor].
    apply parse_action_items_stripped.
Qed.

End WithModel.

Lemma quota_never_attribute_error (q : string) (w0 : Desk) (e : Exn) (w0' : Desk) :
  generate_content Backstage.gemini_quota q w0 = (Raises e, w0') ->
  class_eqb (exn_class e) AttributeError = false.
Proof.
  unfold Backstage.gemini_quota. cbn [generate_content].
  destruct (contains "Action Items:" q); [discriminate|].
  intros [= <- _]. reflexivity.
Qed.

Lemma analysis_survives_model_failures_witness :
  all_chars isspace "Bob will send the report." = false
  /\ value_of (analyze_transcript Backstage.gemini_quota
                 "Bob will send the report." "a.wav" desk)
     = Returns (mkAnalysis "" ["Follow up with Bob"; "Send report"] (Some "a.wav")).
Proof.
  split; [reflexivity|].
  destruct (analysis_survives_model_failures Backstage.gemini_quota
              "Bob will send the report." "a.wav" desk eq_refl
              quota_never_attribute_error)
    as (r1 & w1 & r2 & w2 & H1 & H2 & Hrun & _).
  rewrite Hrun. unfold value_of. cbn [fst].
  vm_compute in H1. injection H1 as <- <-.
  vm_compute in H2. injection H2 as <- <-.
  vm_compute. reflexivity.
Defined.

End AnalysisFacts.

(** ** The recordings pipeline, stage by stage *)

Module RecordingFacts.
Import PyStr InputManager Transcriber Recordings Scenario.

Section WithWorld.
Context {W : Type} `{FileSystem W}.

Variable BASE_DIR : string.

Implicit Types (self : Transcriber W) (video : Path) (w : W).



(** X13. A pass over the recordings folder ignores what is not a video:
    it does what a pass over the entries with a suffix among [.mp4],
    [.mkv] and [.mov] (in any letter case) does, and a listing without
    such entry leads to no call and no change. A listing that raises ends
    the pass with that exception. *)
Theorem only_videos_are_processed self w :
  (forall video_files,
     process_videos BASE_DIR self video_files w
     = process_videos BASE_DIR self (List.filter is_video video_files) w)
  /\ (forall video_files,
        fs_iterdir w (path_str (RECORDINGS_DIR BASE_DIR)) = Returns video_files ->
        List.filter is_video video_files = [] ->
        process_all BASE_DIR self w = (Returns tt, w, []))
  /\ (forall e,
        fs_iterdir w (path_str (RECORDINGS_DIR BASE_DIR)) = Raises e ->
        process_all BASE_DIR self w = (Raises e, w, [])).
Proof.
  assert (forall video_files w0,
            process_videos BASE_DIR self video_files w0
            = process_videos BASE_DIR self (List.filter is_video video_files) w0)
    as Hfilter.
  { induction video_files as [|v rest IH]; intros w0; [reflexivity|].
    cbn [process_videos List.filter].
    destruct (is_video v) eqn:Hv; unfold is_video in Hv.
    - cbn [process_videos]. rewrite Hv. unfold bind.
      destruct (process_recording BASE_DIR self v w0) as [[[] w1] t1].
      now rewrite IH.
    - rewrite Hv. unfold bind, ret. rewrite IH.
      destruct (process_videos BASE_DIR self (List.filter is_video rest) w0)
        as [[[] w1] t1]. reflexivity. }
  split; [|split].
  - intros video_files. apply Hfilter.
  - intros video_files Hlist Hnone. unfold process_all, bind, gets.
    rewrite Hlist, Hfilter, Hnone. reflexivity.
  - intros e Hlist. unfold process_all, bind, gets. now rewrite Hlist.
Qed.

End WithWorld.





Lemma only_videos_are_processed_witness :
  fs_iterdir desk (path_str (RECORDINGS_DIR "base")) = Returns [a_wav; b_txt; c_mp3]
  /\ List.filter is_video [a_wav; b_txt; c_mp3] = []
  /\ process_all "base" recorder desk = (Returns tt, desk, []).
Proof.
  destruct (only_videos_are_processed "base" recorder desk) as (_ & Hnone & _).
  split; [reflexivity|]. split; [reflexivity|].
  apply (Hnone [a_wav; b_txt; c_mp3]); reflexivity.
Defined.

End RecordingFacts.

(** ** The transcription backends *)

Module BackendFacts.
Import PyStr Config Orchestrator OrchestratorFacts Scenario.

Section WithWorld.
Context {W : Type} `{FileSystem W}.

Lemma reraise_class (p : Path) (e : Exn) :
  exn_class (Whisper.reraise p e) = FileNotFoundError
  \/ exn_class (Whisper.reraise p e) = RuntimeError.
Proof.
  unfold Whisper.reraise.
  destruct (exn_class e) eqn:Hc; cbn [class_eqb orb]; rewrite ?Hc; auto.
Qed.

Lemma is_model_level_in (v : Value) :
  Whisper.is_model_level v = true ->
  exists s, v = VStr s /\ In s Whisper.MODEL_LEVELS.
Proof.
  destruct v as [|s|ty b t]; try discriminate. cbn [Whisper.is_model_level].
  intros Hin. exists s. split; [reflexivity|].
  apply existsb_exists in Hin as (x & Hx & Heq).
  apply String.eqb_eq in Heq. now subst x.
Qed.

(** X14. With the simulated Google backend a file that is found to exist
    always has a transcript, the placeholder naming the file and the
    language, so the item always reaches analysis and publishing with
    that text; a file found not to exist ends as a transcription failure
    naming the path; and when the path cannot be examined, the item ends
    as a transcription failure with the text of that error. In the last
    two cases the world is untouched and nothing but the transcription is
    called. *)
Theorem google_backend_outcomes (g : GoogleSTT.GoogleSTTTranscriber)
    (self : Orchestrator W) (p : Path) (d : string) (w : W) :
  transcription_service self = Some (GoogleSTT.as_service g) ->
  process_single_audio_file self p d w =
  match path_exists w p with
  | Returns true =>
      let text := "[Simulated Google STT transcript for " +:+ name p
                  +:+ " using language " +:+ value_str (GoogleSTT.language_code g)
                  +:+ "]" in
      let '(o, w2, t2) :=
        bind (summarize self text p)
             (fun sd => publish self (mkOutcome (path_str p) "pending" "" "") p d sd text)
             w in
      (o, w2, CallTranscribe p :: t2)
  | Returns false =>
      (mkOutcome (path_str p) "error"
         ("Transcription failed: Audio file not found: " +:+ path_str p) "",
       w, [CallTranscribe p])
  | Raises e =>
      (mkOutcome (path_str p) "error" ("Transcription failed: " +:+ exn_str e) "",
       w, [CallTranscribe p])
  end.
Proof.
  intros Hts. destruct (path_exists w p) as [[|]|e] eqn:Hex.
  - cbv zeta.
    rewrite (process_single_transcribed self (GoogleSTT.as_service g) p d w
               ("[Simulated Google STT transcript for " +:+ name p
                +:+ " using language " +:+ value_str (GoogleSTT.language_code g) +:+ "]")
               w [] Hts).
    + reflexivity.
    + cbn [GoogleSTT.as_service transcribe]. unfold gets, GoogleSTT.transcribe.
      now rewrite Hex.
    + reflexivity.
  - unfold process_single_audio_file. rewrite Hts.
    unfold bind at 1. unfold invoke at 1.
    cbn [GoogleSTT.as_service transcribe]. unfold gets, GoogleSTT.transcribe.
    rewrite Hex. reflexivity.
  - unfold process_single_audio_file. rewrite Hts.
    unfold bind at 1. unfold invoke at 1.
    cbn [GoogleSTT.as_service transcribe]. unfold gets, GoogleSTT.transcribe.
    rewrite Hex. reflexivity.
Qed.

(** X15. A Whisper transcriber that was constructed holds one of the five
    known model sizes: the one the configuration asked for, or [base].
    The library is never asked for a model outside the five: two
    libraries that agree on those give the same construction. *)
Theorem whisper_loads_known_sizes_only (env : Whisper.Env W)
    (config : gmap string Value) (w : W) :
  (forall t w', Whisper.init env config w = (Returns t, w') ->
     In (Whisper.model_size t) Whisper.MODEL_LEVELS
     /\ (Whisper.model_size t = Whisper.DEFAULT_MODEL
         \/ config !! "model_size" = Some (VStr (Whisper.model_size t))))
  /\ (forall env' : Whisper.Env W,
        Whisper.whisper_installed env' = Whisper.whisper_installed env ->
        Whisper.gettempdir env' = Whisper.gettempdir env ->
        Whisper.getpid env' = Whisper.getpid env ->
        Whisper.mkdir env' = Whisper.mkdir env ->
        (forall size, In size Whisper.MODEL_LEVELS ->
                      Whisper.load_model env' size = Whisper.load_model env size) ->
        Whisper.init env' config w = Whisper.init env config w).
Proof.
  assert (Hsize : In (if Whisper.is_model_level
                           (config_get_or config "model_size" (VStr Whisper.DEFAULT_MODEL))
                      then value_str (config_get_or config "model_size"
                                        (VStr Whisper.DEFAULT_MODEL))
                      else Whisper.DEFAULT_MODEL) Whisper.MODEL_LEVELS).
  { destruct (Whisper.is_model_level _) eqn:Hl.
    - apply is_model_level_in in Hl as (s & -> & Hin). exact Hin.
    - right. left. reflexivity. }
  assert (Hbase : In Whisper.DEFAULT_MODEL Whisper.MODEL_LEVELS)
    by (right; left; reflexivity).
  split.
  - intros t w' Hinit. unfold Whisper.init in Hinit.
    destruct (Whisper.whisper_installed env); [|discriminate].
    cbn [negb] in Hinit.
    destruct (Whisper.mkdir env _ w) as [[[]|e] w1]; [|discriminate].
    set (size := if Whisper.is_model_level _ then _ else _) in *.
    assert (Hreq : size = Whisper.DEFAULT_MODEL
                   \/ config !! "model_size" = Some (VStr size)).
    { subst size. destruct (Whisper.is_model_level _) eqn:Hl; [|now left].
      apply is_model_level_in in Hl as (s & Hs & _). rewrite Hs.
      unfold config_get_or in Hs.
      destruct (config !! "model_size") as [v|]; simpl in Hs |- *.
      - rewrite Hs. now right.
      - injection Hs as <-. now left. }
    destruct (Whisper.load_model env size w1) as [[m|e] w2].
    + injection Hinit as <- <-. cbn [Whisper.model_size]. auto.
    + destruct (negb (String.eqb size Whisper.DEFAULT_MODEL)); [|discriminate].
      destruct (Whisper.load_model env Whisper.DEFAULT_MODEL w2) as [[m|e2] w3];
        [|discriminate].
      injection Hinit as <- <-. cbn [Whisper.model_size]. auto.
  - intros env' Hi Ht Hp Hm Hl. unfold Whisper.init, Whisper.TEMP_AUDIO_PARENT_DIR.
    rewrite Hi, Ht, Hp, Hm, (Hl _ Hsize), (Hl _ Hbase). reflexivity.
Qed.

Lemma finally_class {A : Type} (tried : Result A) (cleaned : Result unit) (e : Exn) :
  Whisper.finally_ tried cleaned = Raises e ->
  tried = Raises e \/ cleaned = Raises e.
Proof.
  unfold Whisper.finally_. destruct cleaned; intros Hr; [left | right];
    congruence.
Qed.

Lemma run_ffmpeg_target (env : Whisper.Env W) (p target wav : Path) (w w1 : W)
    (t1 : list Call) :
  Whisper.run_ffmpeg env p target w = (Returns wav, w1, t1) -> wav = target.
Proof.
  unfold Whisper.run_ffmpeg.
  destruct (Whisper._is_ffmpeg_available env w) as [[[|]|e] w0]; try discriminate.
  destruct (Whisper.ffmpeg_convert env p target w0) as [[out|code out err|e] w2].
  - now intros [= <- _ _].
  - destruct (path_exists w2 target) as [[|]|e]; try discriminate.
    destruct (Whisper.unlink env target w2) as [[[]|e] w3]; discriminate.
  - destruct (class_eqb _ _); discriminate.
Qed.

(** The converted file is always the one in the temporary directory of
    the transcriber. *)
Lemma convert_target (env : Whisper.Env W) (self : Whisper.WhisperTranscriber W)
    (p wav : Path) (w w1 : W) (t1 : list Call) :
  Whisper._convert_to_wav env self p w = (Returns wav, w1, t1) ->
  wav = Whisper.converted_path self p.
Proof.
  unfold Whisper._convert_to_wav.
  destruct (path_exists w p) as [[|]|e]; try discriminate.
  destruct (Whisper.mkdir env _ w) as [[[]|e] w0]; [|discriminate].
  unfold Whisper.copy_if_canonical.
  destruct (String.eqb _ _).
  - destruct (Whisper.wave_open env w0 p) as [wf|e].
    + destruct (_ && _).
      * destruct (Whisper.copy env p _ w0) as [[[]|e] w2].
        -- now intros [= <- _ _].
        -- apply run_ffmpeg_target.
      * apply run_ffmpeg_target.
    + apply run_ffmpeg_target.
  - apply run_ffmpeg_target.
Qed.

Lemma attempt_class (env : Whisper.Env W) (self : Whisper.WhisperTranscriber W)
    (p : Path) (w : W) (e : Exn) c w1 t1 :
  Whisper.attempt env self p w = (Raises e, c, w1, t1) ->
  exn_class e = FileNotFoundError \/ exn_class e = RuntimeError.
Proof.
  unfold Whisper.attempt.
  destruct (Whisper._convert_to_wav env self p w) as [[[wav|e0] w0] t0].
  - destruct (Whisper.model self wav w0) as [[t|e1] w2]; [discriminate|].
    intros [= <- _ _ _]. apply reraise_class.
  - intros [= <- _ _ _]. apply reraise_class.
Qed.

(** X16. Whatever goes wrong inside, [transcribe] of the Whisper backend
    raises a [FileNotFoundError] or a [RuntimeError], or else the error of
    one of its two unguarded looks at the file system: at the audio file
    before anything is done, or at the converted file when it is about to
    be removed. For a file found not to exist it raises
    [FileNotFoundError], and for one that cannot be examined that error,
    in both cases before anything is converted or transcribed. *)
Theorem whisper_transcribe_raises (env : Whisper.Env W)
    (self : Whisper.WhisperTranscriber W) (p : Path) (w : W) :
  (forall e, value_of (Whisper.transcribe env self p w) = Raises e ->
     exn_class e = FileNotFoundError \/ exn_class e = RuntimeError
     \/ path_exists w p = Raises e
     \/ exists wa, path_exists wa (Whisper.converted_path self p) = Raises e)
  /\ (path_exists w p = Returns false ->
      Whisper.transcribe env self p w
      = (Raises (raise_ FileNotFoundError ("Audio file not found: " +:+ path_str p)),
         w, []))
  /\ (forall e, path_exists w p = Raises e ->
      Whisper.transcribe env self p w = (Raises e, w, [])).
Proof.
  split; [|split].
  - intros e. unfold Whisper.transcribe.
    destruct (path_exists w p) as [[|]|e0] eqn:Hex.
    + destruct (Whisper.attempt env self p w) as [[[tried c] w1] t1] eqn:Htry.
      destruct (Whisper.cleanup env c w1) as [cleaned w2] eqn:Hclean.
      unfold value_of. cbn [fst]. intros [Htried | Hcleaned]%finally_class.
      * subst tried. destruct (attempt_class _ _ _ _ _ _ _ _ Htry); auto.
      * subst cleaned. right. right. right.
        unfold Whisper.cleanup in Hclean. destruct c as [wav|]; [|discriminate].
        assert (wav = Whisper.converted_path self p) as ->.
        { unfold Whisper.attempt in Htry.
          destruct (Whisper._convert_to_wav env self p w) as [[[wav'|e1] w0] t0] eqn:Hc;
            [|discriminate].
          apply convert_target in Hc. subst wav'.
          destruct (Whisper.model self _ w0) as [[t|e1] w3]; now injection Htry. }
        exists w1. destruct (path_exists w1 _) as [[|]|e1]; try discriminate.
        now injection Hclean as ->.
    + unfold value_of. cbn [fst]. intros [= <-]. now left.
    + unfold value_of. cbn [fst]. intros [= <-]. auto.
  - intros Hex. unfold Whisper.transcribe. now rewrite Hex.
  - intros e Hex. unfold Whisper.transcribe. now rewrite Hex.
Qed.

(** X17. The temporary WAV file does not outlive the call. On a file
    system where a file removed is gone: once the conversion produced the
    file, whether the model then answers or fails, the model was called
    on it and the world [transcribe] leaves has no such file, or the
    removal itself failed, or the look at the file before the removal
    raised, and then [transcribe] raises that error. The file is the one
    named after the input in the transcriber's temporary directory. *)
Theorem whisper_removes_converted_file (env : Whisper.Env W)
    (self : Whisper.WhisperTranscriber W) (p wav : Path) (w w1 : W) (t1 : list Call) :
  (forall q wa wb, Whisper.unlink env q wa = (Returns tt, wb) -> fs_exists wb q = false) ->
  path_exists w p = Returns true ->
  Whisper._convert_to_wav env self p w = (Returns wav, w1, t1) ->
  wav = Whisper.converted_path self p
  /\ calls_of (Whisper.transcribe env self p w) = t1 ++ [CallWhisper wav]
  /\ (fs_exists (world_of (Whisper.transcribe env self p w)) wav = false
      \/ (exists e wa,
            Whisper.unlink env wav wa
            = (Raises e, world_of (Whisper.transcribe env self p w)))
      \/ (exists e,
            path_exists (world_of (Whisper.transcribe env self p w)) wav = Raises e
            /\ value_of (Whisper.transcribe env self p w) = Raises e)).
Proof.
  intros Hunlink Hex Hconv. split; [exact (convert_target _ _ _ _ _ _ _ Hconv)|].
  unfold Whisper.transcribe, Whisper.attempt. rewrite Hex, Hconv.
  assert (Hclean : forall (tried : Result string) w2,
             let '(cleaned, w3) := Whisper.cleanup env (Some wav) w2 in
             fs_exists w3 wav = false
             \/ (exists e wa, Whisper.unlink env wav wa = (Raises e, w3))
             \/ (exists e, path_exists w3 wav = Raises e
                           /\ Whisper.finally_ tried cleaned = Raises e)).
  { intros tried w2. unfold Whisper.cleanup.
    destruct (path_exists w2 wav) as [[|]|e] eqn:Hw.
    - destruct (Whisper.unlink env wav w2) as [[[]|e] w3] eqn:Hu; cbn [snd].
      + left. exact (Hunlink _ _ _ Hu).
      + right. left. eauto.
    - left. unfold path_exists, examine in Hw.
      destruct (fs_denied w2 (path_str wav)); [discriminate|]. now injection Hw.
    - right. right. exists e. split; [exact Hw | reflexivity]. }
  destruct (Whisper.model self wav w1) as [[t|e] w2].
  - specialize (Hclean (Returns t) w2).
    destruct (Whisper.cleanup env (Some wav) w2) as [cleaned w3].
    split; [reflexivity | exact Hclean].
  - specialize (Hclean (Raises (Whisper.reraise p e)) w2).
    destruct (Whisper.cleanup env (Some wav) w2) as [cleaned w3].
    split; [reflexivity | exact Hclean].
Qed.

End WithWorld.

Lemma google_backend_outcomes_witness :
  process_single_audio_file Backstage.studio_google a_wav "2025-06-01" desk
  = (mkOutcome "audio/a.wav" "success"
       "Successfully processed and uploaded to Notion: https://www.notion.so/a"
       "https://www.notion.so/a",
     mkDesk (present desk) 1,
     [CallTranscribe a_wav;
      CallPublish "a" "2025-06-01" "" []
        "[Simulated Google STT transcript for a.wav using language en-US]" "a.wav";
      CallPagesCreate "db"])
  /\ process_single_audio_file Backstage.studio_google (mkPath "vault" "a.wav")
       "2025-06-01" desk
     = (mkOutcome "vault/a.wav" "error"
          "Transcription failed: [Errno 13] Permission denied: 'vault/a.wav'" "",
        desk, [CallTranscribe (mkPath "vault" "a.wav")]).
Proof.
  split.
  - rewrite (google_backend_outcomes Backstage.stenographer Backstage.studio_google
               a_wav "2025-06-01" desk); reflexivity.
  - rewrite (google_backend_outcomes Backstage.stenographer Backstage.studio_google
               (mkPath "vault" "a.wav") "2025-06-01" desk); reflexivity.
Defined.

Lemma whisper_loads_known_sizes_only_witness :
  exists t w', Whisper.init Backstage.whisper_env {[ "model_size" := VStr "huge" ]} desk
               = (Returns t, w')
               /\ Whisper.model_size t = "base".
Proof.
  eexists _, _. split; [reflexivity|].
  destruct (whisper_loads_known_sizes_only Backstage.whisper_env
              {[ "model_size" := VStr "huge" ]} desk) as (Hsize & _).
  destruct (Hsize _ _ eq_refl) as (_ & [Hbase | Hasked]); [exact Hbase|].
  vm_compute in Hasked. discriminate.
Defined.

Lemma whisper_removes_converted_file_witness :
  fs_exists (world_of (Whisper.transcribe Backstage.whisper_env Backstage.whisper_base
                         c_mp3 desk))
            (mkPath "/tmp/seshat_agent_temp_audio/whisper_42" "c_converted.wav") = false
  /\ calls_of (Whisper.transcribe Backstage.whisper_env Backstage.whisper_base c_mp3 desk)
     = [CallFfmpeg c_mp3 (mkPath "/tmp/seshat_agent_temp_audio/whisper_42" "c_converted.wav");
        CallWhisper (mkPath "/tmp/seshat_agent_temp_audio/whisper_42" "c_converted.wav")].
Proof.
  destruct (whisper_removes_converted_file Backstage.whisper_env Backstage.whisper_base
              c_mp3 (mkPath "/tmp/seshat_agent_temp_audio/whisper_42" "c_converted.wav")
              desk
              (Backstage.put (mkPath "/tmp/seshat_agent_temp_audio/whisper_42"
                                "c_converted.wav") desk)
              [CallFfmpeg c_mp3 (mkPath "/tmp/seshat_agent_temp_audio/whisper_42"
                                   "c_converted.wav")])
    as (_ & Hcalls & Hgone).
  - intros q wa wb [= <-]. unfold fs_exists, desk_fs, on_desk, Backstage.remove.
    cbn [present]. induction (present wa) as [|x xs IH]; [reflexivity|].
    cbn [List.filter]. destruct (String.eqb x (path_str q)) eqn:Hx; cbn [negb].
    + exact IH.
    + cbn [existsb]. rewrite String.eqb_sym, Hx. exact IH.
  - reflexivity.
  - reflexivity.
  - split; [|exact Hcalls]. reflexivity.
Defined.

Lemma whisper_transcribe_raises_witness :
  Whisper.transcribe Backstage.whisper_env Backstage.whisper_base gone_wav desk
  = (Raises (raise_ FileNotFoundError "Audio file not found: audio/gone.wav"), desk, [])
  /\ Whisper.transcribe Backstage.whisper_env Backstage.whisper_base
       (mkPath "vault" "a.wav") desk
     = (Raises (locked "vault/a.wav"), desk, []).
Proof.
  destruct (whisper_transcribe_raises Backstage.whisper_env Backstage.whisper_base
              gone_wav desk) as (_ & Hmissing & _).
  destruct (whisper_transcribe_raises Backstage.whisper_env Backstage.whisper_base
              (mkPath "vault" "a.wav") desk) as (_ & _ & Hlocked).
  split; [apply Hmissing; reflexivity | apply Hlocked; reflexivity].
Defined.

End BackendFacts.

(** ** The constructors of the services *)

Module ConstructorFacts.
Import PyStr Config Scenario.

Lemma is_empty_false (s : string) : is_empty s = false -> s <> "".
Proof. now destruct s. Qed.

Lemma is_empty_inv (s : string) : is_empty s = true -> s = "".
Proof. now destruct s. Qed.

Section WithWorld.
Context {W : Type}.

Lemma init_error_class (lib : NotionInit.Library W) (database_id : string) (e : Exn) :
  exn_class (NotionInit.init_error lib database_id e) = RuntimeError.
Proof.
  unfold NotionInit.init_error.
  destruct (class_eqb _ _); [|reflexivity].
  destruct (String.eqb _ _); [reflexivity|].
  destruct (String.eqb _ _); reflexivity.
Qed.

(** X18. The publishing handler exists only for a database that answered:
    when the constructor returns, the library is installed, both
    credentials are non-empty, a client was made with the key and the
    database was retrieved through it; the handler writes to that
    database through that client. When it raises, it raises [ValueError]
    for a missing credential, before anything remote is touched, and
    [RuntimeError] for everything else. *)
Theorem notion_handler_verified (lib : NotionInit.Library W)
    (api_key database_id : string) (w : W) :
  match NotionInit.init lib api_key database_id w with
  | (Returns h, w') =>
      NotionInit.installed lib = true /\ api_key <> "" /\ database_id <> ""
      /\ exists notion w1,
           NotionInit.new_client lib api_key w = (Returns notion, w1)
           /\ NotionInit.databases_retrieve notion database_id w1 = (Returns tt, w')
           /\ h = NotionHandler.mkHandler database_id
                    (NotionInit.client_pages_create notion)
  | (Raises e, w') =>
      (exn_class e = ValueError /\ w' = w /\ (api_key = "" \/ database_id = ""))
      \/ exn_class e = RuntimeError
  end.
Proof.
  unfold NotionInit.init.
  destruct (NotionInit.installed lib); cbn [negb]; [|now right].
  destruct (is_empty api_key) eqn:Hk.
  { left. apply is_empty_inv in Hk. auto. }
  destruct (is_empty database_id) eqn:Hd.
  { left. apply is_empty_inv in Hd. auto. }
  apply is_empty_false in Hk, Hd.
  destruct (NotionInit.new_client lib api_key w) as [[notion|e] w1] eqn:Hc.
  - destruct (NotionInit.databases_retrieve notion database_id w1) as [[[]|e] w2] eqn:Hr.
    + repeat split; try assumption. exists notion, w1. auto.
    + right. apply init_error_class.
  - right. apply init_error_class.
Qed.

(** X19. The analysis service exists only once the SDK accepted the key
    and built a model: when the constructor returns, the SDK is
    installed, the key is non-empty, [configure] accepted it and the model
    was built under the name the service records, the default one unless
    a non-empty name was given. When it raises, it raises [ValueError] for
    a missing key, before the SDK is touched, and [RuntimeError] for
    everything else. *)
Theorem summarizer_configured (lib : SummarizerInit.Library W)
    (api_key : string) (model_name : option string) (w : W) :
  match SummarizerInit.init lib api_key model_name w with
  | (Returns service, w') =>
      SummarizerInit.installed lib = true /\ api_key <> ""
      /\ (SummarizerService.model_name service = SummarizerInit.DEFAULT_MODEL_NAME
          \/ (model_name = Some (SummarizerService.model_name service)
              /\ SummarizerService.model_name service <> ""))
      /\ exists w1,
           SummarizerInit.configure lib api_key w = (Returns tt, w1)
           /\ SummarizerInit.GenerativeModel lib (SummarizerService.model_name service) w1
              = (Returns (SummarizerService.generate_content service), w')
  | (Raises e, w') =>
      (exn_class e = ValueError /\ w' = w /\ api_key = "")
      \/ exn_class e = RuntimeError
  end.
Proof.
  unfold SummarizerInit.init.
  destruct (SummarizerInit.installed lib); cbn [negb]; [|now right].
  destruct (is_empty api_key) eqn:Hk.
  { left. apply is_empty_inv in Hk. auto. }
  apply is_empty_false in Hk.
  destruct (SummarizerInit.configure lib api_key w) as [[[]|e] w1] eqn:Hc;
    [|now right].
  set (n := match model_name with
            | Some n => if is_empty n then SummarizerInit.DEFAULT_MODEL_NAME else n
            | None => SummarizerInit.DEFAULT_MODEL_NAME
            end).
  assert (Hn : n = SummarizerInit.DEFAULT_MODEL_NAME \/ (model_name = Some n /\ n <> "")).
  { subst n. destruct model_name as [m|]; [|now left].
    destruct (is_empty m) eqn:Hm; [now left|]. right.
    split; [reflexivity | now apply is_empty_false]. }
  destruct (SummarizerInit.GenerativeModel lib n w1) as [[model|e] w2] eqn:Hm;
    [|now right].
  cbn [SummarizerService.model_name SummarizerService.generate_content].
  repeat split; try assumption. exists w1. auto.
Qed.

End WithWorld.

End ConstructorFacts.

(** ** The services at start-up *)

Module StartupFacts.
Import PyStr Config Orchestrator Startup Scenario.

Lemma is_str_other (v : Value) (s : string) : v <> VStr s -> is_str v s = false.
Proof.
  destruct v as [|x|ty b t]; try reflexivity. intros Hne. cbn [is_str].
  apply String.eqb_neq. congruence.
Qed.

Section WithWorld.
Context {W : Type} `{FileSystem W}.

Lemma without_transcription (self : Orchestrator W) (p : Path) (d : string) (w : W) :
  transcription_service self = None ->
  process_single_audio_file self p d w
  = (mkOutcome (path_str p) "error"
       "Transcription service not available or failed to initialize." "", w, []).
Proof. intros Hts. unfold process_single_audio_file. now rewrite Hts. Qed.

Lemma initialize_services_transcription (libs : Libraries W)
    (settings : gmap string Value) (w : W) :
  transcription_service (fst (_initialize_services libs settings w))
  = fst (initialize_transcription libs settings w).
Proof.
  unfold _initialize_services.
  destruct (initialize_transcription libs settings w) as [ts w1].
  destruct (initialize_summarizer libs settings w1) as [ss w2].
  destruct (initialize_notion libs settings w2) as [nh w3]. reflexivity.
Qed.

Lemma initialize_services_notion (libs : Libraries W)
    (settings : gmap string Value) (w : W) :
  truthy (get settings "notion_api_key") && truthy (get settings "notion_database_id")
  = false ->
  notion_handler (fst (_initialize_services libs settings w)) = None.
Proof.
  intros Hcred. unfold _initialize_services.
  destruct (initialize_transcription libs settings w) as [ts w1].
  destruct (initialize_summarizer libs settings w1) as [ss w2].
  unfold initialize_notion. rewrite Hcred. reflexivity.
Qed.

(** X20. Start-up binds no transcription service, and this step leaves the
    world as it was, when the transcription classes could not be imported,
    when the configured name is neither of the two known ones, when the
    Google backend is selected without a key path, or when Whisper is
    selected and its library is not installed. Every file handed to the
    orchestrator built this way is then an error that names the missing
    service, and nothing is called for it. *)
Theorem misconfigured_transcription (libs : Libraries W)
    (settings : gmap string Value) (w : W) :
  transcribers_imported libs = false
  \/ (get_or settings "transcription_service" "OpenAI Whisper" <> VStr "OpenAI Whisper"
      /\ get_or settings "transcription_service" "OpenAI Whisper"
         <> VStr "Google Cloud Speech-to-Text")
  \/ (get_or settings "transcription_service" "OpenAI Whisper"
      = VStr "Google Cloud Speech-to-Text"
      /\ truthy (get settings "google_stt_api_key_path") = false)
  \/ (get_or settings "transcription_service" "OpenAI Whisper" = VStr "OpenAI Whisper"
      /\ Whisper.whisper_installed (whisper libs) = false) ->
  initialize_transcription libs settings w = (None, w)
  /\ forall p d w0,
       process_single_audio_file (fst (_initialize_services libs settings w)) p d w0
       = (mkOutcome (path_str p) "error"
            "Transcription service not available or failed to initialize." "", w0, []).
Proof.
  intros Hbad.
  assert (Hnone : initialize_transcription libs settings w = (None, w)).
  { unfold initialize_transcription, select_transcription.
    destruct Hbad as [Himp | [(Hw & Hg) | [(Hg & Hkey) | (Hw & Hlib)]]].
    - destruct (is_str _ "OpenAI Whisper");
        [|destruct (is_str _ "Google Cloud Speech-to-Text")];
        unfold construct; rewrite ?Himp; reflexivity.
    - apply is_str_other in Hw, Hg. now rewrite Hw, Hg.
    - rewrite Hg. cbn [is_str String.eqb Ascii.eqb Bool.eqb].
      unfold construct. destruct (transcribers_imported libs); [|reflexivity].
      cbn [negb]. unfold GoogleSTT.init, config_get.
      rewrite lookup_insert_eq. cbn [default]. simpl. rewrite Hkey. reflexivity.
    - rewrite Hw. cbn [is_str String.eqb Ascii.eqb Bool.eqb].
      unfold construct. destruct (transcribers_imported libs); [|reflexivity].
      cbn [negb]. unfold Whisper.init. rewrite Hlib. reflexivity. }
  split; [exact Hnone|].
  intros p d w0. apply without_transcription.
  rewrite initialize_services_transcription, Hnone. reflexivity.
Qed.

End WithWorld.

Lemma misconfigured_transcription_witness :
  process_single_audio_file
    (fst (_initialize_services Backstage.libraries
            {[ "transcription_service" := VStr "Google Cloud Speech-to-Text" ]} desk))
    a_wav "2025-06-01" desk
  = (mkOutcome "audio/a.wav" "error"
       "Transcription service not available or failed to initialize." "", desk, []).
Proof.
  destruct (misconfigured_transcription Backstage.libraries
              {[ "transcription_service" := VStr "Google Cloud Speech-to-Text" ]} desk)
    as (_ & Herr).
  - right. right. left. split; reflexivity.
  - apply Herr.
Defined.

End StartupFacts.

(** ** The settings file *)

Module ConfigFacts.
Import PyStr ConfigManager Scenario.

Section WithWorld.
Context {W : Type} `{FileSystem W} {V : Type}.

Lemma union_covered (settings defaults : gmap string V) :
  (forall k, is_Some (defaults !! k) -> is_Some (settings !! k)) ->
  settings ∪ defaults = settings.
Proof.
  intros Hcov. apply map_eq. intros k. rewrite lookup_union.
  destruct (settings !! k) as [v|] eqn:Hs.
  - now destruct (defaults !! k).
  - destruct (defaults !! k) as [d|] eqn:Hd; [|reflexivity].
    destruct (Hcov k) as (v & Hv); [now rewrite Hd | congruence].
Qed.

(** X21. [load_settings] raises only when the settings directory cannot
    be created, or when the settings file cannot be examined once the
    directory is there. The settings it returns hold every default key;
    an entry of the file wins over the default and a key the defaults do
    not know is kept; every entry comes from the file or from the
    defaults; when the file is missing or cannot be read, the settings
    are the defaults. *)
Theorem load_settings_backfills (env : Env W V) (w : W) :
  match load_settings env w with
  | (Raises e, w1) =>
      mkdir env (SETTINGS_DIR env) w = (Raises e, w1)
      \/ (mkdir env (SETTINGS_DIR env) w = (Returns tt, w1)
          /\ path_exists w1 (SETTINGS_FILE env) = Raises e)
  | (Returns settings, w1) =>
      mkdir env (SETTINGS_DIR env) w = (Returns tt, w1)
      /\ (forall k, is_Some (get_default_settings env !! k) -> is_Some (settings !! k))
      /\ (forall loaded, path_exists w1 (SETTINGS_FILE env) = Returns true ->
            read_json env w1 (SETTINGS_FILE env) = Returns loaded ->
            forall k, settings !! k
                      = match loaded !! k with
                        | Some v => Some v
                        | None => get_default_settings env !! k
                        end)
      /\ (path_exists w1 (SETTINGS_FILE env) = Returns false
          \/ (exists e, read_json env w1 (SETTINGS_FILE env) = Raises e) ->
          settings = get_default_settings env)
  end.
Proof.
  unfold load_settings, ensure_config_dir_exists.
  destruct (mkdir env (SETTINGS_DIR env) w) as [[[]|e] w1]; [|now left].
  destruct (path_exists w1 (SETTINGS_FILE env)) as [[|]|e] eqn:Hex.
  - destruct (read_json env w1 (SETTINGS_FILE env)) as [loaded|e] eqn:Hread.
    + split; [reflexivity|]. split; [|split].
      * intros k Hk. apply lookup_union_is_Some. now right.
      * intros l _ Hl k. assert (l = loaded) as -> by congruence.
        rewrite lookup_union.
        destruct (loaded !! k), (get_default_settings env !! k); reflexivity.
      * intros [Hno | (e & He)]; congruence.
    + split; [reflexivity|]. split; [auto|]. split; [|reflexivity].
      intros l _ Hl. congruence.
  - split; [reflexivity|]. split; [auto|]. split; [|reflexivity].
    intros l Hl. congruence.
  - right. split; [reflexivity | exact Hex].
Qed.

(** X22. What was saved is what is loaded: on a file system where a file
    written is found to exist and can be read back, and where creating
    the settings directory again leaves the file alone, [load_settings]
    after [save_settings] returns the saved settings, completed with the
    defaults for the keys they lack; settings that hold every default key
    come back unchanged. *)
Theorem saved_settings_load_back (env : Env W V) (settings : gmap string V)
    (w w2 w3 : W) :
  (forall p d wa wb, write_json env p d wa = (Returns tt, wb) ->
     path_exists wb p = Returns true /\ read_json env wb p = Returns d) ->
  (forall wa wb, mkdir env (SETTINGS_DIR env) wa = (Returns tt, wb) ->
     path_exists wb (SETTINGS_FILE env) = path_exists wa (SETTINGS_FILE env)
     /\ read_json env wb (SETTINGS_FILE env) = read_json env wa (SETTINGS_FILE env)) ->
  save_settings env settings w = (Returns tt, w2) ->
  mkdir env (SETTINGS_DIR env) w2 = (Returns tt, w3) ->
  load_settings env w2 = (Returns (settings ∪ get_default_settings env), w3)
  /\ ((forall k, is_Some (get_default_settings env !! k) -> is_Some (settings !! k)) ->
      load_settings env w2 = (Returns settings, w3)).
Proof.
  intros Hwrite Hmkdir Hsave Hagain.
  assert (Hload : load_settings env w2
                  = (Returns (settings ∪ get_default_settings env), w3)).
  { unfold save_settings, ensure_config_dir_exists in Hsave.
    destruct (mkdir env (SETTINGS_DIR env) w) as [[[]|e] w1]; [|discriminate].
    destruct (Hwrite _ _ _ _ Hsave) as (Hex & Hread).
    destruct (Hmkdir _ _ Hagain) as (Hex' & Hread').
    unfold load_settings, ensure_config_dir_exists.
    rewrite Hagain, Hex', Hex, Hread', Hread. reflexivity. }
  split; [exact Hload|].
  intros Hcov. rewrite Hload. now rewrite (union_covered _ _ Hcov).
Qed.

End WithWorld.

Lemma load_settings_backfills_witness :
  exists settings,
    load_settings Backstage.shelf_home (Backstage.mkShelf (Some Backstage.bobs_settings))
    = (Returns settings, Backstage.mkShelf (Some Backstage.bobs_settings))
    /\ settings !! "audio_input_folder" = Some (Config.VStr "/home/bob/meetings")
    /\ settings !! "whisper_model_size" = Some (Config.VStr "base").
Proof.
  pose proof (load_settings_backfills Backstage.shelf_home
                (Backstage.mkShelf (Some Backstage.bobs_settings))) as Hload.
  destruct (load_settings Backstage.shelf_home
              (Backstage.mkShelf (Some Backstage.bobs_settings)))
    as [[settings|e] w1] eqn:Hrun; [|discriminate].
  destruct Hload as ([= <-] & _ & Hfile & _).
  exists settings. split; [reflexivity|].
  split; rewrite (Hfile Backstage.bobs_settings eq_refl eq_refl); reflexivity.
Defined.

Lemma saved_settings_load_back_witness :
  fst (load_settings Backstage.shelf_home
         (Backstage.mkShelf (Some Backstage.bobs_settings)))
  = Returns (Backstage.bobs_settings ∪ get_default_settings Backstage.shelf_home).
Proof.
  destruct (saved_settings_load_back Backstage.shelf_home Backstage.bobs_settings
              (Backstage.mkShelf None)
              (Backstage.mkShelf (Some Backstage.bobs_settings))
              (Backstage.mkShelf (Some Backstage.bobs_settings))) as (Hload & _).
  - intros p d wa wb [= <-]. split; reflexivity.
  - intros wa wb [= <-]. split; reflexivity.
  - reflexivity.
  - reflexivity.
  - now rewrite Hload.
Defined.

End ConfigFacts.

(** ** The command line *)

Module MainFacts.
Import PyStr Config Orchestrator OrchestratorFacts Startup StartupFacts Main Scenario.

Lemma override_other (k k' : string) (arg : option string) (s : gmap string Value) :
  k <> k' -> override k arg s !! k' = s !! k'.
Proof.
  intros Hk. unfold override. destruct (given arg); [|reflexivity].
  now rewrite lookup_insert_ne.
Qed.

Lemma override_same (k : string) (arg : option string) (s : gmap string Value) :
  override k arg s !! k
  = match given arg with Some a => Some (VStr a) | None => s !! k end.
Proof.
  unfold override. destruct (given arg); [|reflexivity].
  now rewrite lookup_insert_eq.
Qed.

Lemma given_idempotent (x : option string) : given (given x) = given x.
Proof.
  destruct x as [a|]; [|reflexivity]. cbn [given].
  destruct (is_empty a) eqn:Ha; [reflexivity|]. cbn [given]. now rewrite Ha.
Qed.

Lemma given_truthy (arg : option string) (a : string) :
  given arg = Some a -> truthy (VStr a) = true.
Proof.
  destruct arg as [x|]; [|discriminate]. cbn [given].
  destruct (is_empty x) eqn:Hx; [discriminate|]. intros [= <-].
  cbn [truthy]. now rewrite Hx.
Qed.

Lemma tally_counts (results : list Outcome) : forall s f,
  tally results s f
  = (s + length (List.filter (fun o => String.eqb (status o) "success") results),
     f + length (List.filter (fun o => negb (String.eqb (status o) "success")) results)).
Proof.
  induction results as [|o rest IH]; intros s f; cbn [tally List.filter].
  - cbn [length]. now rewrite !Nat.add_0_r.
  - destruct (String.eqb (status o) "success"); cbn [negb length];
      rewrite IH; f_equal; lia.
Qed.

Lemma filter_partition {A} (f : A -> bool) (l : list A) :
  length (List.filter f l) + length (List.filter (fun a => negb (f a)) l) = length l.
Proof.
  induction l as [|a l IH]; [reflexivity|].
  cbn [List.filter]. destruct (f a); cbn [negb length]; lia.
Qed.

Lemma filter_none {A} (f : A -> bool) (l : list A) :
  Forall (fun a => f a = false) l -> List.filter f l = [].
Proof.
  induction 1 as [|a l Ha _ IH]; [reflexivity|].
  cbn [List.filter]. now rewrite Ha.
Qed.

Lemma recordings_nonempty (home : string) :
  path_str (joinpath home "Recordings") <> "".
Proof.
  unfold path_str, joinpath. cbn [parent name].
  destruct (String.eqb home "."); [discriminate|].
  destruct (String.eqb home "/"); [discriminate|].
  now destruct home.
Qed.

Section WithWorld.
Context {W : Type} `{FileSystem W}.

Lemma default_folder (cfg : ConfigManager.Env W Value) :
  ConfigManager.get_default_settings cfg !! "audio_input_folder"
  = Some (ConfigManager.of_str cfg (path_str (joinpath (ConfigManager.home cfg) "Recordings"))).
Proof.
  unfold ConfigManager.get_default_settings.
  rewrite !lookup_insert_ne by discriminate. now rewrite lookup_insert_eq.
Qed.

(** Without a publishing handler nothing is ever a success. *)
Lemma unpublished_single (self : Orchestrator W) (p : Path) (d : string) (w : W) :
  notion_handler self = None ->
  status (value_of (process_single_audio_file self p d w)) = "error".
Proof.
  intros Hnh. unfold process_single_audio_file.
  destruct (transcription_service self) as [ts|]; [|reflexivity].
  unfold bind at 1. unfold invoke.
  destruct (transcribe ts p w) as [[[t|e] w1] t1]; [|reflexivity].
  destruct (is_empty t || is_empty (strip t)); [reflexivity|].
  unfold bind. destruct (summarize self t p w1) as [[sd w2] t2].
  unfold publish. rewrite Hnh. reflexivity.
Qed.

Lemma unpublished_item (self : Orchestrator W) (dm : option (gmap string string))
    (p : Path) (w : W) :
  notion_handler self = None ->
  status (value_of (process_item self dm p w)) = "error".
Proof.
  intros Hnh. unfold process_item, bind, gets.
  destruct (resolve_date dm p w) as [skipped|d] eqn:Hd.
  - unfold resolve_date in Hd.
    destruct (mapped_date dm (name p)); [discriminate|].
    destruct (InputManager.get_file_metadata w p) as [m|e]; [discriminate|].
    destruct (class_eqb _ _); injection Hd as <-; reflexivity.
  - destruct (is_empty d); [reflexivity|].
    pose proof (unpublished_single self p d w Hnh) as Hs.
    destruct (process_single_audio_file self p d w) as [[o w1] t1]. exact Hs.
Qed.

Lemma unpublished_files (self : Orchestrator W) (dm : option (gmap string string))
    (files : list Path) : forall w,
  notion_handler self = None ->
  Forall (fun o => status o = "error")
         (value_of (one_outcome_per_file self dm files w)).
Proof.
  induction files as [|p rest IH]; intros w Hnh; [constructor|].
  cbn [one_outcome_per_file]. unfold bind.
  pose proof (unpublished_item self dm p w Hnh) as Hp.
  destruct (process_item self dm p w) as [[o w1] t1].
  specialize (IH w1 Hnh).
  destruct (one_outcome_per_file self dm rest w1) as [[rs w2] t2].
  constructor; assumption.
Qed.

Lemma unpublished_folder (self : Orchestrator W) (folder : string)
    (dm : option (gmap string string)) (w : W) (results : list Outcome) :
  notion_handler self = None ->
  value_of (process_folder self folder dm w) = Returns results ->
  Forall (fun o => status o = "error") results.
Proof.
  intros Hnh. unfold process_folder.
  destruct (no_services self).
  { intros [= <-]. repeat constructor. }
  unfold bind, gets.
  destruct (InputManager.get_audio_files w folder) as [[|q rest]|e].
  - intros [= <-]. constructor.
  - rewrite process_files_acc.
    pose proof (unpublished_files self dm (q :: rest) w Hnh) as Hall.
    destruct (one_outcome_per_file self dm (q :: rest) w) as [[rs w'] t].
    intros [= <-]. exact Hall.
  - discriminate.
Qed.

(** What [main] reports, when it reports: the records of [process_folder]
    on the chosen folder, and their tally. *)
Lemma main_report (cfg : ConfigManager.Env W Value) (libs : Libraries W)
    (lib : Pathlib W) (args : Args) (w : W)
    (report : Report) (w' : W) (t : list Call) :
  main cfg libs lib args w = (Returns (Some report), w', t) ->
  exists settings w1 folder,
    ConfigManager.load_settings cfg w = (Returns settings, w1)
    /\ folder_to_process args (apply_overrides args settings) = VStr folder
    /\ value_of (process_folder
                   (fst (_initialize_services libs (apply_overrides args settings) w1))
                   folder None
                   (snd (_initialize_services libs (apply_overrides args settings) w1)))
       = Returns (results report)
    /\ (successful_uploads report, failed_processing report)
       = tally (results report) 0 0.
Proof.
  unfold main.
  destruct (ConfigManager.load_settings cfg w) as [[settings|e] w1]; [|discriminate].
  cbv zeta.
  destruct (_initialize_services libs (apply_overrides args settings) w1)
    as [orch w2] eqn:Hinit.
  destruct (folder_to_process args (apply_overrides args settings))
    as [|folder|ty b text] eqn:Hfolder; cbn [Path_ rbind]; try discriminate.
  destruct (examine w2 folder (folder_exists lib w2 folder)) as [[|]|e];
    cbn [rbind]; try discriminate.
  destruct (process_folder orch folder None w2) as [[[rs|e] w3] t3] eqn:Hrun;
    [|discriminate].
  destruct (tally rs 0 0) as [s f] eqn:Ht.
  intros [= <- _ _]. exists settings, w1, folder. rewrite Hinit.
  cbn [fst snd results successful_uploads failed_processing].
  rewrite Hrun. auto.
Qed.

(** X23. When the command line names no folder, the folder comes from the
    settings, and since the defaults are filled in it is the user's
    [Recordings] directory unless the settings file says otherwise: with
    no file, or an unreadable one, or one without the entry. With an
    entry in the file, the folder is that entry when it is true, and the
    current directory when it is not: an empty text, but also [null],
    [false], zero, an empty list. The folder is therefore never the empty
    text. An entry that is true and is not a string is taken as the
    folder as well, and the run then raises the [TypeError] of [Path],
    once the services are initialised and before any file is looked
    at. *)
Theorem folder_when_not_given (cfg : ConfigManager.Env W Value) (libs : Libraries W)
    (lib : Pathlib W) (args : Args) (w : W) (settings : gmap string Value) (w1 : W) :
  (forall s, ConfigManager.of_str cfg s = VStr s) ->
  ConfigManager.load_settings cfg w = (Returns settings, w1) ->
  given (folder_path args) = None ->
  truthy (folder_to_process args (apply_overrides args settings)) = true
  /\ (path_exists w1 (ConfigManager.SETTINGS_FILE cfg) = Returns false
      \/ (exists e, ConfigManager.read_json cfg w1 (ConfigManager.SETTINGS_FILE cfg)
                    = Raises e) ->
      folder_to_process args (apply_overrides args settings)
      = VStr (path_str (joinpath (ConfigManager.home cfg) "Recordings")))
  /\ (forall loaded,
        path_exists w1 (ConfigManager.SETTINGS_FILE cfg) = Returns true ->
        ConfigManager.read_json cfg w1 (ConfigManager.SETTINGS_FILE cfg) = Returns loaded ->
        folder_to_process args (apply_overrides args settings)
        = match loaded !! "audio_input_folder" with
          | Some folder => if truthy folder then folder else VStr "."
          | None => VStr (path_str (joinpath (ConfigManager.home cfg) "Recordings"))
          end)
  /\ (forall type_name truth text,
        folder_to_process args (apply_overrides args settings)
        = VOther type_name truth text ->
        main cfg libs lib args w
        = (Raises (not_a_path lib type_name),
           snd (_initialize_services libs (apply_overrides args settings) w1), [])).
Proof.
  intros Hstr Hload Hcli.
  assert (Hfolder : folder_to_process args (apply_overrides args settings)
                    = if truthy (get settings "audio_input_folder")
                      then get settings "audio_input_folder" else VStr ".").
  { unfold folder_to_process. rewrite Hcli. unfold apply_overrides, get.
    now rewrite !override_other by discriminate. }
  assert (Hrecordings :
            truthy (VStr (path_str (joinpath (ConfigManager.home cfg) "Recordings")))
            = true).
  { cbn [truthy]. pose proof (recordings_nonempty (ConfigManager.home cfg)) as Hne.
    now destruct (path_str _). }
  assert (Hdefault : get (ConfigManager.get_default_settings cfg) "audio_input_folder"
                     = VStr (path_str (joinpath (ConfigManager.home cfg) "Recordings"))).
  { unfold get. now rewrite default_folder, Hstr. }
  split; [|split; [|split]].
  - rewrite Hfolder. destruct (truthy (get settings "audio_input_folder")) eqn:Ht;
      [exact Ht | reflexivity].
  - rewrite Hfolder. intros Hnofile.
    assert (settings = ConfigManager.get_default_settings cfg) as ->.
    { unfold ConfigManager.load_settings, ConfigManager.ensure_config_dir_exists in Hload.
      destruct (ConfigManager.mkdir cfg _ w) as [[[]|e] w0]; [|discriminate].
      destruct (path_exists w0 _) as [[|]|e] eqn:Hex; try discriminate.
      - destruct (ConfigManager.read_json cfg w0 _) as [loaded|e] eqn:Hread;
          injection Hload as <- <-; [|reflexivity].
        destruct Hnofile as [Hno | (e & He)]; congruence.
      - now injection Hload as <- <-. }
    now rewrite Hdefault, Hrecordings.
  - intros loaded Hex Hread. rewrite Hfolder.
    assert (settings = loaded ∪ ConfigManager.get_default_settings cfg) as ->.
    { unfold ConfigManager.load_settings, ConfigManager.ensure_config_dir_exists in Hload.
      destruct (ConfigManager.mkdir cfg _ w) as [[[]|e] w0]; [|discriminate].
      destruct (path_exists w0 _) as [[|]|e] eqn:Hex0; try discriminate.
      - destruct (ConfigManager.read_json cfg w0 _) as [l|e] eqn:Hread0;
          injection Hload as <- <-; congruence.
      - injection Hload as <- <-. congruence. }
    unfold get at 1 2. rewrite lookup_union.
    destruct (loaded !! "audio_input_folder") as [v|] eqn:Hv.
    + destruct (ConfigManager.get_default_settings cfg !! "audio_input_folder");
        reflexivity.
    + fold (get (ConfigManager.get_default_settings cfg) "audio_input_folder") in Hdefault.
      unfold get in Hdefault.
      destruct (ConfigManager.get_default_settings cfg !! "audio_input_folder") as [v|];
        cbn [default] in Hdefault |- *.
      * change (None ∪ Some v) with (Some v). cbn [default].
        rewrite Hdefault, Hrecordings. reflexivity.
      * discriminate.
  - intros type_name truth text Hother. unfold main. rewrite Hload. cbv zeta.
    destruct (_initialize_services libs (apply_overrides args settings) w1)
      as [orch w2].
    rewrite Hother. reflexivity.
Qed.

(** X24. The two counters of a run add up to the number of records it
    reports: the first counts the records whose status is [success], the
    second all the others. *)
Theorem report_adds_up (cfg : ConfigManager.Env W Value) (libs : Libraries W)
    (lib : Pathlib W) (args : Args) (w : W)
    (report : Report) (w' : W) (t : list Call) :
  main cfg libs lib args w = (Returns (Some report), w', t) ->
  successful_uploads report + failed_processing report = length (results report)
  /\ successful_uploads report
     = length (List.filter (fun o => String.eqb (status o) "success") (results report))
  /\ failed_processing report
     = length (List.filter (fun o => negb (String.eqb (status o) "success"))
                 (results report)).
Proof.
  intros Hmain.
  destruct (main_report cfg libs lib args w report w' t Hmain)
    as (settings & w1 & folder & _ & _ & _ & Htally).
  rewrite tally_counts in Htally. injection Htally as Hs Hf.
  rewrite Hs, Hf. cbn [Nat.add]. split; [apply filter_partition|].
  split; reflexivity.
Qed.

(** X25. Without both credentials of the workspace, each of them taken
    from the command line or else from the settings, a run uploads
    nothing: every record it reports is an error, the count of uploads is
    zero and the count of failures is the number of records. A credential
    is missing when it is not there or is not true: empty, or [null],
    [false], zero. *)
Theorem no_credentials_no_upload (cfg : ConfigManager.Env W Value) (libs : Libraries W)
    (lib : Pathlib W) (args : Args) (w : W)
    (settings : gmap string Value) (w1 : W)
    (report : Report) (w' : W) (t : list Call) :
  ConfigManager.load_settings cfg w = (Returns settings, w1) ->
  (given (notion_api_key args) = None /\ truthy (get settings "notion_api_key") = false)
  \/ (given (notion_db_id args) = None
      /\ truthy (get settings "notion_database_id") = false) ->
  main cfg libs lib args w = (Returns (Some report), w', t) ->
  Forall (fun o => status o = "error") (results report)
  /\ successful_uploads report = 0
  /\ failed_processing report = length (results report).
Proof.
  intros Hload Hcred Hmain.
  destruct (main_report cfg libs lib args w report w' t Hmain)
    as (settings' & w1' & folder & Hload' & _ & Hresults & Htally).
  rewrite Hload in Hload'. injection Hload' as <- <-.
  assert (Hnone : truthy (get (apply_overrides args settings) "notion_api_key")
                  && truthy (get (apply_overrides args settings) "notion_database_id")
                  = false).
  { unfold get in *. unfold apply_overrides.
    rewrite (override_other _ "notion_api_key") by discriminate.
    rewrite (override_other _ "notion_api_key") by discriminate.
    rewrite (override_other _ "notion_api_key") by discriminate.
    rewrite (override_other _ "notion_database_id") by discriminate.
    rewrite (override_other _ "notion_database_id") by discriminate.
    rewrite (override_same "notion_database_id").
    rewrite (override_other _ "notion_database_id") by discriminate.
    rewrite (override_same "notion_api_key").
    destruct Hcred as [(Ha & Hs) | (Ha & Hs)]; rewrite Ha.
    - now rewrite Hs.
    - rewrite Hs. apply andb_false_r. }
  pose proof (unpublished_folder _ _ _ _ _
                (initialize_services_notion libs _ w1 Hnone) Hresults) as Hall.
  split; [exact Hall|].
  rewrite tally_counts in Htally. injection Htally as Hs Hf.
  assert (Hnosuccess : List.filter (fun o => String.eqb (status o) "success")
                                   (results report) = []).
  { apply filter_none. eapply Forall_impl; [exact Hall|].
    intros o Ho. cbn beta in Ho |- *. now rewrite Ho. }
  split.
  - rewrite Hs, Hnosuccess. reflexivity.
  - rewrite Hf. cbn [Nat.add].
    pose proof (filter_partition (fun o => String.eqb (status o) "success")
                  (results report)) as Hsum.
    rewrite Hnosuccess in Hsum. exact Hsum.
Qed.

End WithWorld.

Lemma folder_when_not_given_witness :
  folder_to_process (mkArgs None None None None None)
    (apply_overrides (mkArgs None None None None None)
       (Backstage.no_folder ∪ ConfigManager.get_default_settings Backstage.shelf_home))
  = VStr "."
  /\ main Backstage.shelf_home Backstage.bare_libraries Backstage.shelf_paths
       (mkArgs None None None None None)
       (Backstage.mkShelf (Some Backstage.numbered_folder))
     = (Raises (Backstage.not_a_path "int"),
        Backstage.mkShelf (Some Backstage.numbered_folder), []).
Proof.
  split.
  - destruct (folder_when_not_given Backstage.shelf_home Backstage.bare_libraries
                Backstage.shelf_paths (mkArgs None None None None None)
                (Backstage.mkShelf (Some Backstage.no_folder))
                (Backstage.no_folder
                   ∪ ConfigManager.get_default_settings Backstage.shelf_home)
                (Backstage.mkShelf (Some Backstage.no_folder)))
      as (_ & _ & Hfile & _); [reflexivity | reflexivity | reflexivity |].
    rewrite (Hfile Backstage.no_folder eq_refl eq_refl). reflexivity.
  - destruct (folder_when_not_given Backstage.shelf_home Backstage.bare_libraries
                Backstage.shelf_paths (mkArgs None None None None None)
                (Backstage.mkShelf (Some Backstage.numbered_folder))
                (Backstage.numbered_folder
                   ∪ ConfigManager.get_default_settings Backstage.shelf_home)
                (Backstage.mkShelf (Some Backstage.numbered_folder)))
      as (_ & _ & _ & Hraise); [reflexivity | reflexivity | reflexivity |].
    rewrite (Hraise "int" true "7"); [reflexivity | vm_compute; reflexivity].
Defined.

Lemma report_adds_up_witness :
  exists report w' t,
    main Backstage.fresh_home Backstage.libraries Backstage.desk_paths
         Backstage.only_folder desk = (Returns (Some report), w', t)
    /\ length (results report) = 2
    /\ successful_uploads report + failed_processing report = 2.
Proof.
  eexists _, _, _. split; [vm_compute; reflexivity|].
  split; [reflexivity|].
  refine (proj1 (report_adds_up Backstage.fresh_home Backstage.libraries
                   Backstage.desk_paths Backstage.only_folder desk _ _ _ _)).
  vm_compute. reflexivity.
Defined.

Lemma no_credentials_no_upload_witness :
  exists report w' t,
    main Backstage.fresh_home Backstage.libraries Backstage.desk_paths
         Backstage.only_folder desk = (Returns (Some report), w', t)
    /\ map status (results report) = ["error"; "error"]
    /\ successful_uploads report = 0.
Proof.
  eexists _, _, _. split; [vm_compute; reflexivity|].
  split; [reflexivity|].
  refine (proj1 (proj2 (no_credentials_no_upload Backstage.fresh_home Backstage.libraries
                          Backstage.desk_paths Backstage.only_folder desk
                          (ConfigManager.get_default_settings Backstage.fresh_home)
                          desk _ _ _ _ _ _))).
  - reflexivity.
  - left. split; reflexivity.
  - vm_compute. reflexivity.
Defined.

End MainFacts.

(** ** The six-facet analysis *)

Module AnalyzerFacts.
Import PyStr MeetingAnalyzer Scenario.

Section WithWorld.
Context {W : Type}.

Lemma extract_shape (self : Analyzer W) (items : list (string * string)) : forall w,
  map fst (value_of (extract self items w)) = map fst items
  /\ calls_of (extract self items w) = map (fun item => CallModel (snd item)) items
  /\ Forall2 (fun item res =>
                exists w0, snd res
                           = match fst (generate_text self (snd item) w0) with
                             | Returns t => strip t
                             | Raises _ => "ERROR"
                             end)
             items (value_of (extract self items w)).
Proof.
  induction items as [|[key prompt] rest IH]; intros w.
  - repeat split. constructor.
  - cbn [extract]. unfold _run_prompt, bind, call, ret. cbv beta.
    destruct (generate_text self prompt w) as [r w1] eqn:Hgen.
    destruct (IH w1) as (Hkeys & Hcalls & Hvalues).
    destruct (extract self rest w1) as [[others w2] t2].
    unfold value_of, calls_of in *. cbn [fst snd map app] in *.
    rewrite app_nil_r.
    split; [now rewrite Hkeys|]. split; [now rewrite Hcalls|].
    constructor; [|exact Hvalues].
    exists w. cbn [fst snd]. rewrite Hgen. cbn [fst]. now destruct r.
Qed.

(** X26. When the transcript can be read, the analysis always returns, with
    exactly the six facets in their order, after exactly one model call per
    facet, each with that facet's prompt; every entry comes from its own
    call, as the stripped answer or, when that call failed, as the text
    [ERROR], so that a failing facet costs no other facet. When the
    transcript cannot be read, the error propagates and the model is not
    called. *)
Theorem six_facets (self : Analyzer W) (p : Path) (w : W) :
  match read_text self w p with
  | Raises e => analyze self p w = (Raises e, w, [])
  | Returns transcript =>
      exists results,
        value_of (analyze self p w) = Returns results
        /\ map fst results
           = ["summary"; "participants"; "tasks"; "deadlines"; "decisions"; "insights"]
        /\ calls_of (analyze self p w)
           = map (fun item => CallModel (snd item)) (prompts transcript)
        /\ Forall2 (fun item res =>
                      exists w0, snd res
                                 = match fst (generate_text self (snd item) w0) with
                                   | Returns t => strip t
                                   | Raises _ => "ERROR"
                                   end)
                   (prompts transcript) results
  end.
Proof.
  unfold analyze. destruct (read_text self w p) as [transcript|e]; [|reflexivity].
  destruct (extract_shape self (prompts transcript) w) as (Hkeys & Hcalls & Hvalues).
  destruct (extract self (prompts transcript) w) as [[results w1] t].
  exists results. repeat split; assumption.
Qed.

End WithWorld.

Lemma six_facets_witness :
  exists results,
    value_of (analyze Backstage.analyst a_wav desk) = Returns results
    /\ map fst results
       = ["summary"; "participants"; "tasks"; "deadlines"; "decisions"; "insights"]
    /\ results !! 3 = Some ("deadlines", "ERROR")
    /\ results !! 4 = Some ("decisions", "ok").
Proof.
  pose proof (six_facets Backstage.analyst a_wav desk) as Hsix. hnf in Hsix.
  destruct Hsix as (results & Hvalue & Hkeys & _).
  exists results. split; [exact Hvalue|]. split; [exact Hkeys|].
  injection Hvalue as <-. split; reflexivity.
Defined.

End AnalyzerFacts.

(** ** The page of a meeting *)

Module WriterFacts.
Import PyStr MeetingAnalyzer NotionWriter Scenario.

Lemma unbulleted_task (line : string) :
  bulleted (strip line) = false -> task_block line = None.
Proof.
  intros Hb. unfold task_block. cbv zeta.
  assert (Hstars : startswith "* **" (strip line) || startswith "- **" (strip line)
                   = false).
  { unfold bulleted, startswith in *. destruct (strip line) as [|c r]; [reflexivity|].
    cbn [String.prefix] in Hb |- *.
    destruct (ascii_dec "*" c); destruct (ascii_dec "-" c); try congruence;
      destruct r; cbn [String.prefix orb] in Hb |- *; try discriminate; reflexivity. }
  now rewrite Hstars, Hb.
Qed.

Lemma unbulleted_markdown (line : string) :
  bulleted (strip line) = false ->
  markdown_block line = if is_empty (strip line) then None
                        else Some (paragraph (strip line)).
Proof. intros Hb. unfold markdown_block. cbv zeta. now rewrite Hb. Qed.

Lemma markdown_block_nonblank (line : string) :
  markdown_block line = None <-> is_empty (strip line) = true.
Proof.
  unfold markdown_block. cbv zeta.
  destruct (is_empty (strip line)); [tauto|].
  destruct (bulleted (strip line)); split; discriminate.
Qed.

Lemma length_omap_filter {A B} (f : A -> option B) (l : list A) :
  length (omap f l)
  = length (List.filter (fun a => match f a with Some _ => true | None => false end) l).
Proof.
  induction l as [|a l IH]; [reflexivity|].
  cbn [List.filter]. change (omap f (a :: l)) with
    (match f a with Some b => b :: omap f l | None => omap f l end).
  destruct (f a); cbn [length]; now rewrite IH.
Qed.

(** X28. Of a markdown text no line with something on it is lost: there is
    one block per line that is not blank, and none for a blank one. Of the
    text of the tasks only the bulleted lines count: when no line starts
    with a star or a dash, as in an answer that numbers its tasks, the
    tasks of the page are empty, while the same text as a markdown text
    gives one paragraph per non-blank line. *)
Theorem unbulleted_lines (text : string) :
  length (_markdown_blocks text)
  = length (List.filter (fun line => negb (is_empty (strip line))) (splitlines text))
  /\ (Forall (fun line => bulleted (strip line) = false) (splitlines text) ->
      _task_blocks text = []
      /\ _markdown_blocks text
         = map (fun line => paragraph (strip line))
               (List.filter (fun line => negb (is_empty (strip line)))
                  (splitlines text))).
Proof.
  split.
  - unfold _markdown_blocks. rewrite length_omap_filter. f_equal.
    apply List.filter_ext. intros line.
    pose proof (markdown_block_nonblank line) as Hnb.
    destruct (markdown_block line), (is_empty (strip line)); cbn [negb];
      try reflexivity.
    + destruct Hnb as [_ Hnb]. specialize (Hnb eq_refl). discriminate.
    + destruct Hnb as [Hnb _]. specialize (Hnb eq_refl). discriminate.
  - unfold _task_blocks, _markdown_blocks.
    induction 1 as [|line rest Hline _ [IHt IHm]]; [split; reflexivity|].
    split.
    + change (omap task_block (line :: rest)) with
        (match task_block line with
         | Some b => b :: omap task_block rest
         | None => omap task_block rest
         end).
      now rewrite (unbulleted_task line Hline).
    + change (omap markdown_block (line :: rest)) with
        (match markdown_block line with
         | Some b => b :: omap markdown_block rest
         | None => omap markdown_block rest
         end).
      rewrite (unbulleted_markdown line Hline). cbn [List.filter].
      destruct (is_empty (strip line)); cbn [negb map]; now rewrite IHm.
Qed.

Lemma unbulleted_lines_witness :
  _task_blocks Backstage.numbered_tasks = []
  /\ _markdown_blocks Backstage.numbered_tasks
     = [paragraph "1. Bob sends the report"; paragraph "2. Ann books a room"].
Proof.
  destruct (unbulleted_lines Backstage.numbered_tasks) as (_ & Hplain).
  destruct Hplain as (Htasks & Hmarkdown).
  - vm_compute. repeat constructor.
  - split; [exact Htasks|]. rewrite Hmarkdown. reflexivity.
Defined.

Section WithWorld.
Context {W : Type}.

(** X27. What [MeetingAnalyzer.analyze] returns can always be written as a
    page: [create_meeting_page] finds each of the six facets it asks for,
    the children of the page begin with the summary as it was returned,
    and the call fails only as the remote call fails, or on a response
    without a [url]. *)
Theorem analysis_always_renders (self : Analyzer W) (p : Path) (w : W)
    (results : list (string * string)) :
  value_of (analyze self p w) = Returns results ->
  exists summary blocks,
    results !! 0 = Some ("summary", summary)
    /\ children (list_to_map results)
       = Returns (heading_2 "📝 Summary" :: paragraph summary :: blocks)
    /\ forall (ws : Workspace W) (meeting_data : gmap string string) (w0 : W) e w1,
         create_meeting_page ws meeting_data (list_to_map results) w0 = (Raises e, w1) ->
         let made :=
           pages_create ws (DATABASE_ID ws)
             (default "Untitled Meeting" (meeting_data !! "title"))
             (default (now_isoformat ws w0) (meeting_data !! "date"))
             (heading_2 "📝 Summary" :: paragraph summary :: blocks) w0 in
         made = (Raises e, w1)
         \/ (made = (Returns (mkPage None), w1) /\ e = raise_ OtherException "'url'").
Proof.
  unfold analyze. destruct (read_text self w p) as [transcript|e]; [|discriminate].
  destruct (AnalyzerFacts.extract_shape self (prompts transcript) w) as (Hkeys & _).
  destruct (extract self (prompts transcript) w) as [[rs w1] t].
  unfold value_of in *. cbn [fst] in *. intros [= <-].
  destruct rs as [|[k1 v1] [|[k2 v2] [|[k3 v3] [|[k4 v4] [|[k5 v5] [|[k6 v6] [|? ?]]]]]]];
    try discriminate.
  cbn [map fst prompts] in Hkeys.
  injection Hkeys as -> -> -> -> -> ->.
  exists v1. eexists. split; [reflexivity|].
  assert (Hchildren : children (list_to_map
            [("summary", v1); ("participants", v2); ("tasks", v3);
             ("deadlines", v4); ("decisions", v5); ("insights", v6)])
          = Returns ([heading_2 "📝 Summary"; paragraph v1; heading_2 "👥 Participants"]
           ++ _bulleted_list (split_comma_space v2)
           ++ [heading_2 "✅ Tasks"] ++ _task_blocks v3
           ++ [heading_2 "📆 Deadlines & Reminders"] ++ _markdown_blocks v4
           ++ [heading_2 "📌 Key Decisions"] ++ _markdown_blocks v5
           ++ [heading_2 "💡 Insights & Recommendations"] ++ _markdown_blocks v6)).
  { unfold children, getitem. cbn [list_to_map foldr uncurry fst snd].
    rewrite lookup_insert_eq. cbn [rbind].
    rewrite lookup_insert_ne by discriminate. rewrite lookup_insert_eq. cbn [rbind].
    do 2 rewrite lookup_insert_ne by discriminate. rewrite lookup_insert_eq. cbn [rbind].
    do 3 rewrite lookup_insert_ne by discriminate. rewrite lookup_insert_eq. cbn [rbind].
    do 4 rewrite lookup_insert_ne by discriminate. rewrite lookup_insert_eq. cbn [rbind].
    do 5 rewrite lookup_insert_ne by discriminate. rewrite lookup_insert_eq. cbn [rbind].
    reflexivity. }
  split; [exact Hchildren|].
  intros ws meeting_data w0 e w2. unfold create_meeting_page. rewrite Hchildren.
  cbn [app].
  destruct (pages_create ws _ _ _ _ w0) as [[[[url|]]|e'] w3].
  - discriminate.
  - intros [= <- <-]. right. split; reflexivity.
  - intros [= <- <-]. left. reflexivity.
Qed.

End WithWorld.

Lemma analysis_always_renders_witness :
  exists summary blocks,
    children (list_to_map [("summary", "ok"); ("participants", "ok"); ("tasks", "ok");
                           ("deadlines", "ERROR"); ("decisions", "ok"); ("insights", "ok")])
    = Returns (heading_2 "📝 Summary" :: paragraph summary :: blocks)
    /\ summary = "ok".
Proof.
  destruct (analysis_always_renders Backstage.analyst a_wav desk
              [("summary", "ok"); ("participants", "ok"); ("tasks", "ok");
               ("deadlines", "ERROR"); ("decisions", "ok"); ("insights", "ok")])
    as (summary & blocks & Hfirst & Hchildren & _); [reflexivity|].
  exists summary, blocks. split; [exact Hchildren|].
  now injection Hfirst as <-.
Defined.

End WriterFacts.
